(** * The qsd8k gralloc allocator: handles, allocation paths and the free path

    A shallow embedding of [libgralloc/gralloc_priv.h] (the handle record, its
    constructor, destructor and [validate]) and of [libgralloc-qsd8k/gralloc.cpp]
    ([init_pmem_area], [gralloc_alloc_buffer], the framebuffer slot allocator,
    [gralloc_alloc] and [gralloc_free]).

    The target is a 32-bit ARM: [int], [intptr_t], [size_t] and [uint32_t] are
    all 32 bits wide.  Integers are carried as [Z]; wrap-around is written out
    with [uint32] and [sint32] where the C++ code converts or can overflow. *)

From Stdlib Require Import ZArith Lia String.
From stdpp Require Import gmap strings.

Local Open Scope Z_scope.

(** ** Machine integers *)

Definition uint32 (x : Z) : Z := x mod 2 ^ 32.
Definition sint32 (x : Z) : Z := (x + 2 ^ 31) mod 2 ^ 32 - 2 ^ 31.

(** ** Constants of the platform headers

    [gralloc.cpp] and [gralloc_priv.h] use names declared in headers that are
    not part of the repository ([errno.h], [asm/page.h],
    [cutils/native_handle.h], [hardware/gralloc.h], [system/graphics.h]).
    Their numeric values are parameters of the development.  The errno
    constants are positive numbers, as on every POSIX system. *)

Class Platform := {
  PAGE_SIZE : Z;
  sizeof_native_handle : Z;
  EINVAL : positive;
  ENOMEM : positive;
  EBADF : positive;
  GRALLOC_USAGE_HW_TEXTURE : Z;
  GRALLOC_USAGE_HW_RENDER : Z;
  GRALLOC_USAGE_HW_2D : Z;
  GRALLOC_USAGE_HW_FB : Z;
  HAL_PIXEL_FORMAT_RGBA_8888 : Z;
  HAL_PIXEL_FORMAT_BGRA_8888 : Z;
  HAL_PIXEL_FORMAT_RGB_565 : Z;
  HAL_PIXEL_FORMAT_RGBA_5551 : Z;
  HAL_PIXEL_FORMAT_RGBA_4444 : Z
}.

(** ** The handle record ([gralloc_priv.h]) *)

(** The [BUFFER_TYPE_*] tags are declared in the qsd8k variant of
    [gralloc_priv.h], which is not among the sources.  [gralloc.cpp] only
    compares a buffer type for equality with [BUFFER_TYPE_GPU0],
    [BUFFER_TYPE_GPU1] and [BUFFER_TYPE_PMEM], so the tags are an enumeration
    of the four names it uses; any other [int] behaves like
    [BUFFER_TYPE_FB] in every test of the file. *)
Inductive buffer_type :=
  | BUFFER_TYPE_GPU0
  | BUFFER_TYPE_GPU1
  | BUFFER_TYPE_FB
  | BUFFER_TYPE_PMEM.

Definition buffer_type_eqb (a b : buffer_type) : bool :=
  match a, b with
  | BUFFER_TYPE_GPU0, BUFFER_TYPE_GPU0
  | BUFFER_TYPE_GPU1, BUFFER_TYPE_GPU1
  | BUFFER_TYPE_FB, BUFFER_TYPE_FB
  | BUFFER_TYPE_PMEM, BUFFER_TYPE_PMEM => true
  | _, _ => false
  end.

Definition PRIV_FLAGS_FRAMEBUFFER : Z := 0x00000001.
Definition PRIV_FLAGS_USES_PMEM : Z := 0x00000002.

Definition LOCK_STATE_MAPPED : Z := Z.shiftl 1 30.

Definition sNumInts : Z := 8.
Definition sNumFds : Z := 1.
Definition sMagic : Z := 0x3141592.

(** [struct private_handle_t : public native_handle]: the three words of the
    [native_handle] header, the nine [int] fields of [gralloc_priv.h], and
    the two fields [phys] and [bufferType] that [gralloc.cpp] reads and
    writes (declared in the qsd8k header).  Every field is an arbitrary
    integer, so that a record can also stand for garbage memory. *)
Record private_handle_t := mk_handle {
  version : Z;
  numFds : Z;
  numInts : Z;
  fd : Z;
  magic : Z;
  flags : Z;
  size : Z;
  offset : Z;
  base : Z;
  lockState : Z;
  writeOwner : Z;
  pid : Z;
  phys : Z;
  bufferType : buffer_type
}.

Definition set_magic (v : Z) (h : private_handle_t) : private_handle_t :=
  mk_handle (version h) (numFds h) (numInts h) (fd h) v (flags h) (size h)
    (offset h) (base h) (lockState h) (writeOwner h) (pid h) (phys h)
    (bufferType h).

Definition set_offset (v : Z) (h : private_handle_t) : private_handle_t :=
  mk_handle (version h) (numFds h) (numInts h) (fd h) (magic h) (flags h)
    (size h) v (base h) (lockState h) (writeOwner h) (pid h) (phys h)
    (bufferType h).

Definition set_base (v : Z) (h : private_handle_t) : private_handle_t :=
  mk_handle (version h) (numFds h) (numInts h) (fd h) (magic h) (flags h)
    (size h) (offset h) v (lockState h) (writeOwner h) (pid h) (phys h)
    (bufferType h).

Definition set_lockState (v : Z) (h : private_handle_t) : private_handle_t :=
  mk_handle (version h) (numFds h) (numInts h) (fd h) (magic h) (flags h)
    (size h) (offset h) (base h) v (writeOwner h) (pid h) (phys h)
    (bufferType h).

Definition set_phys (v : Z) (h : private_handle_t) : private_handle_t :=
  mk_handle (version h) (numFds h) (numInts h) (fd h) (magic h) (flags h)
    (size h) (offset h) (base h) (lockState h) (writeOwner h) (pid h) v
    (bufferType h).

(** Every field of a record except the four that [validate] reads. *)
Definition set_payload (h : private_handle_t)
    (fd' flags' size' offset' base' lockState' writeOwner' pid' phys' : Z)
    (bt' : buffer_type) : private_handle_t :=
  mk_handle (version h) (numFds h) (numInts h) fd' (magic h) flags' size'
    offset' base' lockState' writeOwner' pid' phys' bt'.

Section Handle.
Context `{Platform}.

(** [private_handle_t(int fd, int size, int flags)] of [gralloc_priv.h],
    with the fourth argument [bufferType] that every call in
    [gralloc.cpp] passes.  [getpid()] is the argument [self].  [phys] has
    no initialiser; both callers assign it before the handle is
    published, and it starts as 0 here. *)
Definition new_private_handle_t (self : Z) (fd size flags : Z)
    (bufferType : buffer_type) : private_handle_t :=
  {| version := sizeof_native_handle;
     numFds := sNumFds;
     numInts := sNumInts;
     fd := fd;
     magic := sMagic;
     flags := flags;
     size := size;
     offset := 0;
     base := 0;
     lockState := 0;
     writeOwner := 0;
     pid := self;
     phys := 0;
     bufferType := bufferType |}.

(** [~private_handle_t()]. *)
Definition destroy_private_handle_t (h : private_handle_t) : private_handle_t :=
  set_magic 0 h.

(** [private_handle_t::validate]; [None] is the null pointer. *)
Definition validate (h : option private_handle_t) : Z :=
  match h with
  | None => - Z.pos EINVAL
  | Some h =>
      if negb (version h =? sizeof_native_handle)
         || negb (numInts h =? sNumInts)
         || negb (numFds h =? sNumFds)
      then - Z.pos EINVAL
      else if negb (magic h =? sMagic) then - Z.pos EINVAL
      else 0
  end.

(** [private_handle_t::usesPhysicallyContiguousMemory]. *)
Definition usesPhysicallyContiguousMemory (h : private_handle_t) : bool :=
  negb (Z.land (flags h) PRIV_FLAGS_USES_PMEM =? 0).

(** [private_handle_t::dynamicCast]: the pointer itself when [validate]
    accepts it, the null pointer otherwise. *)
Definition dynamicCast (h : option private_handle_t)
    : option private_handle_t :=
  if validate h =? 0 then h else None.

End Handle.

(** ** The module record and the process-wide state *)

(** Handles live on the C++ heap; a [buffer_handle_t] is a pointer to one,
    [None] being the null pointer. *)
Abbreviation buffer_handle_t := (option positive).

(** [struct private_module_t], restricted to the fields that [gralloc.cpp]
    reads or writes.  [finfo_line_length] and [info_yres] stand for
    [finfo.line_length] and [info.yres]. *)
Record private_module_t := mk_module {
  framebuffer : option positive;
  numBuffers : Z;
  bufferMask : Z;
  pmem_master : Z;
  pmem_master_base : Z;
  master_phys : Z;
  gpu_master : Z;
  gpu_master_base : Z;
  finfo_line_length : Z;
  info_yres : Z
}.

(** [HAL_MODULE_INFO_SYM], the statically initialised module. *)
Definition HAL_MODULE_INFO_SYM : private_module_t :=
  {| framebuffer := None;
     numBuffers := 0;
     bufferMask := 0;
     pmem_master := -1;
     pmem_master_base := 0;
     master_phys := 0;
     gpu_master := -1;
     gpu_master_base := 0;
     finfo_line_length := 0;
     info_yres := 0 |}.

Definition set_bufferMask (v : Z) (m : private_module_t) : private_module_t :=
  mk_module (framebuffer m) (numBuffers m) v (pmem_master m)
    (pmem_master_base m) (master_phys m) (gpu_master m) (gpu_master_base m)
    (finfo_line_length m) (info_yres m).

Definition set_pmem_master (fd' base' : Z) (m : private_module_t) : private_module_t :=
  mk_module (framebuffer m) (numBuffers m) (bufferMask m) fd' base'
    (master_phys m) (gpu_master m) (gpu_master_base m)
    (finfo_line_length m) (info_yres m).

Definition set_gpu_master (fd' base' : Z) (m : private_module_t) : private_module_t :=
  mk_module (framebuffer m) (numBuffers m) (bufferMask m) (pmem_master m)
    (pmem_master_base m) (master_phys m) fd' base'
    (finfo_line_length m) (info_yres m).

Definition set_master_phys (v : Z) (m : private_module_t) : private_module_t :=
  mk_module (framebuffer m) (numBuffers m) (bufferMask m) (pmem_master m)
    (pmem_master_base m) v (gpu_master m) (gpu_master_base m)
    (finfo_line_length m) (info_yres m).

(** ** Calls that leave the process, and the trace of what was done *)

Inductive pmem_ioctl :=
  | PMEM_GET_PHYS
  | PMEM_CONNECT (master_fd : Z)
  | PMEM_MAP (sub_offset sub_len : Z).

Inductive syscall :=
  | sys_open (path : string)
  | sys_mmap (length : Z) (fd : Z)
  | sys_ioctl (fd : Z) (request : pmem_ioctl)
  | sys_close (fd : Z)
  | sys_dup (fd : Z)
  | sys_ashmem_create_region (name : string) (size : Z).

(** What the system answers: a non-negative result (a descriptor, an
    address, the [offset] filled in by [PMEM_GET_PHYS]), or a failure that
    sets [errno] to a positive code. *)
Inductive reply :=
  | ROk (v : N)
  | RErr (e : positive).

(** The two file-static allocators [sAllocator] and [sGPUAllocator]. *)
Inductive pool :=
  | PoolPmem
  | PoolGpu.

Inductive event :=
  | EvSys (c : syscall) (r : reply)
  | EvAllocate (a : pool) (size : Z) (ret : Z)
  | EvDeallocate (a : pool) (offset : Z)
  | EvMemset (addr : Z) (len : Z)
  | EvUnregister (h : positive)
  | EvDelete (h : positive).

(** The value a call returns to the C++ code. *)
Definition syscall_ret (r : reply) : Z :=
  match r with
  | ROk v => Z.of_N v
  | RErr _ => -1
  end.

(** [ioctl] returns 0 on success. *)
Definition ioctl_ret (r : reply) : Z :=
  match r with
  | ROk _ => 0
  | RErr _ => -1
  end.

Definition fd_argument (c : syscall) : option Z :=
  match c with
  | sys_mmap _ fd | sys_ioctl fd _ | sys_close fd | sys_dup fd => Some fd
  | sys_open _ | sys_ashmem_create_region _ _ => None
  end.

(** ** Collaborators *)

(** [SimpleBestFitAllocator] ([allocator.h], not among the sources) through
    the three methods [gralloc.cpp] calls.  [allocate] returns the offset
    of the reserved extent, or a negative number. *)
Class Allocator (A : Type) := {
  allocator_size : A → Z;
  allocate : A → Z → Z * A;
  deallocate : A → Z → A
}.

(** What a call of [mapFrameBufferLocked] leaves behind: the [int] it
    returns, the module and the handle records as it left them (it may
    create the framebuffer handle), the value of [errno], and the calls it
    made into the system, latest first (it opens and maps the display
    device). *)
Record display_mapping := mk_mapping {
  map_ret : Z;
  map_module : private_module_t;
  map_heap : gmap positive private_handle_t;
  map_errno : Z;
  map_calls : list event
}.

(** The rest of the world: the kernel, which answers a call knowing what
    happened before; the process id; the value found in the local
    [bufferType] of [gralloc_alloc_buffer] when no branch assigns it; and the
    two functions of the module that live in other files.
    [mapFrameBufferLocked] receives the module, and works on the state of
    the process as it finds it: the calls made so far, [errno], the module
    and the handle records; the two allocators are [static] in
    [gralloc.cpp] and out of its reach.  [gralloc_unregister_buffer]
    receives the module as a pointer to const and works on the handle. *)
Class Environment := {
  kernel : list event → syscall → reply;
  getpid : Z;
  indeterminate_bufferType : buffer_type;
  mapFrameBufferLocked :
    list event → Z → private_module_t → gmap positive private_handle_t →
    display_mapping;
  gralloc_unregister_buffer : private_handle_t → Z * private_handle_t
}.

(** The device node that is opened for a buffer type. *)
Definition pmem_device (type : buffer_type) : option string :=
  match type with
  | BUFFER_TYPE_GPU0 => Some "/dev/pmem_gpu0"%string
  | BUFFER_TYPE_GPU1 => Some "/dev/pmem_gpu1"%string
  | BUFFER_TYPE_PMEM => Some "/dev/pmem"%string
  | BUFFER_TYPE_FB => None
  end.

(** [struct gralloc_context_t]; [gralloc_device_open] is the only place that
    fills it in. *)
Record gralloc_context_t := mk_context {
  ctx_bufferType : buffer_type
}.

Definition gralloc_device_open : gralloc_context_t :=
  {| ctx_bufferType := BUFFER_TYPE_GPU1 |}.

(** The state of the process as far as the allocator is concerned: the
    module, the two allocators (of some type [A]), the handle records by
    address, [errno], and the calls made so far, latest first. *)
Record world (A : Type) := mk_world {
  module : private_module_t;
  sAllocator : A;
  sGPUAllocator : A;
  heap : gmap positive private_handle_t;
  errno : Z;
  trace : list event
}.
Arguments mk_world {A}.
Arguments module {A}.
Arguments sAllocator {A}.
Arguments sGPUAllocator {A}.
Arguments heap {A}.
Arguments errno {A}.
Arguments trace {A}.

Section Gralloc.
Context `{Platform} {A : Type} `{Allocator A} `{Environment}.

(** *** A state monad with undefined behaviour

    [None] is a run that leaves defined behaviour: a read through a null or
    dangling pointer, a division by zero. *)
Definition M (R : Type) : Type := world A → option (R * world A).

Definition ret {R} (r : R) : M R := fun w => Some (r, w).

Definition bind {R S} (c : M R) (k : R → M S) : M S :=
  fun w => match c w with
           | Some (r, w') => k r w'
           | None => None
           end.

Definition undefined {R} : M R := fun _ => None.

(** A computation that stays within defined behaviour from every state. *)
Definition defined {R} (c : M R) : Prop :=
  ∀ w, ∃ x w', c w = Some (x, w').

Local Notation "'let!' x := c 'in' k" := (bind c (fun x => k))
  (at level 10, x pattern, c at level 100, k at level 200).

Definition get_module : M private_module_t :=
  fun w => Some (module w, w).

Definition modify_module (f : private_module_t → private_module_t) : M unit :=
  fun w => Some (tt, mk_world (f (module w)) (sAllocator w) (sGPUAllocator w)
                       (heap w) (errno w) (trace w)).

Definition get_errno : M Z :=
  fun w => Some (errno w, w).

Definition emit (e : event) : M unit :=
  fun w => Some (tt, mk_world (module w) (sAllocator w) (sGPUAllocator w)
                       (heap w) (errno w) (e :: trace w)).

(** A call on a negative descriptor fails with [EBADF] whatever the
    device; every other call is answered by the kernel. *)
Definition os_reply (tr : list event) (c : syscall) : reply :=
  match fd_argument c with
  | Some fd => if fd <? 0 then RErr EBADF else kernel tr c
  | None => kernel tr c
  end.

Definition do_syscall (c : syscall) : M reply :=
  fun w =>
    let r := os_reply (trace w) c in
    Some (r, mk_world (module w) (sAllocator w) (sGPUAllocator w) (heap w)
               (match r with RErr e => Z.pos e | ROk _ => errno w end)
               (EvSys c r :: trace w)).

(** Reading [*p]. *)
Definition load (p : positive) : M private_handle_t :=
  fun w => match heap w !! p with
           | Some h => Some (h, w)
           | None => None
           end.

Definition store (p : positive) (h : private_handle_t) : M unit :=
  fun w => Some (tt, mk_world (module w) (sAllocator w) (sGPUAllocator w)
                       (<[p := h]> (heap w)) (errno w) (trace w)).

(** [new private_handle_t(...)]: the record is placed at an address that
    holds no record. *)
Definition new (h : private_handle_t) : M positive :=
  fun w =>
    let p := fresh (dom (heap w)) in
    Some (p, mk_world (module w) (sAllocator w) (sGPUAllocator w)
               (<[p := h]> (heap w)) (errno w) (trace w)).

(** [delete hnd]: the destructor runs and the storage of the record is
    released.  No record is left at the address: a later read through the
    pointer is undefined, and a later [new] may place a record there
    again.  Deleting what is not there is undefined. *)
Definition delete (p : positive) : M unit :=
  fun w =>
    match heap w !! p with
    | Some _ =>
        Some (tt, mk_world (module w) (sAllocator w) (sGPUAllocator w)
                    (base.delete p (heap w)) (errno w)
                    (EvDelete p :: trace w))
    | None => None
    end.

(** The allocator behind a pool name. *)
Definition pool_state (a : pool) (w : world A) : A :=
  match a with
  | PoolPmem => sAllocator w
  | PoolGpu => sGPUAllocator w
  end.

Definition pool_size (a : pool) : M Z :=
  fun w => Some (match a with
                 | PoolPmem => allocator_size (sAllocator w)
                 | PoolGpu => allocator_size (sGPUAllocator w)
                 end, w).

Definition pool_allocate (a : pool) (size : Z) : M Z :=
  fun w =>
    match a with
    | PoolPmem =>
        let '(off, s) := allocate (sAllocator w) size in
        Some (off, mk_world (module w) s (sGPUAllocator w) (heap w)
                     (errno w) (EvAllocate a size off :: trace w))
    | PoolGpu =>
        let '(off, s) := allocate (sGPUAllocator w) size in
        Some (off, mk_world (module w) (sAllocator w) s (heap w)
                     (errno w) (EvAllocate a size off :: trace w))
    end.

Definition pool_deallocate (a : pool) (offset : Z) : M unit :=
  fun w =>
    match a with
    | PoolPmem =>
        Some (tt, mk_world (module w) (deallocate (sAllocator w) offset)
                    (sGPUAllocator w) (heap w) (errno w)
                    (EvDeallocate a offset :: trace w))
    | PoolGpu =>
        Some (tt, mk_world (module w) (sAllocator w)
                    (deallocate (sGPUAllocator w) offset) (heap w)
                    (errno w) (EvDeallocate a offset :: trace w))
    end.

(** *** [gralloc_priv.h] *)

Definition roundUpToPageSize (x : Z) : Z :=
  uint32 (Z.land (x + (PAGE_SIZE - 1)) (Z.lnot (PAGE_SIZE - 1))).

(** [validate] on a pointer. *)
Definition validate_handle (handle : buffer_handle_t) : M Z :=
  match handle with
  | None => ret (validate None)
  | Some p => let! h := load p in ret (validate (Some h))
  end.


(** An event that records a reservation in a pool, and one that records a
    call into the system. *)
Definition is_allocate (ev : event) : Prop :=
  match ev with
  | EvAllocate _ _ _ => True
  | _ => False
  end.

Definition is_sys (ev : event) : Prop :=
  match ev with
  | EvSys _ _ => True
  | _ => False
  end.

(** The device node an event opened, if it is an [open]; an event that maps
    memory; an event that asks for an anonymous region. *)
Definition opened (ev : event) : option string :=
  match ev with
  | EvSys (sys_open path) _ => Some path
  | _ => None
  end.

Definition is_mmap (ev : event) : Prop :=
  match ev with
  | EvSys (sys_mmap _ _) _ => True
  | _ => False
  end.

Definition is_ashmem (ev : event) : Prop :=
  match ev with
  | EvSys (sys_ashmem_create_region _ _) _ => True
  | _ => False
  end.

(** *** [init_pmem_area] *)

(** The three-way [open] that [init_pmem_area] and [gralloc_alloc_buffer]
    both spell out; the descriptor stays -1 for any other type. *)
Definition open_pmem_device (type : buffer_type) : M Z :=
  match pmem_device type with
  | Some path => let! r := do_syscall (sys_open path) in ret (syscall_ret r)
  | None => ret (-1)
  end.

Definition pool_of (type : buffer_type) : pool :=
  if buffer_type_eqb type BUFFER_TYPE_PMEM then PoolPmem else PoolGpu.

Definition init_pmem_area (type : buffer_type) : M Z :=
  let! master_fd := open_pmem_device type in
  let! master_heap_size := pool_size (pool_of type) in
  if 0 <=? master_fd then
    let! r := do_syscall (sys_mmap master_heap_size master_fd) in
    let! (err, base, master_fd) :=
      match r with
      | RErr _ =>
          let! e := get_errno in
          let! _ := do_syscall (sys_close master_fd) in
          ret (- e, 0, -1)
      | ROk v => ret (0, Z.of_N v, master_fd)
      end in
    if buffer_type_eqb type BUFFER_TYPE_PMEM then
      let! _ := modify_module (set_pmem_master master_fd base) in
      ret err
    else
      let! _ := modify_module (set_gpu_master master_fd base) in
      let! r := do_syscall (sys_ioctl master_fd PMEM_GET_PHYS) in
      match r with
      | RErr _ => ret (ioctl_ret r)
      | ROk region_offset =>
          let! _ := modify_module (set_master_phys (uint32 (Z.of_N region_offset))) in
          ret (ioctl_ret r)
      end
  else
    let! e := get_errno in
    ret (- e).

(** *** [gralloc_alloc_buffer] *)

Definition master_fd_of (m : private_module_t) (bufferType : buffer_type) : Z :=
  if buffer_type_eqb bufferType BUFFER_TYPE_PMEM then pmem_master m
  else gpu_master m.

Definition master_base_of (m : private_module_t) (bufferType : buffer_type) : Z :=
  if buffer_type_eqb bufferType BUFFER_TYPE_PMEM then pmem_master_base m
  else gpu_master_base m.

(** The statements under the label [try_ashmem]; [err] is 0 on entry on
    both ways in. *)
Definition try_ashmem (size : Z) : M (Z * Z) :=
  let! r := do_syscall (sys_ashmem_create_region "Buffer" size) in
  let fd := syscall_ret r in
  if fd <? 0 then
    let! e := get_errno in ret (fd, - e)
  else ret (fd, 0).

(** The choice of [flags] and [bufferType] from [usage] (lines 256-265).
    When neither test fires, [bufferType] is never assigned. *)
Definition choose_backing (dev : gralloc_context_t) (usage : Z)
    : Z * buffer_type :=
  if negb (Z.land usage (Z.lor GRALLOC_USAGE_HW_2D GRALLOC_USAGE_HW_RENDER) =? 0)
  then (PRIV_FLAGS_USES_PMEM, ctx_bufferType dev)
  else if negb (Z.land usage GRALLOC_USAGE_HW_TEXTURE =? 0)
  then (PRIV_FLAGS_USES_PMEM, BUFFER_TYPE_PMEM)
  else (0, indeterminate_bufferType).

(** The branch taken when the master descriptor is usable (lines
    303-344).  The result is [(err, fd, base, offset, lockState)]. *)
Definition alloc_from_pool (bufferType : buffer_type) (size master_fd : Z)
    : M (Z * Z * Z * Z * Z) :=
  let! m := get_module in
  let base := master_base_of m bufferType in
  let! offset := pool_allocate (pool_of bufferType) size in
  let lockState := Z.lor 0 LOCK_STATE_MAPPED in
  if offset <? 0 then
    ret (- Z.pos ENOMEM, -1, base, offset, lockState)
  else
    let! fd := open_pmem_device bufferType in
    let! r := do_syscall (sys_ioctl fd (PMEM_CONNECT master_fd)) in
    let! err :=
      if ioctl_ret r <? 0 then
        let! e := get_errno in ret (- e)
      else
        let! r := do_syscall (sys_ioctl fd (PMEM_MAP offset size)) in
        ret (ioctl_ret r) in
    if err <? 0 then
      let! _ := do_syscall (sys_close fd) in
      let! _ := pool_deallocate (pool_of bufferType) offset in
      ret (err, -1, base, offset, lockState)
    else
      ret (err, fd, base, offset, lockState).

(** Lines 357-367: the handle is built only when [err] is 0. *)
Definition publish_handle (err fd size flags : Z) (bufferType : buffer_type)
    (base offset lockState : Z) : M (Z * buffer_handle_t) :=
  if err =? 0 then
    let! m := get_module in
    let hnd := new_private_handle_t getpid fd (sint32 size) flags bufferType in
    let hnd := set_offset offset hnd in
    let hnd := set_base (sint32 (sint32 base + offset)) hnd in
    let hnd := set_lockState lockState hnd in
    let hnd :=
      if buffer_type_eqb bufferType BUFFER_TYPE_GPU1
      then set_phys (sint32 (master_phys m + offset)) hnd
      else set_phys 0 hnd in
    let! p := new hnd in
    ret (err, Some p)
  else ret (err, None).

Definition gralloc_alloc_buffer (dev : gralloc_context_t) (size usage : Z)
    : M (Z * buffer_handle_t) :=
  let size := roundUpToPageSize size in
  let '(flags, bufferType) := choose_backing dev usage in
  if Z.land flags PRIV_FLAGS_USES_PMEM =? 0 then
    let! (fd, err) := try_ashmem size in
    publish_handle err fd size flags bufferType 0 0 0
  else
    let! m := get_module in
    let master_fd := master_fd_of m bufferType in
    let! err :=
      if master_fd =? -1 then init_pmem_area bufferType else ret 0 in
    let! m := get_module in
    let master_fd := master_fd_of m bufferType in
    if 0 <=? master_fd then
      let! (err, fd, base, offset, lockState) :=
        alloc_from_pool bufferType size master_fd in
      publish_handle err fd size flags bufferType base offset lockState
    else if Z.land usage GRALLOC_USAGE_HW_2D =? 0 then
      (* the caller didn't request PMEM, so we can try something else *)
      let flags := Z.land flags (Z.lnot PRIV_FLAGS_USES_PMEM) in
      let! (fd, err) := try_ashmem size in
      publish_handle err fd size flags bufferType 0 0 0
    else
      publish_handle err (-1) size flags bufferType 0 0 0.

(** *** The framebuffer slot allocator *)

(** The loop "find a free slot": [fuel] iterations remain, [i] is the loop
    counter.  The result is the slot whose bit is to be set, if the loop
    left through [break], and the final [vaddr]. *)
Fixpoint find_free_slot (bufferMask bufferSize : Z) (fuel : nat)
    (i vaddr : Z) : option Z * Z :=
  match fuel with
  | O => (None, vaddr)
  | S fuel =>
      if Z.land bufferMask (uint32 (Z.shiftl 1 i)) =? 0 then (Some i, vaddr)
      else find_free_slot bufferMask bufferSize fuel (i + 1)
             (sint32 (vaddr + bufferSize))
  end.

(** [m->finfo.line_length * m->info.yres], the size of one slot, as
    [gralloc_alloc_framebuffer_locked] and [gralloc_free] both compute
    it. *)
Definition slot_size (m : private_module_t) : Z :=
  uint32 (finfo_line_length m * info_yres m).

(** The display is mapped with more than one buffer: the module points at
    the framebuffer handle [fb], it has between 2 and 31 slots, the slot
    bitmask has no bit beyond them, and the base address of the surface
    is an [int]. *)
Record scanout_ready (wd : world A) (pfb : positive) (fb : private_handle_t)
    : Prop := {
  ready_framebuffer : framebuffer (module wd) = Some pfb;
  ready_handle : heap wd !! pfb = Some fb;
  ready_count : 1 < numBuffers (module wd) < 32;
  ready_mask : 0 ≤ bufferMask (module wd) < 2 ^ numBuffers (module wd);
  ready_base : sint32 (base fb) = base fb
}.

(** The slots are not empty and the whole surface lies in the 32-bit
    address space. *)
Definition surface_fits (wd : world A) : Prop :=
  0 < slot_size (module wd)
  ∧ numBuffers (module wd) * slot_size (module wd) ≤ 2 ^ 32.

(** [p] points at a valid handle for slot [i] of the surface, other than
    the framebuffer handle itself. *)
Record scanout_handle (wd : world A) (pfb : positive) (fb : private_handle_t)
    (p : positive) (r : private_handle_t) (i : Z) : Prop := {
  slot_other : p ≠ pfb;
  slot_record : heap wd !! p = Some r;
  slot_valid : validate (Some r) = 0;
  slot_flag : Z.land (flags r) PRIV_FLAGS_FRAMEBUFFER ≠ 0;
  slot_index : 0 ≤ i < numBuffers (module wd);
  slot_base : base r = sint32 (base fb + i * slot_size (module wd))
}.

(** [m->framebuffer->...]: undefined when the pointer is null. *)
Definition load_framebuffer : M private_handle_t :=
  let! m := get_module in
  match framebuffer m with
  | None => undefined
  | Some p => load p
  end.

(** [mapFrameBufferLocked(m)]: the calls it makes are added to the
    trace. *)
Definition call_mapFrameBufferLocked : M Z :=
  fun w =>
    let r := mapFrameBufferLocked (trace w) (errno w) (module w) (heap w) in
    Some (map_ret r,
          mk_world (map_module r) (sAllocator w) (sGPUAllocator w)
            (map_heap r) (map_errno r) (map_calls r ++ trace w)).

(** The calls that [mapFrameBufferLocked] makes when a scanout request
    finds the process in the state [w]: none when the display is mapped
    already. *)
Definition display_calls (w : world A) : list event :=
  match framebuffer (module w) with
  | Some _ => []
  | None =>
      map_calls (mapFrameBufferLocked (trace w) (errno w) (module w) (heap w))
  end.

Definition gralloc_alloc_framebuffer_locked (dev : gralloc_context_t)
    (size usage : Z) : M (Z * buffer_handle_t) :=
  let! m := get_module in
  let! err :=
    match framebuffer m with
    | None => call_mapFrameBufferLocked
    | Some _ => ret 0
    end in
  if err <? 0 then ret (err, None)
  else
    let! m := get_module in
    let bufferMask' := bufferMask m in
    let numBuffers' := numBuffers m in
    let bufferSize := slot_size m in
    if numBuffers' =? 1 then
      let newUsage :=
        Z.lor (Z.land usage (Z.lnot GRALLOC_USAGE_HW_FB)) GRALLOC_USAGE_HW_2D in
      gralloc_alloc_buffer dev bufferSize newUsage
    else if uint32 (Z.shiftl 1 numBuffers' - 1) <=? bufferMask' then
      (* We ran out of buffers. *)
      ret (- Z.pos ENOMEM, None)
    else
      let! fb := load_framebuffer in
      let vaddr := base fb in
      let! r := do_syscall (sys_dup (fd fb)) in
      let! p := new (new_private_handle_t getpid (syscall_ret r) (sint32 size)
                       (Z.lor PRIV_FLAGS_USES_PMEM PRIV_FLAGS_FRAMEBUFFER)
                       BUFFER_TYPE_FB) in
      let '(slot, vaddr) :=
        find_free_slot bufferMask' bufferSize (Z.to_nat numBuffers') 0 vaddr in
      let! _ :=
        match slot with
        | Some i =>
            modify_module
              (fun m => set_bufferMask (Z.lor (bufferMask m) (uint32 (Z.shiftl 1 i))) m)
        | None => ret tt
        end in
      let! hnd := load p in
      let hnd := set_base vaddr hnd in
      let hnd := set_offset (sint32 (vaddr - base fb)) hnd in
      let hnd := set_phys (sint32 (phys fb + offset hnd)) hnd in
      let! _ := store p hnd in
      ret (0, Some p).

(** The mutex of the module is taken around the call; runs are sequential
    here. *)
Definition gralloc_alloc_framebuffer (dev : gralloc_context_t)
    (size usage : Z) : M (Z * buffer_handle_t) :=
  gralloc_alloc_framebuffer_locked dev size usage.

(** *** [gralloc_alloc] *)

(** The [switch] on the pixel format. *)
Definition bytes_per_pixel (format : Z) : option Z :=
  if (format =? HAL_PIXEL_FORMAT_RGBA_8888)
     || (format =? HAL_PIXEL_FORMAT_BGRA_8888) then Some 4
  else if (format =? HAL_PIXEL_FORMAT_RGB_565)
          || (format =? HAL_PIXEL_FORMAT_RGBA_5551)
          || (format =? HAL_PIXEL_FORMAT_RGBA_4444) then Some 2
  else None.

(** [pHandle] and [pStride] say whether the two out-pointers are non-null.
    The result is the returned [int], the pointer stored in [*pHandle] and
    the number stored in [*pStride], when something is stored. *)
Definition gralloc_alloc (dev : gralloc_context_t) (w h format usage : Z)
    (pHandle pStride : bool) : M (Z * buffer_handle_t * option Z) :=
  if negb pHandle || negb pStride then ret (- Z.pos EINVAL, None, None)
  else
    let align := 4 in
    match bytes_per_pixel format with
    | None => ret (- Z.pos EINVAL, None, None)
    | Some bpp =>
        let bpr :=
          uint32 (Z.land (sint32 (sint32 (w * bpp) + (align - 1)))
                    (Z.lnot (align - 1))) in
        let size := uint32 (bpr * uint32 h) in
        let stride := bpr / bpp in
        let! (err, hnd) :=
          if negb (Z.land usage GRALLOC_USAGE_HW_FB =? 0)
          then gralloc_alloc_framebuffer dev size usage
          else gralloc_alloc_buffer dev size usage in
        if err <? 0 then ret (err, hnd, None)
        else ret (0, hnd, Some (sint32 stride))
    end.

(** *** [gralloc_free] *)

(** [memset(addr, 0, len)].  The address space is not part of the
    state: the call is recorded with its arguments, and the run goes on as
    it does when the range is mapped.  On a range that is not mapped the
    real call faults at this point. *)
Definition memset (addr len : Z) : M unit := emit (EvMemset addr len).

Definition call_gralloc_unregister_buffer (p : positive) : M Z :=
  let! h := load p in
  let '(r, h) := gralloc_unregister_buffer h in
  let! _ := store p h in
  let! _ := emit (EvUnregister p) in
  ret r.

(** Lines 424-442: what is given back depends on the flags of the
    handle.  The second test is [true || ...], so every handle that is not
    a framebuffer slot takes the pmem branch. *)
Definition release_backing (hnd : private_handle_t) : M unit :=
  if negb (Z.land (flags hnd) PRIV_FLAGS_FRAMEBUFFER =? 0) then
    (* free this buffer *)
    let! m := get_module in
    let bufferSize := slot_size m in
    let! fb := load_framebuffer in
    if bufferSize =? 0 then undefined
    else
      let index :=
        sint32 (uint32 (sint32 (base hnd - base fb)) / bufferSize) in
      modify_module
        (fun m => set_bufferMask
                    (Z.land (bufferMask m)
                       (uint32 (Z.lnot (Z.shiftl 1 index)))) m)
  else if true then
    if 0 <=? fd hnd then
      if buffer_type_eqb (bufferType hnd) BUFFER_TYPE_PMEM then
        let! _ := pool_deallocate PoolPmem (offset hnd) in
        memset (base hnd) (size hnd)
      else
        let! _ := pool_deallocate PoolGpu (offset hnd) in
        memset (base hnd) (size hnd)
    else ret tt
  else ret tt.

(** Lines 444-450: unregister, close the descriptor, delete the record. *)
Definition unregister_close_delete (p : positive) : M Z :=
  let! _ := call_gralloc_unregister_buffer p in
  let! hnd := load p in
  let! _ := do_syscall (sys_close (fd hnd)) in
  let! _ := delete p in
  ret 0.

Definition gralloc_free (handle : buffer_handle_t) : M Z :=
  let! v := validate_handle handle in
  if v <? 0 then ret (- Z.pos EINVAL)
  else
    match handle with
    | None => undefined
    | Some p =>
        let! hnd := load p in
        let! _ := release_backing hnd in
        unregister_close_delete p
    end.

End Gralloc.

(** ** A concrete device, for running the code

    The definitions above are parametric in the headers, the allocator and
    the environment.  The ones below fix them, so that the functions can be
    evaluated on concrete requests. *)

(** The values of the Android headers on 32-bit ARM Linux: 4 KiB pages, a
    [native_handle] of three [int]s, the errno numbers of [errno.h], the
    usage bits of [hardware/gralloc.h] and the pixel formats of the HAL. *)
Definition android_arm : Platform :=
  {| PAGE_SIZE := 4096;
     sizeof_native_handle := 12;
     EINVAL := 22;
     ENOMEM := 12;
     EBADF := 9;
     GRALLOC_USAGE_HW_TEXTURE := 0x00000100;
     GRALLOC_USAGE_HW_RENDER := 0x00000200;
     GRALLOC_USAGE_HW_2D := 0x00000400;
     GRALLOC_USAGE_HW_FB := 0x00001000;
     HAL_PIXEL_FORMAT_RGBA_8888 := 1;
     HAL_PIXEL_FORMAT_BGRA_8888 := 5;
     HAL_PIXEL_FORMAT_RGB_565 := 4;
     HAL_PIXEL_FORMAT_RGBA_5551 := 6;
     HAL_PIXEL_FORMAT_RGBA_4444 := 7 |}.

(** Modelled from the spec: [SimpleBestFitAllocator] is declared in
    [allocator.h] and implemented in [allocator.cpp], neither of which is
    among the sources.  [BestFit] follows section 4.1 of the specification:
    requests are rounded up to the page size; [allocate] takes the smallest
    free extent that is large enough, the lowest one among equals, splits
    it and returns its start, or fails with a negative number when nothing
    fits; [deallocate] frees the extent that starts at the offset and
    merges it with free neighbours, and leaves the state alone when no
    allocated extent starts there. *)
Module BestFit.

(** An extent of the pool: where it starts, how long it is, and whether it
    is free. *)
Record chunk := mk_chunk {
  start : Z;
  len : Z;
  free : bool
}.

(** The extents of a pool in increasing order of [start]; they cover the
    pool. *)
Record t := mk {
  heap_size : Z;
  chunks : list chunk
}.

(** The allocator of a pool of [n] bytes: one free extent. *)
Definition create (n : Z) : t := mk n [mk_chunk 0 n true].

Definition page : Z := 4096.

Definition round_up (n : Z) : Z := (n + (page - 1)) / page * page.

(** The free extent of least length that can hold [n] bytes; of two
    extents of the same length the one met first, at the lower offset,
    is kept. *)
Fixpoint best (n : Z) (l : list chunk) : option chunk :=
  match l with
  | [] => None
  | c :: l =>
      let r := best n l in
      if free c && (n <=? len c) then
        match r with
        | Some b => if len b <? len c then Some b else Some c
        | None => Some c
        end
      else r
  end.

(** Cut [n] bytes off the front of the extent that starts at [s]. *)
Fixpoint split (s n : Z) (l : list chunk) : list chunk :=
  match l with
  | [] => []
  | c :: l =>
      if start c =? s then
        if n <? len c
        then mk_chunk s n false :: mk_chunk (s + n) (len c - n) true :: l
        else mk_chunk s (len c) false :: l
      else c :: split s n l
  end.

Fixpoint release (s : Z) (l : list chunk) : list chunk :=
  match l with
  | [] => []
  | c :: l =>
      if (start c =? s) && negb (free c)
      then mk_chunk (start c) (len c) true :: l
      else c :: release s l
  end.

(** Merge neighbouring free extents. *)
Fixpoint coalesce (l : list chunk) : list chunk :=
  match l with
  | [] => []
  | c :: l =>
      match coalesce l with
      | d :: l' =>
          if free c && free d
          then mk_chunk (start c) (len c + len d) true :: l'
          else c :: d :: l'
      | [] => [c]
      end
  end.

(** Modelled from the spec: [allocate(size) -> offset | OutOfSpace],
    best fit with the lowest offset among equals. *)
Definition allocate (a : t) (n : Z) : Z * t :=
  let n := round_up n in
  match best n (chunks a) with
  | Some c => (start c, mk (heap_size a) (split (start c) n (chunks a)))
  | None => (-12, a)
  end.

(** Modelled from the spec: [deallocate(offset)], with coalescing. *)
Definition deallocate (a : t) (s : Z) : t :=
  mk (heap_size a) (coalesce (release s (chunks a))).

End BestFit.

(** [BestFit] as the allocator of both pools. *)
Definition bestfit_allocator : Allocator BestFit.t :=
  {| allocator_size := BestFit.heap_size;
     allocate := BestFit.allocate;
     deallocate := BestFit.deallocate |}.

(** [sAllocator(10*1024*1024)] and [sGPUAllocator(3*1024*1024)]. *)
Definition sAllocator_init : BestFit.t := BestFit.create (10 * 1024 * 1024).
Definition sGPUAllocator_init : BestFit.t := BestFit.create (3 * 1024 * 1024).

(** A kernel on which every call succeeds: a descriptor is numbered after
    the calls made so far, mappings land at [0x40000000], and the physical
    base reported by [PMEM_GET_PHYS] is [0x02000000]. *)
Definition kernel_ok (tr : list event) (c : syscall) : reply :=
  match c with
  | sys_open _ | sys_dup _ | sys_ashmem_create_region _ _ =>
      ROk (N.of_nat (3 + length tr))
  | sys_mmap _ _ => ROk 0x40000000%N
  | sys_ioctl _ PMEM_GET_PHYS => ROk 0x02000000%N
  | sys_ioctl _ _ | sys_close _ => ROk 0%N
  end.

(** The same kernel on a board without pmem devices: [open] on them fails
    with [ENODEV]. *)
Definition kernel_no_pmem (tr : list event) (c : syscall) : reply :=
  match c with
  | sys_open _ => RErr 19
  | _ => kernel_ok tr c
  end.

(** The same kernel when the pmem driver refuses [PMEM_MAP] with
    [EINVAL]. *)
Definition kernel_map_fails (tr : list event) (c : syscall) : reply :=
  match c with
  | sys_ioctl _ (PMEM_MAP _ _) => RErr 22
  | _ => kernel_ok tr c
  end.

(** Modelled from the spec: [mapFrameBufferLocked] is implemented in
    [framebuffer.cpp], which is not among the sources.  Section 6 of the
    specification has it map the display surface once and report its base
    address, the size of a buffer, the number of buffers and the line
    stride.  Here the display has 480 by 800 pixels of four bytes and two
    buffers; the routine opens the display device on descriptor 20 and
    maps the surface at [0x50000000]. *)
Definition display_map (tr : list event) (err : Z) (m : private_module_t)
    (hp : gmap positive private_handle_t) : display_mapping :=
  let p := fresh (dom hp) in
  let fb :=
    set_base 0x50000000
      (@new_private_handle_t android_arm 1 20 (2 * 1920 * 800)
         PRIV_FLAGS_FRAMEBUFFER BUFFER_TYPE_FB) in
  {| map_ret := 0;
     map_module :=
       mk_module (Some p) 2 0 (pmem_master m) (pmem_master_base m)
         (master_phys m) (gpu_master m) (gpu_master_base m) 1920 800;
     map_heap := <[p := fb]> hp;
     map_errno := err;
     map_calls :=
       [EvSys (sys_mmap (2 * 1920 * 800) 20) (ROk 0x50000000);
        EvSys (sys_open "/dev/graphics/fb0") (ROk 20)] |}.

(** Modelled from the spec: [gralloc_unregister_buffer] is implemented in
    [mapper.cpp], which is not among the sources; section 6 of the
    specification calls it a bookkeeping hook whose failures do not block
    the free path.  In this environment it returns 0 and leaves the handle
    as it is.  The kernel is [k], an unassigned [bufferType] reads as [bt],
    and the process id is 1. *)
Definition environment_reading (bt : buffer_type)
    (k : list event → syscall → reply) : Environment :=
  {| kernel := k;
     getpid := 1;
     indeterminate_bufferType := bt;
     mapFrameBufferLocked := display_map;
     gralloc_unregister_buffer := fun h => (0, h) |}.

Definition environment (k : list event → syscall → reply) : Environment :=
  environment_reading BUFFER_TYPE_GPU0 k.

(** The process right after the module is loaded. *)
Definition boot : world BestFit.t :=
  mk_world HAL_MODULE_INFO_SYM sAllocator_init sGPUAllocator_init ∅ 0 [].

(** The entry points on the concrete device, for a given kernel. *)
Abbreviation device_alloc k :=
  (@gralloc_alloc android_arm BestFit.t bestfit_allocator (environment k)
     gralloc_device_open).

Abbreviation device_alloc_buffer k :=
  (@gralloc_alloc_buffer android_arm BestFit.t bestfit_allocator (environment k)
     gralloc_device_open).

Abbreviation device_alloc_framebuffer k :=
  (@gralloc_alloc_framebuffer android_arm BestFit.t bestfit_allocator
     (environment k) gralloc_device_open).

Abbreviation device_free k :=
  (@gralloc_free android_arm BestFit.t bestfit_allocator (environment k)).

(** What a run returned, and the calls it added to the trace of [wd]. *)
Definition returned {R : Type} (run : option (R * world BestFit.t)) : option R :=
  fst <$> run.

Definition events_since {R : Type} (wd : world BestFit.t)
    (run : option (R * world BestFit.t)) : option (list event) :=
  (λ x, take (length (trace x.2) - length (trace wd)) (trace x.2)) <$> run.

(** A handle on an anonymous region of four pages, as
    [gralloc_alloc_buffer] builds it for a request without hardware usage:
    descriptor 4, no flags, offset and base 0. *)
Definition ashmem_handle : private_handle_t :=
  @new_private_handle_t android_arm 1 4 16384 0 BUFFER_TYPE_GPU0.


(** The framebuffer handle of the display of [display_map], and the handle
    of its second slot. *)
Definition display_handle : private_handle_t :=
  set_base 0x50000000
    (@new_private_handle_t android_arm 1 20 (2 * 1920 * 800)
       PRIV_FLAGS_FRAMEBUFFER BUFFER_TYPE_FB).

Definition slot1_handle : private_handle_t :=
  set_offset (1920 * 800)
    (set_base (0x50000000 + 1920 * 800)
       (@new_private_handle_t android_arm 1 21 (1920 * 800)
          (Z.lor PRIV_FLAGS_USES_PMEM PRIV_FLAGS_FRAMEBUFFER) BUFFER_TYPE_FB)).

(** A process whose display is mapped and whose two slots are both taken;
    the handle of slot 1 is at address 3. *)
Definition world_display_full : world BestFit.t :=
  mk_world
    (mk_module (Some 1%positive) 2 3 (-1) 0 0 (-1) 0 1920 800)
    sAllocator_init sGPUAllocator_init
    (<[3%positive := slot1_handle]> {[1%positive := display_handle]})
    0 [].

(** A texture buffer and a render buffer are allocated (one extent at offset
    0 of each pool), then a buffer without hardware usage, and the third one
    is freed; [bt] is what the unassigned [bufferType] of the third request
    reads as.  The result shows the flags of the third handle, the extents
    before and after the free of the pool that [bt] selects, and what the
    free did. *)
Definition free_of_ashmem_buffer (bt : buffer_type)
    : option (Z * list BestFit.chunk * list BestFit.chunk * list event) :=
  let alloc :=
    @gralloc_alloc android_arm BestFit.t bestfit_allocator
      (environment_reading bt kernel_ok) gralloc_device_open in
  let free :=
    @gralloc_free android_arm BestFit.t bestfit_allocator
      (environment_reading bt kernel_ok) in
  match alloc 64 64 1 0x100 true true boot with
  | Some (_, wd1) =>
      match alloc 64 64 1 0x200 true true wd1 with
      | Some (_, wd2) =>
          match alloc 64 64 1 0 true true wd2 with
          | Some ((_, Some p, _), wd3) =>
              match heap wd3 !! p, free (Some p) wd3 with
              | Some r, Some (_, wd4) =>
                  Some (flags r,
                        BestFit.chunks (pool_state (pool_of bt) wd3),
                        BestFit.chunks (pool_state (pool_of bt) wd4),
                        take (length (trace wd4) - length (trace wd3))
                          (trace wd4))
              | _, _ => None
              end
          | _ => None
          end
      | None => None
      end
  | None => None
  end.

(** The state in which a request for the GPU leaves the process when the
    driver refuses [PMEM_MAP], and the one a request without hardware usage
    leaves. *)
Definition world_after_refused_map : world BestFit.t :=
  match device_alloc_buffer kernel_map_fails 16384 0x200 boot with
  | Some (_, w) => w
  | None => boot
  end.

Definition world_after_plain_alloc : world BestFit.t :=
  match device_alloc kernel_ok 64 64 1 0 true true boot with
  | Some (_, w) => w
  | None => boot
  end.

(** ** More states of the concrete device *)

(** Modelled from the spec: section 6 lets the mapping of the display
    surface end in an error.  On this device there is no display: the
    [open] of the display device fails with [ENODEV], and
    [mapFrameBufferLocked] returns [-ENODEV] and leaves the module and the
    handle records as they were. *)
Definition display_absent (tr : list event) (err : Z) (m : private_module_t)
    (hp : gmap positive private_handle_t) : display_mapping :=
  {| map_ret := -19;
     map_module := m;
     map_heap := hp;
     map_errno := 19;
     map_calls := [EvSys (sys_open "/dev/graphics/fb0") (RErr 19)] |}.

Definition environment_without_display : Environment :=
  {| kernel := kernel_ok;
     getpid := 1;
     indeterminate_bufferType := BUFFER_TYPE_GPU0;
     mapFrameBufferLocked := display_absent;
     gralloc_unregister_buffer := fun h => (0, h) |}.

(** The same kernel when a pool cannot be mapped: [mmap] fails with
    [ENOMEM]. *)
Definition kernel_mmap_fails (tr : list event) (c : syscall) : reply :=
  match c with
  | sys_mmap _ _ => RErr 12
  | _ => kernel_ok tr c
  end.

(** The state in which the booted device is left by a texture request of
    four pages, and the handle it hands out. *)
Definition world_after_texture_alloc : world BestFit.t :=
  match device_alloc_buffer kernel_ok 16384 0x100 boot with
  | Some (_, w) => w
  | None => boot
  end.

Definition texture_handle : private_handle_t :=
  match heap world_after_texture_alloc !! 1%positive with
  | Some r => r
  | None => ashmem_handle
  end.

(** The state left by a second texture request of four pages. *)
Definition world_after_second_texture_alloc : world BestFit.t :=
  match device_alloc_buffer kernel_ok 16384 0x100 world_after_texture_alloc with
  | Some (_, w) => w
  | None => world_after_texture_alloc
  end.

(** The states left by a render request for 64 by 64 pixels of RGBA_8888,
    by a render request for the whole GPU pool, and by a request without
    hardware usage for 63 by 64 pixels of RGB_565. *)
Definition world_after_render_alloc : world BestFit.t :=
  match device_alloc kernel_ok 64 64 1 0x200 true true boot with
  | Some (_, w) => w
  | None => boot
  end.

Definition world_gpu_pool_taken : world BestFit.t :=
  match device_alloc_buffer kernel_ok (3 * 1024 * 1024) 0x200 boot with
  | Some (_, w) => w
  | None => boot
  end.

Definition world_after_rgb565_alloc : world BestFit.t :=
  match device_alloc kernel_ok 63 64 4 0 true true boot with
  | Some (_, w) => w
  | None => boot
  end.

(** The state left by freeing the texture buffer of
    [world_after_texture_alloc], and the one left by a further texture
    request of four pages after that. *)
Definition world_after_texture_free : world BestFit.t :=
  match device_free kernel_ok (Some 1%positive) world_after_texture_alloc with
  | Some (_, w) => w
  | None => world_after_texture_alloc
  end.

Definition world_after_texture_realloc : world BestFit.t :=
  match device_alloc_buffer kernel_ok 16384 0x100 world_after_texture_free with
  | Some (_, w) => w
  | None => world_after_texture_free
  end.


(** A process that holds a valid handle whose descriptor is -1. *)
Definition closed_handle : private_handle_t :=
  @new_private_handle_t android_arm 1 (-1) 16384 0 BUFFER_TYPE_GPU0.

Definition world_with_closed_handle : world BestFit.t :=
  mk_world HAL_MODULE_INFO_SYM sAllocator_init sGPUAllocator_init
    {[1%positive := closed_handle]} 0 [].

(** A process that holds the handle of a framebuffer slot although its
    display is not mapped. *)
Definition world_slot_without_display : world BestFit.t :=
  mk_world HAL_MODULE_INFO_SYM sAllocator_init sGPUAllocator_init
    {[3%positive := slot1_handle]} 0 [].

(** Processes whose display is mapped: two buffers of which the first is
    taken; two buffers, both free; a single buffer. *)
Definition world_display_half : world BestFit.t :=
  mk_world
    (mk_module (Some 1%positive) 2 1 (-1) 0 0 (-1) 0 1920 800)
    sAllocator_init sGPUAllocator_init {[1%positive := display_handle]} 0 [].

Definition world_display_free : world BestFit.t :=
  mk_world
    (mk_module (Some 1%positive) 2 0 (-1) 0 0 (-1) 0 1920 800)
    sAllocator_init sGPUAllocator_init {[1%positive := display_handle]} 0 [].


(** The states left by one and by two scanout requests on
    [world_display_free], and by one on [world_display_single]. *)
Definition world_after_first_scanout : world BestFit.t :=
  match device_alloc_framebuffer kernel_ok (1920 * 800) 0x1000
          world_display_free with
  | Some (_, w) => w
  | None => world_display_free
  end.

Definition world_after_second_scanout : world BestFit.t :=
  match device_alloc_framebuffer kernel_ok (1920 * 800) 0x1000
          world_after_first_scanout with
  | Some (_, w) => w
  | None => world_after_first_scanout
  end.



(** * Properties *)

Section Properties.
Context {P : Platform} {A : Type} {Al : Allocator A} {E : Environment}.

Implicit Types (wd : world A) (r : private_handle_t) (p : positive).

(** ** Running the monad *)

Lemma bind_Some {R S} (c : M R) (k : R → M S) wd y wd' :
  bind c k wd = Some (y, wd') →
  ∃ x wd1, c wd = Some (x, wd1) ∧ k x wd1 = Some (y, wd').
Proof.
  unfold bind. destruct (c wd) as [[x wd1]|]; [eauto | discriminate].
Qed.

Lemma bind_run {R S} (c : M R) (k : R → M S) wd x wd1 :
  c wd = Some (x, wd1) → bind c k wd = k x wd1.
Proof. unfold bind. intros ->. reflexivity. Qed.

(** ** The machine integers *)

Lemma sint32_small x : - 2 ^ 31 ≤ x < 2 ^ 31 → sint32 x = x.
Proof. intros Hx. unfold sint32. rewrite Z.mod_small; lia. Qed.

Lemma uint32_small x : 0 ≤ x < 2 ^ 32 → uint32 x = x.
Proof. intros Hx. unfold uint32. apply Z.mod_small; lia. Qed.

Lemma sint32_add_l x y : sint32 (sint32 x + y) = sint32 (x + y).
Proof.
  unfold sint32.
  replace ((x + 2 ^ 31) mod 2 ^ 32 - 2 ^ 31 + y + 2 ^ 31)
    with ((x + 2 ^ 31) mod 2 ^ 32 + y) by lia.
  rewrite Zplus_mod_idemp_l. f_equal. f_equal. lia.
Qed.

Lemma sint32_range x : - 2 ^ 31 ≤ sint32 x < 2 ^ 31.
Proof.
  unfold sint32. pose proof (Z.mod_pos_bound (x + 2 ^ 31) (2 ^ 32)). lia.
Qed.

Lemma sint32_idem x : sint32 (sint32 x) = sint32 x.
Proof. apply sint32_small, sint32_range. Qed.

Lemma uint32_sint32 x : uint32 (sint32 x) = uint32 x.
Proof.
  unfold uint32, sint32.
  rewrite Zminus_mod_idemp_l. f_equal. lia.
Qed.

(** ** The handle record *)

Lemma validate_Some_0 r :
  validate (Some r) = 0 ↔
  version r = sizeof_native_handle ∧ numInts r = sNumInts
  ∧ numFds r = sNumFds ∧ magic r = sMagic.
Proof.
  unfold validate.
  destruct (Z.eqb_spec (version r) sizeof_native_handle),
    (Z.eqb_spec (numInts r) sNumInts), (Z.eqb_spec (numFds r) sNumFds),
    (Z.eqb_spec (magic r) sMagic); simpl; split; try tauto; try lia;
    intros; exfalso; lia.
Qed.

Lemma validate_cases (o : option private_handle_t) :
  validate o = 0 ∨ validate o = - Z.pos EINVAL.
Proof.
  destruct o as [r|]; [|right; reflexivity]. unfold validate.
  destruct (_ || _); [right; reflexivity|].
  destruct (negb _); [right|left]; reflexivity.
Qed.

Lemma validate_new self fd' size' flags' bt :
  validate (Some (new_private_handle_t self fd' size' flags' bt)) = 0.
Proof. apply validate_Some_0. repeat split. Qed.

Lemma validate_destroyed r :
  validate (Some (destroy_private_handle_t r)) = - Z.pos EINVAL.
Proof.
  destruct (validate_cases (Some (destroy_private_handle_t r))) as [H0|]; [|done].
  apply validate_Some_0 in H0 as (_ & _ & _ & Hm). discriminate Hm.
Qed.

(** ** Validation *)

(** C4: [validate] answers 0 exactly for a non-null candidate whose
    [version] is the size of the [native_handle] header, whose [numInts]
    is 8, whose [numFds] is 1 and whose [magic] is [0x3141592]; every other
    candidate, null included, gets [-EINVAL]; and the answer does not
    depend on any other field of the record. *)
Theorem validate_ok_iff_shape_and_magic (candidate : option private_handle_t) :
  (validate candidate = 0 ↔
     ∃ r, candidate = Some r ∧ version r = sizeof_native_handle
          ∧ numInts r = 8 ∧ numFds r = 1 ∧ magic r = 0x3141592)
  ∧ (validate candidate = 0 ∨ validate candidate = - Z.pos EINVAL)
  ∧ (∀ r fd' flags' size' offset' base' lockState' writeOwner' pid' phys' bt',
       validate (Some (set_payload r fd' flags' size' offset' base'
                         lockState' writeOwner' pid' phys' bt'))
       = validate (Some r)).
Proof.
  split; [|split].
  - destruct candidate as [r|].
    + rewrite validate_Some_0. split.
      * intros (Hv & Hi & Hf & Hm). exists r. repeat split; assumption.
      * intros (r' & [= <-] & Hv & Hi & Hf & Hm). repeat split; assumption.
    + split.
      * unfold validate. intros Hz. lia.
      * intros (r & Hr & _). discriminate Hr.
  - apply validate_cases.
  - intros. reflexivity.
Qed.

(** ** The free path *)


Lemma gralloc_free_valid wd p r :
  heap wd !! p = Some r → validate (Some r) = 0 →
  gralloc_free (Some p) wd
  = bind (release_backing r) (fun _ => unregister_close_delete p) wd.
Proof.
  intros Hr Hv. unfold gralloc_free, validate_handle.
  unfold bind at 1. unfold bind at 1. unfold load at 1. rewrite Hr.
  unfold ret at 1. rewrite Hv. simpl.
  unfold bind at 1. unfold load at 1. rewrite Hr. reflexivity.
Qed.

(** What the last three statements of [gralloc_free] leave behind. *)
Lemma unregister_close_delete_run wd p r :
  heap wd !! p = Some r →
  ∃ wd' r' rc,
    unregister_close_delete p wd = Some (0, wd')
    ∧ module wd' = module wd
    ∧ sAllocator wd' = sAllocator wd
    ∧ sGPUAllocator wd' = sGPUAllocator wd
    ∧ heap wd' = base.delete p (heap wd)
    ∧ r' = (gralloc_unregister_buffer r).2
    ∧ trace wd'
      = EvDelete p :: EvSys (sys_close (fd r')) rc :: EvUnregister p :: trace wd.
Proof.
  intros Hr.
  unfold unregister_close_delete, call_gralloc_unregister_buffer.
  unfold bind, load. rewrite Hr.
  destruct (gralloc_unregister_buffer r) as [res r'] eqn:Hu.
  unfold store, emit, ret, do_syscall, delete.
  cbn [module sAllocator sGPUAllocator heap errno trace].
  rewrite lookup_insert_eq.
  cbn [module sAllocator sGPUAllocator heap errno trace].
  rewrite lookup_insert_eq.
  eexists _, r', _. split; [reflexivity|].
  cbn [module sAllocator sGPUAllocator heap errno trace snd].
  repeat split. apply delete_insert_eq.
Qed.

Lemma gralloc_free_Some_0 wd p wd' :
  gralloc_free (Some p) wd = Some (0, wd') →
  ∃ r, heap wd !! p = Some r ∧ validate (Some r) = 0.
Proof.
  intros Hf. unfold gralloc_free, validate_handle in Hf.
  apply bind_Some in Hf as (v & wd1 & Hv & Hf).
  apply bind_Some in Hv as (r & wd2 & Hl & Hv).
  unfold load in Hl. destruct (heap wd !! p) as [r0|] eqn:Hr; [|discriminate].
  injection Hl as <- <-. injection Hv as <- <-.
  exists r0. split; [reflexivity|].
  destruct (validate_cases (Some r0)) as [H0|H1]; [assumption|].
  unfold validate in H1. rewrite H1 in Hf. simpl in Hf.
  injection Hf as Hf _. lia.
Qed.

(** After a successful [gralloc_free] no record is left at the address. *)
Lemma gralloc_free_released wd p wd' :
  gralloc_free (Some p) wd = Some (0, wd') →
  heap wd' !! p = None.
Proof.
  intros Hf. destruct (gralloc_free_Some_0 _ _ _ Hf) as (r & Hr & Hv).
  rewrite (gralloc_free_valid _ _ _ Hr Hv) in Hf.
  apply bind_Some in Hf as ([] & wd1 & Hrel & Hf).
  assert (heap wd1 = heap wd) as Hh.
  { unfold release_backing in Hrel.
    destruct (negb _).
    - apply bind_Some in Hrel as (m & wd2 & [= <- <-] & Hrel).
      apply bind_Some in Hrel as (fb & wd3 & Hfb & Hrel).
      unfold load_framebuffer in Hfb.
      apply bind_Some in Hfb as (m' & wd4 & [= <- <-] & Hfb).
      destruct (framebuffer (module wd)); [|discriminate].
      unfold load in Hfb. destruct (heap wd !! _); [|discriminate].
      injection Hfb as <- <-.
      destruct (_ =? 0); [discriminate|].
      injection Hrel as <-. reflexivity.
    - simpl in Hrel. destruct (0 <=? fd r).
      + destruct (buffer_type_eqb _ _); injection Hrel as <-; reflexivity.
      + injection Hrel as <-. reflexivity. }
  assert (heap wd1 !! p = Some r) as Hr1 by (rewrite Hh; exact Hr).
  destruct (unregister_close_delete_run _ _ _ Hr1)
    as (wd2 & r' & rc & Hrun & _ & _ & _ & Hheap & _).
  rewrite Hrun in Hf. injection Hf as <-.
  rewrite Hheap. apply lookup_delete_eq.
Qed.

Lemma release_backing_no_framebuffer wd r :
  Z.land (flags r) PRIV_FLAGS_FRAMEBUFFER = 0 →
  ∃ wd1, release_backing r wd = Some (tt, wd1) ∧ heap wd1 = heap wd
         ∧ module wd1 = module wd.
Proof.
  intros Hfl. unfold release_backing. rewrite Hfl. simpl.
  destruct (0 <=? fd r); [|eexists; repeat split; reflexivity].
  destruct (buffer_type_eqb _ _); eexists; repeat split; reflexivity.
Qed.


(** ** Allocation publishes valid handles *)

Lemma publish_handle_valid err fd' size' flags' bt base' offset' ls wd e p wd' :
  publish_handle err fd' size' flags' bt base' offset' ls wd
  = Some ((e, Some p), wd') →
  ∃ r, heap wd' !! p = Some r ∧ validate (Some r) = 0.
Proof.
  unfold publish_handle. destruct (err =? 0); [|discriminate].
  unfold bind, get_module, new, ret. intros [= <- <- <-]. cbn [heap].
  rewrite lookup_insert_eq. eexists. split; [reflexivity|].
  destruct (buffer_type_eqb bt BUFFER_TYPE_GPU1);
    apply validate_Some_0; repeat split; reflexivity.
Qed.

Ltac run_inv H :=
  repeat match type of H with
    | bind _ _ _ = Some _ =>
        let x := fresh "x" in
        let w := fresh "wd" in
        let H1 := fresh "Hrun" in
        apply bind_Some in H as (x & w & H1 & H)
    | (let '(_, _) := ?c in _) _ = Some _ => destruct c eqn:?
    | (if ?b then _ else _) _ = Some _ => destruct b eqn:?
    | match ?c with _ => _ end _ = Some _ => destruct c eqn:?
    end.

Lemma gralloc_alloc_buffer_valid dev size' usage wd e p wd' :
  gralloc_alloc_buffer dev size' usage wd = Some ((e, Some p), wd') →
  ∃ r, heap wd' !! p = Some r ∧ validate (Some r) = 0.
Proof.
  intros Hrun. unfold gralloc_alloc_buffer in Hrun.
  destruct (choose_backing dev usage) as [fl bt].
  run_inv Hrun; eapply publish_handle_valid; eassumption.
Qed.

Lemma gralloc_alloc_framebuffer_valid dev size' usage wd e p wd' :
  gralloc_alloc_framebuffer dev size' usage wd = Some ((e, Some p), wd') →
  ∃ r, heap wd' !! p = Some r ∧ validate (Some r) = 0.
Proof.
  intros Hrun.
  unfold gralloc_alloc_framebuffer, gralloc_alloc_framebuffer_locked in Hrun.
  apply bind_Some in Hrun as (m & wd1 & _ & Hrun).
  apply bind_Some in Hrun as (err & wd2 & _ & Hrun).
  destruct (err <? 0); [discriminate|].
  apply bind_Some in Hrun as (m2 & wd3 & _ & Hrun).
  destruct (numBuffers m2 =? 1).
  { eapply gralloc_alloc_buffer_valid; eassumption. }
  destruct (_ <=? bufferMask m2); [discriminate|].
  apply bind_Some in Hrun as (fb & wd4 & _ & Hrun).
  apply bind_Some in Hrun as (rd & wd5 & _ & Hrun).
  apply bind_Some in Hrun as (q & wd6 & Hnew & Hrun).
  destruct (find_free_slot _ _ _ _ _) as [slot vaddr].
  apply bind_Some in Hrun as ([] & wd7 & Hmod & Hrun).
  apply bind_Some in Hrun as (hnd & wd8 & Hload & Hrun).
  apply bind_Some in Hrun as ([] & wd9 & Hstore & Hrun).
  injection Hrun as <- <- <-.
  unfold new in Hnew. injection Hnew as <- <-.
  assert (heap wd7 !! fresh (dom (heap wd5))
          = Some (new_private_handle_t getpid (syscall_ret rd) (sint32 size')
                    (Z.lor PRIV_FLAGS_USES_PMEM PRIV_FLAGS_FRAMEBUFFER)
                    BUFFER_TYPE_FB)) as Hq.
  { destruct slot; injection Hmod as <-; cbn [heap]; apply lookup_insert_eq. }
  unfold load in Hload. rewrite Hq in Hload. injection Hload as <- <-.
  unfold store in Hstore. injection Hstore as <-. cbn [heap].
  rewrite lookup_insert_eq. eexists. split; [reflexivity|].
  apply validate_Some_0. repeat split; reflexivity.
Qed.

(** ** The destructor, and what [gralloc_free] leaves at the address *)

(** C8, as the code has it: the destructor sets the magic of a record to
    zero, and [validate] rejects a record on which the destructor has run
    as long as its bytes are in place.  A successful [gralloc_free] does
    more: it deletes the record, and no record is left at the address.
    Reading through the freed handle is then undefined, for [validate] as
    for a second [gralloc_free]; and as soon as a later allocation places
    its record at the same address, [validate] on the freed handle
    answers 0. *)
Theorem free_releases_the_record wd p wd' :
  gralloc_free (Some p) wd = Some (0, wd') →
  (∀ r, magic (destroy_private_handle_t r) = 0
        ∧ validate (Some (destroy_private_handle_t r)) = - Z.pos EINVAL)
  ∧ heap wd' !! p = None
  ∧ validate_handle (Some p) wd' = None
  ∧ gralloc_free (Some p) wd' = None
  ∧ (∀ dev n usage e wd2,
       gralloc_alloc_buffer dev n usage wd' = Some ((e, Some p), wd2) →
       validate_handle (Some p) wd2 = Some (0, wd2)).
Proof.
  intros Hfree. pose proof (gralloc_free_released _ _ _ Hfree) as Hgone.
  split; [intros r; split; [reflexivity|apply validate_destroyed]|].
  split; [exact Hgone|].
  split; [unfold validate_handle, bind, load; rewrite Hgone; reflexivity|].
  split.
  { unfold gralloc_free, validate_handle. unfold bind at 1. unfold bind at 1.
    unfold load. rewrite Hgone. reflexivity. }
  intros dev n usage e wd2 Hrun.
  destruct (gralloc_alloc_buffer_valid _ _ _ _ _ _ _ Hrun) as (r & Hr & Hv).
  unfold validate_handle, bind, load, ret. rewrite Hr, Hv. reflexivity.
Qed.

(** ** Runs that cannot go wrong *)

Lemma defined_ret {R} (x : R) : defined (A:=A) (ret x).
Proof. intros w. exists x, w. reflexivity. Qed.

Lemma defined_bind {R S} (c : M R) (k : R → M S) :
  defined (A:=A) c → (∀ x, defined (A:=A) (k x)) → defined (A:=A) (bind c k).
Proof.
  intros Hc Hk w. destruct (Hc w) as (x & w1 & Hx).
  rewrite (bind_run _ _ _ _ _ Hx). apply Hk.
Qed.

Lemma defined_do_syscall c : defined (A:=A) (do_syscall c).
Proof. intros w. eexists _, _. reflexivity. Qed.

Lemma defined_get_module : defined (A:=A) get_module.
Proof. intros w. eexists _, _. reflexivity. Qed.

Lemma defined_get_errno : defined (A:=A) get_errno.
Proof. intros w. eexists _, _. reflexivity. Qed.

Lemma defined_modify_module f : defined (A:=A) (modify_module f).
Proof. intros w. eexists _, _. reflexivity. Qed.

Lemma defined_new r : defined (A:=A) (new r).
Proof. intros w. eexists _, _. reflexivity. Qed.

Lemma defined_pool_size a : defined (A:=A) (pool_size a).
Proof. intros w. eexists _, _. reflexivity. Qed.

Lemma defined_pool_allocate a n : defined (A:=A) (pool_allocate a n).
Proof.
  intros w. unfold pool_allocate.
  destruct a; destruct (allocate _ n); eexists _, _; reflexivity.
Qed.

Lemma defined_pool_deallocate a o : defined (A:=A) (pool_deallocate a o).
Proof. intros w. destruct a; eexists _, _; reflexivity. Qed.

Ltac defined_step :=
  first
    [ apply defined_ret
    | apply defined_do_syscall
    | apply defined_get_module
    | apply defined_get_errno
    | apply defined_modify_module
    | apply defined_new
    | apply defined_pool_size
    | apply defined_pool_allocate
    | apply defined_pool_deallocate
    | apply defined_bind; [|intros ?]
    | match goal with
      | |- defined (if ?b then _ else _) => destruct b
      | |- defined (match ?x with _ => _ end) => destruct x
      end ].

Lemma defined_open_pmem_device bt : defined (A:=A) (open_pmem_device bt).
Proof. unfold open_pmem_device. repeat defined_step. Qed.

Lemma defined_init_pmem_area bt : defined (A:=A) (init_pmem_area bt).
Proof.
  unfold init_pmem_area.
  repeat first [apply defined_open_pmem_device | defined_step].
Qed.

Lemma defined_try_ashmem n : defined (A:=A) (try_ashmem n).
Proof. unfold try_ashmem. repeat defined_step. Qed.

Lemma defined_alloc_from_pool bt n mfd : defined (A:=A) (alloc_from_pool bt n mfd).
Proof.
  unfold alloc_from_pool.
  repeat first [apply defined_open_pmem_device | defined_step].
Qed.

Lemma defined_publish_handle err fd' n fl bt b o ls :
  defined (A:=A) (publish_handle err fd' n fl bt b o ls).
Proof. unfold publish_handle. repeat defined_step. Qed.

(** [gralloc_alloc_buffer] returns from every state, whatever the kernel
    answers. *)
Lemma defined_gralloc_alloc_buffer dev n usage :
  defined (A:=A) (gralloc_alloc_buffer dev n usage).
Proof.
  unfold gralloc_alloc_buffer. destruct (choose_backing dev usage) as [fl bt].
  repeat first
    [ apply defined_init_pmem_area | apply defined_try_ashmem
    | apply defined_alloc_from_pool | apply defined_publish_handle
    | defined_step ].
Qed.

(** C10: the constructor of a handle sets [version] to the size of the
    [native_handle] header, [numInts] to 8, [numFds] to 1 and [magic] to
    [0x3141592]; whenever [gralloc_alloc] returns 0 and hands out a handle,
    whichever path served the request (anonymous shared memory, a pmem
    pool, a framebuffer slot), the record behind the handle carries these
    four values and passes [validate] in the state the call leaves; and a
    request without the framebuffer bit always returns. *)
Theorem gralloc_alloc_handle_validates dev w h format usage pHandle pStride wd :
  (∀ self fd' size' flags' bt,
     let c := new_private_handle_t self fd' size' flags' bt in
     version c = sizeof_native_handle ∧ numInts c = 8 ∧ numFds c = 1
     ∧ magic c = 0x3141592)
  ∧ (∀ p stride wd',
       gralloc_alloc dev w h format usage pHandle pStride wd
       = Some ((0, Some p, stride), wd') →
       ∃ r, heap wd' !! p = Some r
            ∧ version r = sizeof_native_handle ∧ numInts r = 8 ∧ numFds r = 1
            ∧ magic r = 0x3141592
            ∧ validate (Some r) = 0)
  ∧ (Z.land usage GRALLOC_USAGE_HW_FB = 0 →
       ∃ res wd', gralloc_alloc dev w h format usage pHandle pStride wd
                  = Some (res, wd')).
Proof.
  split; [intros; repeat split|]. split.
  - intros p stride wd' Hrun.
    unfold gralloc_alloc in Hrun.
    destruct (negb pHandle || negb pStride); [discriminate|].
    destruct (bytes_per_pixel format) as [bpp|]; [|discriminate].
    apply bind_Some in Hrun as ([err hnd] & wd1 & Hpath & Hrun).
    assert (hnd = Some p ∧ wd1 = wd') as [-> ->].
    { destruct (err <? 0); inversion Hrun; subst; done. }
    assert (∃ r, heap wd' !! p = Some r ∧ validate (Some r) = 0)
      as (r & Hr & Hv).
    { destruct (negb _).
      - eapply gralloc_alloc_framebuffer_valid; eassumption.
      - eapply gralloc_alloc_buffer_valid; eassumption. }
    exists r. split; [exact Hr|].
    pose proof Hv as Hv'. apply validate_Some_0 in Hv' as (? & ? & ? & ?).
    repeat split; assumption.
  - intros Hfb. unfold gralloc_alloc.
    destruct (negb pHandle || negb pStride); [eexists _, _; reflexivity|].
    destruct (bytes_per_pixel format) as [bpp|]; [|eexists _, _; reflexivity].
    rewrite Hfb. change (negb (0 =? 0)) with false. cbv iota.
    apply defined_bind; [apply defined_gralloc_alloc_buffer|].
    intros [err hnd]. destruct (err <? 0); apply defined_ret.
Qed.

(** ** The checks of [gralloc_alloc] *)

Lemma bytes_per_pixel_None format :
  format ≠ HAL_PIXEL_FORMAT_RGBA_8888 → format ≠ HAL_PIXEL_FORMAT_BGRA_8888 →
  format ≠ HAL_PIXEL_FORMAT_RGB_565 → format ≠ HAL_PIXEL_FORMAT_RGBA_5551 →
  format ≠ HAL_PIXEL_FORMAT_RGBA_4444 →
  bytes_per_pixel format = None.
Proof.
  intros. unfold bytes_per_pixel.
  repeat match goal with
         | |- context [?a =? ?b] => destruct (Z.eqb_spec a b); [contradiction|]
         end.
  reflexivity.
Qed.

Lemma try_ashmem_ok wd n v :
  kernel (trace wd) (sys_ashmem_create_region "Buffer" n) = ROk v →
  try_ashmem n wd
  = Some ((Z.of_N v, 0),
          mk_world (module wd) (sAllocator wd) (sGPUAllocator wd) (heap wd)
            (errno wd)
            (EvSys (sys_ashmem_create_region "Buffer" n) (ROk v) :: trace wd)).
Proof.
  intros Hk. unfold try_ashmem, bind, do_syscall, os_reply.
  cbn [fd_argument]. rewrite Hk. cbn [syscall_ret].
  destruct (Z.ltb_spec (Z.of_N v) 0); [lia|]. reflexivity.
Qed.

Lemma bytes_per_pixel_Some format :
  format = HAL_PIXEL_FORMAT_RGBA_8888 ∨ format = HAL_PIXEL_FORMAT_BGRA_8888
  ∨ format = HAL_PIXEL_FORMAT_RGB_565 ∨ format = HAL_PIXEL_FORMAT_RGBA_5551
  ∨ format = HAL_PIXEL_FORMAT_RGBA_4444 →
  bytes_per_pixel format = Some 4 ∨ bytes_per_pixel format = Some 2.
Proof.
  intros Hfmt. unfold bytes_per_pixel.
  destruct (_ || _) eqn:H4; [left; reflexivity|].
  destruct (_ || _ || _) eqn:H2; [right; reflexivity|]. exfalso.
  apply orb_false_elim in H4 as [Ha Hb].
  apply orb_false_elim in H2 as [H2 He].
  apply orb_false_elim in H2 as [Hc Hd].
  apply Z.eqb_neq in Ha, Hb, Hc, Hd, He. tauto.
Qed.

Lemma choose_backing_plain dev usage :
  Z.land usage (Z.lor GRALLOC_USAGE_HW_2D GRALLOC_USAGE_HW_RENDER) = 0 →
  Z.land usage GRALLOC_USAGE_HW_TEXTURE = 0 →
  choose_backing dev usage = (0, indeterminate_bufferType).
Proof.
  intros H2d Htex. unfold choose_backing. rewrite H2d, Htex. reflexivity.
Qed.

(** A request that does not target a pool succeeds as soon as the
    anonymous region can be created, whatever its size. *)
Lemma gralloc_alloc_buffer_plain_ok dev n usage wd :
  Z.land usage (Z.lor GRALLOC_USAGE_HW_2D GRALLOC_USAGE_HW_RENDER) = 0 →
  Z.land usage GRALLOC_USAGE_HW_TEXTURE = 0 →
  (∀ tr m, ∃ v, kernel tr (sys_ashmem_create_region "Buffer" m) = ROk v) →
  ∃ p wd', gralloc_alloc_buffer dev n usage wd = Some ((0, Some p), wd').
Proof.
  intros H2d Htex Hash. unfold gralloc_alloc_buffer.
  rewrite (choose_backing_plain dev usage H2d Htex).
  change (Z.land 0 PRIV_FLAGS_USES_PMEM =? 0) with true. cbv iota.
  destruct (Hash (trace wd) (roundUpToPageSize n)) as [v Hv].
  rewrite (bind_run _ _ _ _ _ (try_ashmem_ok wd _ v Hv)).
  unfold publish_handle. change (0 =? 0) with true. cbv iota.
  unfold bind, get_module, new, ret. eexists _, _. reflexivity.
Qed.

(** C9, as the code has it: [gralloc_alloc] fails with [-EINVAL], stores
    nothing and changes nothing when the pixel format is none of
    RGBA_8888, BGRA_8888, RGB_565, RGBA_5551 and RGBA_4444, and also when
    one of the two out-pointers is null.  Width and height are not
    examined: in a supported format, a request without hardware usage
    returns 0 with a handle and a stride for every [w] and [h], provided the
    anonymous region can be created. *)
Theorem gralloc_alloc_rejects_unknown_format dev w h format usage
    pHandle pStride wd :
  ((format ≠ HAL_PIXEL_FORMAT_RGBA_8888 ∧ format ≠ HAL_PIXEL_FORMAT_BGRA_8888
    ∧ format ≠ HAL_PIXEL_FORMAT_RGB_565 ∧ format ≠ HAL_PIXEL_FORMAT_RGBA_5551
    ∧ format ≠ HAL_PIXEL_FORMAT_RGBA_4444)
   ∨ pHandle = false ∨ pStride = false →
   gralloc_alloc dev w h format usage pHandle pStride wd
   = Some ((- Z.pos EINVAL, None, None), wd))
  ∧ (format = HAL_PIXEL_FORMAT_RGBA_8888 ∨ format = HAL_PIXEL_FORMAT_BGRA_8888
     ∨ format = HAL_PIXEL_FORMAT_RGB_565 ∨ format = HAL_PIXEL_FORMAT_RGBA_5551
     ∨ format = HAL_PIXEL_FORMAT_RGBA_4444 →
     Z.land usage GRALLOC_USAGE_HW_FB = 0 →
     Z.land usage (Z.lor GRALLOC_USAGE_HW_2D GRALLOC_USAGE_HW_RENDER) = 0 →
     Z.land usage GRALLOC_USAGE_HW_TEXTURE = 0 →
     (∀ tr m, ∃ v, kernel tr (sys_ashmem_create_region "Buffer" m) = ROk v) →
     ∃ p stride wd',
       gralloc_alloc dev w h format usage true true wd
       = Some ((0, Some p, Some stride), wd')).
Proof.
  split.
  - intros Hbad. unfold gralloc_alloc.
    destruct (negb pHandle || negb pStride) eqn:Hnull; [reflexivity|].
    destruct Hbad as [(H1 & H2 & H3 & H4 & H5) | [-> | ->]].
    + rewrite bytes_per_pixel_None by assumption. reflexivity.
    + discriminate Hnull.
    + destruct pHandle; discriminate Hnull.
  - intros Hfmt Hfb H2d Htex Hash. unfold gralloc_alloc. cbn [negb orb].
    rewrite Hfb. change (negb (0 =? 0)) with false.
    destruct (bytes_per_pixel_Some format Hfmt) as [-> | ->];
      cbv beta iota zeta;
      match goal with
      | |- context [gralloc_alloc_buffer dev ?n usage] =>
          destruct (gralloc_alloc_buffer_plain_ok dev n usage wd H2d Htex Hash)
            as (p & wd' & Hrun)
      end;
      rewrite (bind_run _ _ _ _ _ Hrun); change (0 <? 0) with false;
      cbv iota; eexists _, _, _; reflexivity.
Qed.

(** ** A pool that cannot be opened *)

Lemma open_pmem_device_fails wd bt path e :
  pmem_device bt = Some path →
  kernel (trace wd) (sys_open path) = RErr e →
  open_pmem_device bt wd
  = Some (-1, mk_world (module wd) (sAllocator wd) (sGPUAllocator wd) (heap wd)
                (Z.pos e) (EvSys (sys_open path) (RErr e) :: trace wd)).
Proof.
  intros Hdev Hk. unfold open_pmem_device. rewrite Hdev.
  unfold bind, do_syscall, os_reply. cbn [fd_argument]. rewrite Hk.
  reflexivity.
Qed.

Lemma init_pmem_area_open_fails wd bt path e :
  pmem_device bt = Some path →
  kernel (trace wd) (sys_open path) = RErr e →
  init_pmem_area bt wd
  = Some (- Z.pos e,
          mk_world (module wd) (sAllocator wd) (sGPUAllocator wd) (heap wd)
            (Z.pos e) (EvSys (sys_open path) (RErr e) :: trace wd)).
Proof.
  intros Hdev Hk. unfold init_pmem_area.
  rewrite (bind_run _ _ _ _ _ (open_pmem_device_fails _ _ _ _ Hdev Hk)).
  reflexivity.
Qed.

Lemma try_ashmem_fails wd n e :
  kernel (trace wd) (sys_ashmem_create_region "Buffer" n) = RErr e →
  try_ashmem n wd
  = Some ((-1, - Z.pos e),
          mk_world (module wd) (sAllocator wd) (sGPUAllocator wd) (heap wd)
            (Z.pos e)
            (EvSys (sys_ashmem_create_region "Buffer" n) (RErr e) :: trace wd)).
Proof.
  intros Hk. unfold try_ashmem, bind, do_syscall, os_reply.
  cbn [fd_argument]. rewrite Hk. reflexivity.
Qed.

Lemma fresh_heap_None wd : heap wd !! fresh (dom (heap wd)) = None.
Proof. apply not_elem_of_dom, is_fresh. Qed.

(** The first steps of [gralloc_alloc_buffer] on a request that targets a
    pool whose master descriptor is still -1 and whose device refuses to
    open: the run arrives at the test of line 346 in the state [wd1]. *)
Lemma gralloc_alloc_buffer_open_fails dev n usage wd bt path e :
  choose_backing dev usage = (PRIV_FLAGS_USES_PMEM, bt) →
  master_fd_of (module wd) bt = -1 →
  pmem_device bt = Some path →
  kernel (trace wd) (sys_open path) = RErr e →
  let wd1 :=
    mk_world (module wd) (sAllocator wd) (sGPUAllocator wd) (heap wd)
      (Z.pos e) (EvSys (sys_open path) (RErr e) :: trace wd) in
  gralloc_alloc_buffer dev n usage wd
  = (if Z.land usage GRALLOC_USAGE_HW_2D =? 0 then
       bind (try_ashmem (roundUpToPageSize n))
         (fun '(fd', err) =>
            publish_handle err fd' (roundUpToPageSize n)
              (Z.land PRIV_FLAGS_USES_PMEM (Z.lnot PRIV_FLAGS_USES_PMEM))
              bt 0 0 0)
     else publish_handle (- Z.pos e) (-1) (roundUpToPageSize n)
            PRIV_FLAGS_USES_PMEM bt 0 0 0) wd1.
Proof.
  intros Hch Hm Hdev Hk wd1. unfold gralloc_alloc_buffer. rewrite Hch.
  change (Z.land PRIV_FLAGS_USES_PMEM PRIV_FLAGS_USES_PMEM =? 0) with false.
  cbv iota. unfold bind at 1. unfold get_module at 1. rewrite Hm.
  change (-1 =? -1) with true. cbv iota.
  rewrite (bind_run _ _ _ _ _ (init_pmem_area_open_fails _ _ _ _ Hdev Hk)).
  fold wd1. unfold bind at 1. unfold get_module at 1.
  change (module wd1) with (module wd). rewrite Hm.
  change (0 <=? -1) with false. cbv iota. reflexivity.
Qed.

(** C1, as the code has it: a request that targets a pmem pool whose
    master descriptor is not open yet and whose device cannot be opened
    (errno [e]) is served according to the 2D bit of [usage] alone.
    Without [GRALLOC_USAGE_HW_2D] (so also for a request that only carries
    the render-target or the texture bit) the request is retried once as
    anonymous shared memory: if the region is created the call returns 0
    with a handle on the new descriptor whose flags are 0, and neither
    pool allocator nor the module is touched; if the region cannot be
    created the call returns the error of that attempt.  With
    [GRALLOC_USAGE_HW_2D] the call returns [-e], creates no handle and
    makes no further call: the state only records the failed [open]. *)
Theorem gralloc_alloc_buffer_pool_unavailable dev n usage wd bt path e :
  choose_backing dev usage = (PRIV_FLAGS_USES_PMEM, bt) →
  master_fd_of (module wd) bt = -1 →
  pmem_device bt = Some path →
  kernel (trace wd) (sys_open path) = RErr e →
  let wd1 :=
    mk_world (module wd) (sAllocator wd) (sGPUAllocator wd) (heap wd)
      (Z.pos e) (EvSys (sys_open path) (RErr e) :: trace wd) in
  let ashmem := sys_ashmem_create_region "Buffer" (roundUpToPageSize n) in
  (Z.land usage GRALLOC_USAGE_HW_2D = 0 →
     (∀ v, kernel (trace wd1) ashmem = ROk v →
        ∃ p r,
          gralloc_alloc_buffer dev n usage wd
          = Some ((0, Some p),
                  mk_world (module wd) (sAllocator wd) (sGPUAllocator wd)
                    (<[p := r]> (heap wd)) (Z.pos e)
                    (EvSys ashmem (ROk v) :: trace wd1))
          ∧ heap wd !! p = None
          ∧ fd r = Z.of_N v ∧ flags r = 0 ∧ offset r = 0 ∧ base r = 0
          ∧ size r = sint32 (roundUpToPageSize n)
          ∧ validate (Some r) = 0)
     ∧ (∀ e', kernel (trace wd1) ashmem = RErr e' →
          gralloc_alloc_buffer dev n usage wd
          = Some ((- Z.pos e', None),
                  mk_world (module wd) (sAllocator wd) (sGPUAllocator wd)
                    (heap wd) (Z.pos e')
                    (EvSys ashmem (RErr e') :: trace wd1))))
  ∧ (Z.land usage GRALLOC_USAGE_HW_2D ≠ 0 →
       gralloc_alloc_buffer dev n usage wd = Some ((- Z.pos e, None), wd1)).
Proof.
  intros Hch Hm Hdev Hk wd1 ashmem.
  pose proof (gralloc_alloc_buffer_open_fails dev n usage wd bt path e
                Hch Hm Hdev Hk) as Hrun.
  cbv zeta in Hrun. fold wd1 in Hrun. rewrite Hrun. clear Hrun.
  split; [intros H2d; split|intros H2d].
  - intros v Hv. rewrite H2d. change (0 =? 0) with true. cbv iota.
    rewrite (bind_run _ _ _ _ _ (try_ashmem_ok wd1 _ v Hv)).
    unfold publish_handle. change (0 =? 0) with true. cbv iota.
    unfold bind, get_module, new, ret. cbn [heap module sAllocator
      sGPUAllocator errno trace wd1].
    eexists _, _. split; [reflexivity|].
    split; [apply (fresh_heap_None wd)|].
    destruct (buffer_type_eqb bt BUFFER_TYPE_GPU1);
      (repeat split; [apply validate_Some_0; repeat split; reflexivity]).
  - intros e' He'. rewrite H2d. change (0 =? 0) with true. cbv iota.
    rewrite (bind_run _ _ _ _ _ (try_ashmem_fails wd1 _ e' He')).
    reflexivity.
  - destruct (Z.eqb_spec (Z.land usage GRALLOC_USAGE_HW_2D) 0);
      [contradiction|].
    reflexivity.
Qed.

(** ** A pool that is available *)

Lemma os_reply_fd tr c fd' :
  fd_argument c = Some fd' → 0 ≤ fd' → os_reply tr c = kernel tr c.
Proof.
  intros Hc Hfd. unfold os_reply. rewrite Hc.
  destruct (Z.ltb_spec fd' 0); [lia|reflexivity].
Qed.

Lemma do_syscall_ok wd c v :
  os_reply (trace wd) c = ROk v →
  do_syscall c wd
  = Some (ROk v, mk_world (module wd) (sAllocator wd) (sGPUAllocator wd)
                   (heap wd) (errno wd) (EvSys c (ROk v) :: trace wd)).
Proof. intros Hk. unfold do_syscall. rewrite Hk. reflexivity. Qed.

Lemma do_syscall_err wd c e :
  os_reply (trace wd) c = RErr e →
  do_syscall c wd
  = Some (RErr e, mk_world (module wd) (sAllocator wd) (sGPUAllocator wd)
                    (heap wd) (Z.pos e) (EvSys c (RErr e) :: trace wd)).
Proof. intros Hk. unfold do_syscall. rewrite Hk. reflexivity. Qed.

Lemma do_syscall_total wd c :
  ∃ rp wd', do_syscall c wd = Some (rp, wd')
            ∧ module wd' = module wd ∧ heap wd' = heap wd
            ∧ sAllocator wd' = sAllocator wd
            ∧ sGPUAllocator wd' = sGPUAllocator wd
            ∧ trace wd' = EvSys c rp :: trace wd.
Proof. unfold do_syscall. eexists _, _. repeat split. Qed.

Section KernelAccepts.
(** The pmem devices are present and their driver accepts every
    request. *)
Variable path : string.
Hypothesis open_ok : ∀ tr, ∃ v, kernel tr (sys_open path) = ROk v.
Hypothesis mmap_ok : ∀ tr n fd', ∃ v, kernel tr (sys_mmap n fd') = ROk v.
Hypothesis ioctl_ok : ∀ tr fd' rq, ∃ v, kernel tr (sys_ioctl fd' rq) = ROk v.

Lemma open_pmem_device_ok wd bt :
  pmem_device bt = Some path →
  ∃ v, open_pmem_device bt wd
       = Some (Z.of_N v,
               mk_world (module wd) (sAllocator wd) (sGPUAllocator wd)
                 (heap wd) (errno wd)
                 (EvSys (sys_open path) (ROk v) :: trace wd)).
Proof.
  intros Hdev. unfold open_pmem_device. rewrite Hdev.
  destruct (open_ok (trace wd)) as [v Hv]. exists v.
  rewrite (bind_run _ _ _ _ _ (do_syscall_ok wd (sys_open path) v Hv)).
  reflexivity.
Qed.

Lemma ioctl_accepted wd fd' rq :
  0 ≤ fd' →
  ∃ v, do_syscall (sys_ioctl fd' rq) wd
       = Some (ROk v,
               mk_world (module wd) (sAllocator wd) (sGPUAllocator wd)
                 (heap wd) (errno wd)
                 (EvSys (sys_ioctl fd' rq) (ROk v) :: trace wd)).
Proof.
  intros Hfd. destruct (ioctl_ok (trace wd) fd' rq) as [v Hv]. exists v.
  apply do_syscall_ok. rewrite (os_reply_fd _ _ fd') by done. exact Hv.
Qed.

(** With a usable master descriptor and room in the pool, lines 303-344
    end with [err = 0] and a fresh descriptor. *)
Lemma alloc_from_pool_ok wd bt n master_fd :
  pmem_device bt = Some path →
  0 ≤ (allocate (match pool_of bt with
                 | PoolPmem => sAllocator wd
                 | PoolGpu => sGPUAllocator wd
                 end) n).1 →
  ∃ fd' wd',
    alloc_from_pool bt n master_fd wd
    = Some ((0, fd', master_base_of (module wd) bt,
             (allocate (match pool_of bt with
                        | PoolPmem => sAllocator wd
                        | PoolGpu => sGPUAllocator wd
                        end) n).1,
             LOCK_STATE_MAPPED), wd')
    ∧ 0 ≤ fd' ∧ heap wd' = heap wd ∧ module wd' = module wd.
Proof.
  intros Hdev Hoff. unfold alloc_from_pool.
  unfold bind at 1. unfold get_module at 1.
  unfold bind at 1. unfold pool_allocate.
  destruct (pool_of bt);
    destruct (allocate _ n) as [off s]; cbn [fst] in Hoff;
    (destruct (Z.ltb_spec off 0) as [|_]; [lia|]);
    match goal with
    | |- context [bind (open_pmem_device bt) ?k ?w] =>
        destruct (open_pmem_device_ok w bt Hdev) as [v Hv];
        rewrite (bind_run _ k _ _ _ Hv)
    end;
    match goal with
    | |- context [bind (do_syscall (sys_ioctl ?f ?rq)) ?k ?w] =>
        destruct (ioctl_accepted w f rq (N2Z.is_nonneg v)) as [v1 Hv1];
        rewrite (bind_run _ k _ _ _ Hv1)
    end;
    cbn [ioctl_ret]; change (0 <? 0) with false; cbv iota;
    unfold bind at 1;
    match goal with
    | |- context [bind (do_syscall (sys_ioctl ?f ?rq)) ?k ?w] =>
        destruct (ioctl_accepted w f rq (N2Z.is_nonneg v)) as [v2 Hv2];
        rewrite (bind_run _ k _ _ _ Hv2)
    end;
    unfold ret; cbn [ioctl_ret]; change (0 <? 0) with false; cbv iota;
    eexists _, _; (split; [reflexivity|]);
    (split; [apply N2Z.is_nonneg|]); split; reflexivity.
Qed.

Lemma init_pmem_area_pmem_ok wd :
  path = "/dev/pmem"%string →
  ∃ v b wd',
    init_pmem_area BUFFER_TYPE_PMEM wd = Some (0, wd')
    ∧ module wd' = set_pmem_master (Z.of_N v) (Z.of_N b) (module wd)
    ∧ sAllocator wd' = sAllocator wd ∧ sGPUAllocator wd' = sGPUAllocator wd
    ∧ heap wd' = heap wd.
Proof.
  intros Hpath. unfold init_pmem_area.
  destruct (open_pmem_device_ok wd BUFFER_TYPE_PMEM) as [v Hv];
    [rewrite Hpath; reflexivity|].
  rewrite (bind_run _ _ _ _ _ Hv).
  unfold bind at 1. unfold pool_size at 1.
  destruct (Z.leb_spec 0 (Z.of_N v)) as [_|]; [|lia].
  match goal with
  | |- context [bind (do_syscall (sys_mmap ?n ?f)) ?k ?w] =>
      destruct (mmap_ok (trace w) n f) as [b Hb];
      rewrite (bind_run _ k _ _ _ (do_syscall_ok w (sys_mmap n f) b
                 (eq_trans (os_reply_fd (trace w) (sys_mmap n f) f eq_refl
                              (N2Z.is_nonneg v)) Hb)))
  end.
  exists v, b. eexists. split; [reflexivity|]. repeat split.
Qed.

Lemma gralloc_alloc_buffer_pmem_ok dev n usage wd :
  path = "/dev/pmem"%string →
  choose_backing dev usage = (PRIV_FLAGS_USES_PMEM, BUFFER_TYPE_PMEM) →
  pmem_master (module wd) = -1 ∨ 0 ≤ pmem_master (module wd) →
  0 ≤ (allocate (sAllocator wd) (roundUpToPageSize n)).1 →
  ∃ p r wd',
    gralloc_alloc_buffer dev n usage wd = Some ((0, Some p), wd')
    ∧ heap wd' !! p = Some r
    ∧ flags r = PRIV_FLAGS_USES_PMEM
    ∧ bufferType r = BUFFER_TYPE_PMEM
    ∧ offset r = (allocate (sAllocator wd) (roundUpToPageSize n)).1
    ∧ size r = sint32 (roundUpToPageSize n)
    ∧ validate (Some r) = 0.
Proof.
  intros Hpath Hch Hm Hoff. unfold gralloc_alloc_buffer. rewrite Hch.
  change (Z.land PRIV_FLAGS_USES_PMEM PRIV_FLAGS_USES_PMEM =? 0) with false.
  cbv iota. unfold bind at 1. unfold get_module at 1.
  change (master_fd_of (module wd) BUFFER_TYPE_PMEM)
    with (pmem_master (module wd)).
  assert (∃ wd1,
            (if pmem_master (module wd) =? -1
             then init_pmem_area BUFFER_TYPE_PMEM else ret 0) wd
            = Some (0, wd1)
            ∧ 0 ≤ pmem_master (module wd1)
            ∧ sAllocator wd1 = sAllocator wd) as (wd1 & Hinit & Hm1 & Hs1).
  { destruct Hm as [Hm|Hm].
    - rewrite Hm. change (-1 =? -1) with true. cbv iota.
      destruct (init_pmem_area_pmem_ok wd Hpath)
        as (v & b & wd1 & Hi & Hmod & Hs & _).
      exists wd1. split; [exact Hi|]. rewrite Hmod. cbn [pmem_master set_pmem_master].
      split; [apply N2Z.is_nonneg|exact Hs].
    - destruct (Z.eqb_spec (pmem_master (module wd)) (-1)); [lia|].
      exists wd. repeat split. exact Hm. }
  rewrite (bind_run _ _ _ _ _ Hinit).
  unfold bind at 1. unfold get_module at 1.
  change (master_fd_of (module wd1) BUFFER_TYPE_PMEM)
    with (pmem_master (module wd1)).
  destruct (Z.leb_spec 0 (pmem_master (module wd1))) as [_|]; [|lia].
  destruct (alloc_from_pool_ok wd1 BUFFER_TYPE_PMEM (roundUpToPageSize n)
              (pmem_master (module wd1)))
    as (fd' & wd2 & Hpool & Hfd & Hh2 & Hm2).
  { rewrite Hpath. reflexivity. }
  { cbn [pool_of buffer_type_eqb]. rewrite Hs1. exact Hoff. }
  rewrite (bind_run _ _ _ _ _ Hpool).
  cbn [pool_of buffer_type_eqb]. rewrite Hs1.
  unfold publish_handle. change (0 =? 0) with true. cbv iota.
  unfold bind, get_module, new, ret.
  eexists _, _, _. split; [reflexivity|]. cbn [heap].
  rewrite lookup_insert_eq. split; [reflexivity|].
  cbn [buffer_type_eqb].
  repeat split. apply validate_Some_0. repeat split; reflexivity.
Qed.

End KernelAccepts.

Lemma choose_backing_texture dev usage :
  Z.land usage (Z.lor GRALLOC_USAGE_HW_2D GRALLOC_USAGE_HW_RENDER) = 0 →
  Z.land usage GRALLOC_USAGE_HW_TEXTURE ≠ 0 →
  choose_backing dev usage = (PRIV_FLAGS_USES_PMEM, BUFFER_TYPE_PMEM).
Proof.
  intros H2d Htex. unfold choose_backing. rewrite H2d.
  change (negb (0 =? 0)) with false. cbv iota.
  destruct (Z.eqb_spec (Z.land usage GRALLOC_USAGE_HW_TEXTURE) 0);
    [contradiction|reflexivity].
Qed.

(** C3, as the code has it: a request for 64 by 64 pixels in RGBA_8888
    whose usage carries the texture bit (and none of the 2D, render and
    framebuffer bits), on a system where [/dev/pmem] opens and maps, its
    driver accepts the requests and the pool has room, returns 0, stores
    the stride 64 (the row is 256 bytes long, and the stride is counted in
    pixels), and publishes a handle that uses pmem, is of the
    [BUFFER_TYPE_PMEM] kind and passes [validate]. *)
Theorem gralloc_alloc_64x64_rgba_texture dev usage wd :
  Z.land usage GRALLOC_USAGE_HW_FB = 0 →
  Z.land usage (Z.lor GRALLOC_USAGE_HW_2D GRALLOC_USAGE_HW_RENDER) = 0 →
  Z.land usage GRALLOC_USAGE_HW_TEXTURE ≠ 0 →
  (∀ tr, ∃ v, kernel tr (sys_open "/dev/pmem") = ROk v) →
  (∀ tr n fd', ∃ v, kernel tr (sys_mmap n fd') = ROk v) →
  (∀ tr fd' rq, ∃ v, kernel tr (sys_ioctl fd' rq) = ROk v) →
  pmem_master (module wd) = -1 ∨ 0 ≤ pmem_master (module wd) →
  0 ≤ (allocate (sAllocator wd) (roundUpToPageSize 16384)).1 →
  ∃ p r wd',
    gralloc_alloc dev 64 64 HAL_PIXEL_FORMAT_RGBA_8888 usage true true wd
    = Some ((0, Some p, Some 64), wd')
    ∧ heap wd' !! p = Some r
    ∧ flags r = PRIV_FLAGS_USES_PMEM
    ∧ Z.land (flags r) PRIV_FLAGS_FRAMEBUFFER = 0
    ∧ bufferType r = BUFFER_TYPE_PMEM
    ∧ validate (Some r) = 0.
Proof.
  intros Hfb H2d Htex Hopen Hmmap Hioctl Hm Hroom.
  destruct (gralloc_alloc_buffer_pmem_ok "/dev/pmem" Hopen Hmmap Hioctl
              dev 16384 usage wd eq_refl
              (choose_backing_texture dev usage H2d Htex) Hm Hroom)
    as (p & r & wd' & Hrun & Hr & Hfl & Hbt & _ & _ & Hv).
  exists p, r, wd'. unfold gralloc_alloc. cbn [negb orb].
  unfold bytes_per_pixel. rewrite Z.eqb_refl. cbn [orb]. cbv zeta.
  rewrite Hfb. change (negb (0 =? 0)) with false. cbv iota.
  change (uint32 (Z.land (sint32 (sint32 (64 * 4) + (4 - 1))) (Z.lnot (4 - 1))))
    with 256.
  change (uint32 (256 * uint32 64)) with 16384.
  rewrite (bind_run _ _ _ _ _ Hrun).
  change (0 <? 0) with false. cbv iota.
  change (sint32 (256 `div` 4)) with 64.
  repeat split; try assumption. rewrite Hfl. reflexivity.
Qed.

(** ** Unwinding a pool allocation that fails half-way *)

Ltac find_steps :=
  lazymatch goal with
  | |- ∃ steps, ?l = _ ∧ _ =>
      let rec go l acc :=
        lazymatch l with
        | EvAllocate _ _ _ :: _ => exists (rev acc)
        | ?x :: ?l' => go l' (x :: acc)
        end in
      go l (@nil event)
  end.

Ltac pick_member :=
  cbn [In]; repeat first [left; reflexivity | right].

Lemma alloc_from_pool_inv bt n mfd wd err fd' b off ls wd' :
  alloc_from_pool bt n mfd wd = Some ((err, fd', b, off, ls), wd') →
  ∃ steps,
    trace wd' = steps ++ EvAllocate (pool_of bt) n off :: trace wd
    ∧ (∀ a' n' o', ¬ In (EvAllocate a' n' o') steps)
    ∧ off = (allocate (pool_state (pool_of bt) wd) n).1
    ∧ heap wd' = heap wd
    ∧ (0 ≤ off →
         (err = 0 ∧ ∀ c rp, In (EvSys c rp) steps → ∃ v, rp = ROk v)
         ∨ (err < 0 ∧ fd' = -1
            ∧ pool_state (pool_of bt) wd'
              = deallocate (allocate (pool_state (pool_of bt) wd) n).2 off
            ∧ (∀ a', a' ≠ pool_of bt → pool_state a' wd' = pool_state a' wd)
            ∧ ∃ fdo rc tried,
                steps = EvDeallocate (pool_of bt) off
                          :: EvSys (sys_close fdo) rc :: tried
                ∧ match pmem_device bt with
                  | Some path =>
                      ∃ ro, In (EvSys (sys_open path) ro) tried
                            ∧ fdo = syscall_ret ro
                  | None => fdo = -1
                  end)).
Proof.
  unfold alloc_from_pool, bind, get_module, pool_allocate, open_pmem_device,
    pool_deallocate, get_errno, ret, bind, pool_state.
  intros Hrun.
  destruct (pool_of bt) eqn:Hpool;
    destruct (allocate _ n) as [off0 s] eqn:Hal; cbn [fst snd];
    destruct (off0 <? 0) eqn:Hneg.
  all: try (injection Hrun as <- <- <- <- <- <-; exists []; cbn;
            repeat split; try tauto; intros; lia).
  all: destruct (pmem_device bt) as [path|];
    unfold bind, do_syscall, ret in Hrun;
    cbn [module sAllocator sGPUAllocator heap errno trace] in Hrun.
  all: repeat match type of Hrun with
         | context [os_reply ?t ?c] =>
             destruct (os_reply t c) as [?|?] eqn:?;
             cbn [module sAllocator sGPUAllocator heap errno trace
                  ioctl_ret syscall_ret Z.ltb Z.compare Z.opp] in Hrun
         end.
  all: cbn [module sAllocator sGPUAllocator heap errno trace
                  ioctl_ret syscall_ret Z.ltb Z.compare Z.opp] in Hrun.
  all: injection Hrun as <- <- <- <- <- <-.
  all: try match goal with
         | H : os_reply _ (sys_ioctl _ _) = ROk _ |- _ => discriminate H
         end.
  all: cbn [trace heap sAllocator sGPUAllocator]; find_steps; cbn [rev app].
  all: split; [reflexivity|].
  all: split; [intros a' n' o'; cbn [In]; intuition discriminate|].
  all: split; [reflexivity|]; split; [reflexivity|]; intros _.
  all: first
         [ left; split; [reflexivity|];
           intros c rp; cbn [In]; intros Hin;
           repeat (destruct Hin as [Hin|Hin];
                   [first [discriminate Hin
                          | injection Hin as <- <-; eexists; reflexivity]|]);
           contradiction
         | right; split; [reflexivity|]; split; [reflexivity|];
           split; [reflexivity|];
           split; [intros [] Hne; [contradiction || reflexivity
                                  |contradiction || reflexivity]|];
           eexists _, _, _; split; [reflexivity|];
           first [reflexivity | eexists; split; [pick_member|reflexivity]] ].
Qed.

Ltac find_prefix :=
  lazymatch goal with
  | |- ∃ evs, ?l = _ ∧ _ =>
      let rec go l acc :=
        lazymatch l with
        | ?x :: ?l' => go l' (x :: acc)
        | _ => exists (rev acc)
        end in
      go l (@nil event)
  end.

Lemma init_pmem_area_frame bt wd x wd' :
  init_pmem_area bt wd = Some (x, wd') →
  ∃ evs, trace wd' = evs ++ trace wd
         ∧ (∀ ev, In ev evs → is_sys ev)
         ∧ sAllocator wd' = sAllocator wd
         ∧ sGPUAllocator wd' = sGPUAllocator wd
         ∧ heap wd' = heap wd.
Proof.
  unfold init_pmem_area, bind, open_pmem_device, pool_size, get_errno,
    modify_module, ret, bind.
  intros Hrun.
  destruct (pmem_device bt) as [path|];
    unfold bind, do_syscall, ret in Hrun;
    cbn [module sAllocator sGPUAllocator heap errno trace] in Hrun.
  all: repeat match type of Hrun with
         | context [os_reply ?t ?c] =>
             destruct (os_reply t c) as [?|?];
             cbn [module sAllocator sGPUAllocator heap errno trace
                  ioctl_ret syscall_ret Z.leb Z.compare Z.opp] in Hrun
         | context [if ?b then _ else _] => destruct b
         end.
  all: injection Hrun as <- <-;
    cbn [trace heap sAllocator sGPUAllocator]; find_prefix; cbn [rev app];
    (split; [reflexivity|]);
    (split; [intros ev; cbn [In]; intros Hin;
             repeat (destruct Hin as [<-|Hin]; [exact I|]); contradiction|]);
    repeat split.
Qed.

Lemma try_ashmem_frame n wd x wd' :
  try_ashmem n wd = Some (x, wd') →
  ∃ ev, trace wd' = ev :: trace wd ∧ is_sys ev
        ∧ sAllocator wd' = sAllocator wd
        ∧ sGPUAllocator wd' = sGPUAllocator wd
        ∧ heap wd' = heap wd.
Proof.
  unfold try_ashmem, bind, do_syscall, get_errno, ret. intros Hrun.
  destruct (syscall_ret _ <? 0); injection Hrun as <- <-;
    eexists; repeat split.
Qed.

Lemma publish_handle_frame err fd' n fl bt b o ls wd e hnd wd' :
  publish_handle err fd' n fl bt b o ls wd = Some ((e, hnd), wd') →
  e = err ∧ trace wd' = trace wd
  ∧ sAllocator wd' = sAllocator wd ∧ sGPUAllocator wd' = sGPUAllocator wd
  ∧ (err ≠ 0 → hnd = None ∧ heap wd' = heap wd).
Proof.
  unfold publish_handle, bind, get_module, new, ret.
  destruct (Z.eqb_spec err 0); intros [= <- <- <-]; repeat split; done.
Qed.

Lemma split_at_allocate (l1 l2 l1' l2' : list event) x x' :
  l1 ++ x :: l2 = l1' ++ x' :: l2' →
  is_allocate x → is_allocate x' →
  (∀ y, In y l1' → ¬ is_allocate y) →
  (∀ y, In y l2' → ¬ is_allocate y) →
  l1 = l1' ∧ x = x' ∧ l2 = l2'.
Proof.
  revert l1'. induction l1 as [|y l1 IH]; intros [|y' l1'] Heq Hx Hx' H1 H2;
    cbn [app] in Heq.
  - injection Heq as -> ->. done.
  - injection Heq as -> _. exfalso. apply (H1 y'); [left; reflexivity|exact Hx].
  - injection Heq as -> <-. exfalso. apply (H2 x); [|exact Hx].
    apply in_or_app. right. left. reflexivity.
  - injection Heq as -> Heq.
    destruct (IH l1' Heq Hx Hx') as (-> & -> & ->); [|exact H2|done].
    intros z Hz. apply H1. right. exact Hz.
Qed.

Lemma is_sys_not_allocate ev : is_sys ev → ¬ is_allocate ev.
Proof. destruct ev; cbn; tauto. Qed.

Lemma run_without_allocate wd wd' evs after before a n' off :
  trace wd' = evs ++ trace wd →
  (∀ ev, In ev evs → is_sys ev) →
  trace wd' = after ++ EvAllocate a n' off :: before ++ trace wd →
  False.
Proof.
  intros Ht Hsys Hsplit. rewrite Ht in Hsplit.
  change (after ++ EvAllocate a n' off :: before ++ trace wd)
    with (after ++ (EvAllocate a n' off :: before) ++ trace wd) in Hsplit.
  rewrite app_assoc in Hsplit. apply app_inv_tail in Hsplit. subst evs.
  apply (is_sys_not_allocate (EvAllocate a n' off)); [|exact I].
  apply Hsys, in_or_app. right. left. reflexivity.
Qed.

Lemma pool_state_frame a wd wd' :
  sAllocator wd' = sAllocator wd → sGPUAllocator wd' = sGPUAllocator wd →
  pool_state a wd' = pool_state a wd.
Proof. intros Hs Hg. destruct a; assumption. Qed.

(** C6: in every run of [gralloc_alloc_buffer] that reserves an extent
    ([allocate] returned the offset [off >= 0] in pool [a]) and in which a
    later call of the run fails (the [open] of the second descriptor, the
    [PMEM_CONNECT] or the [PMEM_MAP]), the run ends by closing the
    descriptor that this [open] returned (-1 when it failed or when the
    buffer type has no device) and then giving the extent back with
    [deallocate off] on the same allocator; the other allocator and the
    handle records are as before the call, no handle is published, and
    the call returns a negative error. *)
Theorem gralloc_alloc_buffer_unwinds_on_failure dev n usage wd err hnd wd'
    after before a n' off :
  gralloc_alloc_buffer dev n usage wd = Some ((err, hnd), wd') →
  trace wd' = after ++ EvAllocate a n' off :: before ++ trace wd →
  0 ≤ off →
  (∃ c e, In (EvSys c (RErr e)) after) →
  err < 0 ∧ hnd = None ∧ heap wd' = heap wd
  ∧ pool_state a wd' = deallocate (allocate (pool_state a wd) n').2 off
  ∧ (∀ a', a' ≠ a → pool_state a' wd' = pool_state a' wd)
  ∧ ∃ fdo rc tried,
      after = EvDeallocate a off :: EvSys (sys_close fdo) rc :: tried
      ∧ match pmem_device (choose_backing dev usage).2 with
        | Some path =>
            ∃ ro, In (EvSys (sys_open path) ro) tried ∧ fdo = syscall_ret ro
        | None => fdo = -1
        end.
Proof.
  intros Hrun Hsplit Hoff (c & e & Hfail).
  unfold gralloc_alloc_buffer in Hrun.
  destruct (choose_backing dev usage) as [fl bt]. cbn [snd].
  destruct (Z.land fl PRIV_FLAGS_USES_PMEM =? 0).
  { (* anonymous shared memory from the start *)
    exfalso. apply bind_Some in Hrun as ([fd' err0] & wd1 & Hash & Hpub).
    apply try_ashmem_frame in Hash as (ev & Ht1 & Hev & _).
    apply publish_handle_frame in Hpub as (_ & Ht & _).
    eapply (run_without_allocate wd wd' [ev]); [|..|exact Hsplit].
    - rewrite Ht, Ht1. reflexivity.
    - intros ev' [<-|[]]. exact Hev. }
  apply bind_Some in Hrun as (m & wd0 & [= <- <-] & Hrun).
  apply bind_Some in Hrun as (err0 & wd1 & Hinit & Hrun).
  assert (∃ pre, trace wd1 = pre ++ trace wd
                 ∧ (∀ ev, In ev pre → is_sys ev)
                 ∧ sAllocator wd1 = sAllocator wd
                 ∧ sGPUAllocator wd1 = sGPUAllocator wd
                 ∧ heap wd1 = heap wd) as (pre & Ht1 & Hpre & Hs1 & Hg1 & Hh1).
  { destruct (_ =? -1).
    - apply init_pmem_area_frame in Hinit. exact Hinit.
    - injection Hinit as <- <-. exists []. repeat split. intros ev []. }
  apply bind_Some in Hrun as (m1 & wd1' & [= <- <-] & Hrun).
  destruct (0 <=? master_fd_of (module wd1) bt).
  - apply bind_Some
      in Hrun as ([[[[err1 fd'] b] off1] ls] & wd2 & Hpool & Hpub).
    apply alloc_from_pool_inv
      in Hpool as (steps & Ht2 & Hsteps & Hoff1 & Hh2 & Hcases).
    apply publish_handle_frame in Hpub as (-> & Ht & Hs & Hg & Hnone).
    rewrite Ht, Ht2, Ht1 in Hsplit.
    change (steps ++ EvAllocate (pool_of bt) (roundUpToPageSize n) off1
              :: pre ++ trace wd)
      with (steps ++ (EvAllocate (pool_of bt) (roundUpToPageSize n) off1
              :: pre) ++ trace wd) in Hsplit.
    change (after ++ EvAllocate a n' off :: before ++ trace wd)
      with (after ++ (EvAllocate a n' off :: before) ++ trace wd) in Hsplit.
    rewrite !app_assoc in Hsplit. apply app_inv_tail in Hsplit.
    symmetry in Hsplit.
    apply split_at_allocate in Hsplit as (-> & [= -> -> ->] & ->);
      [|exact I|exact I| |].
    2: { intros y Hy Hal. destruct y; try contradiction.
         exact (Hsteps _ _ _ Hy). }
    2: { intros y Hy. apply is_sys_not_allocate, Hpre, Hy. }
    rewrite (pool_state_frame _ wd wd1 Hs1 Hg1) in Hoff1, Hcases.
    destruct (Hcases Hoff) as [[_ Hall] | (Herr & _ & Hpool' & Hother & Hclosed)].
    { destruct (Hall _ _ Hfail) as [v Hv]. discriminate Hv. }
    destruct Hnone as [-> Hh]; [lia|].
    split; [exact Herr|]. split; [reflexivity|].
    split; [rewrite Hh, Hh2; exact Hh1|].
    split; [rewrite (pool_state_frame _ wd2 wd' Hs Hg); exact Hpool'|].
    split; [|exact Hclosed].
    intros a' Ha'. rewrite (pool_state_frame _ wd2 wd' Hs Hg).
    rewrite (Hother a' Ha'). apply pool_state_frame; assumption.
  - exfalso. destruct (Z.land usage GRALLOC_USAGE_HW_2D =? 0).
    + apply bind_Some in Hrun as ([fd' err1] & wd2 & Hash & Hpub).
      apply try_ashmem_frame in Hash as (ev & Ht2 & Hev & _).
      apply publish_handle_frame in Hpub as (_ & Ht & _).
      eapply (run_without_allocate wd wd' (ev :: pre)); [|..|exact Hsplit].
      * rewrite Ht, Ht2, Ht1. reflexivity.
      * intros ev' [<-|Hin]; [exact Hev|exact (Hpre _ Hin)].
    + apply publish_handle_frame in Hrun as (_ & Ht & _).
      eapply (run_without_allocate wd wd' pre); [|..|exact Hsplit].
      * rewrite Ht, Ht1. reflexivity.
      * exact Hpre.
Qed.

(** ** The framebuffer slots *)

Lemma land_pow2_eqb a i :
  0 ≤ i → (Z.land a (2 ^ i) =? 0) = negb (Z.testbit a i).
Proof.
  intros Hi.
  assert (Z.land a (2 ^ i) = if Z.testbit a i then 2 ^ i else 0) as ->.
  { apply Z.bits_inj'. intros j Hj. rewrite Z.land_spec, Z.pow2_bits_eqb by lia.
    destruct (Z.eqb_spec i j) as [->|Hne].
    - destruct (Z.testbit a j); [rewrite Z.pow2_bits_true by lia|
                                  rewrite Z.bits_0]; reflexivity.
    - rewrite andb_false_r.
      destruct (Z.testbit a i); [rewrite Z.pow2_bits_false by lia|
                                  rewrite Z.bits_0]; reflexivity. }
  destruct (Z.testbit a i); [|reflexivity].
  apply Z.eqb_neq. pose proof (Z.pow_pos_nonneg 2 i). lia.
Qed.

Lemma uint32_pow2 i : 0 ≤ i < 32 → uint32 (Z.shiftl 1 i) = 2 ^ i.
Proof.
  intros Hi. rewrite Z.shiftl_1_l. apply uint32_small. split.
  - apply Z.pow_nonneg. lia.
  - apply Z.pow_lt_mono_r; lia.
Qed.

Lemma testbit_above mask n j :
  0 ≤ n → 0 ≤ mask < 2 ^ n → n ≤ j → Z.testbit mask j = false.
Proof.
  intros Hn Hm Hj. rewrite <- (Z.mod_small mask (2 ^ n)) by lia.
  apply Z.mod_pow2_bits_high. lia.
Qed.

Lemma mask_full mask n :
  0 ≤ n → 0 ≤ mask < 2 ^ n →
  (∀ j, 0 ≤ j < n → Z.testbit mask j = true) →
  mask = 2 ^ n - 1.
Proof.
  intros Hn Hm Hall.
  replace (2 ^ n - 1) with (Z.ones n) by (rewrite Z.ones_equiv; lia).
  apply Z.bits_inj'. intros j Hj. rewrite Z.testbit_ones_nonneg by lia.
  destruct (Z.ltb_spec j n).
  - apply Hall. lia.
  - apply (testbit_above mask n); lia.
Qed.

Lemma find_free_slot_spec mask bs fuel k v :
  0 ≤ k → k + Z.of_nat fuel ≤ 32 → sint32 v = v →
  match find_free_slot mask bs fuel k v with
  | (Some i, v') =>
      k ≤ i < k + Z.of_nat fuel
      ∧ Z.testbit mask i = false
      ∧ (∀ j, k ≤ j < i → Z.testbit mask j = true)
      ∧ v' = sint32 (v + (i - k) * bs)
  | (None, _) => ∀ j, k ≤ j < k + Z.of_nat fuel → Z.testbit mask j = true
  end.
Proof.
  revert k v. induction fuel as [|fuel IH]; intros k v Hk Hfuel Hv;
    cbn [find_free_slot].
  - intros j Hj. lia.
  - rewrite uint32_pow2, land_pow2_eqb by lia.
    destruct (Z.testbit mask k) eqn:Hbit; cbn [negb].
    + specialize (IH (k + 1) (sint32 (v + bs))).
      destruct (find_free_slot mask bs fuel (k + 1) (sint32 (v + bs)))
        as [[i|] v'].
      * destruct IH as (Hi & Hclear & Hlow & Hv'); [lia|lia| |].
        { apply sint32_idem. }
        split; [lia|]. split; [exact Hclear|]. split.
        -- intros j Hj. destruct (Z.eq_dec j k) as [->|]; [exact Hbit|].
           apply Hlow. lia.
        -- rewrite Hv', sint32_add_l. f_equal. lia.
      * intros j Hj. destruct (Z.eq_dec j k) as [->|]; [exact Hbit|].
        apply IH; [lia|lia| |lia].
        apply sint32_idem.
    + split; [lia|]. split; [exact Hbit|]. split; [intros j Hj; lia|].
      replace (v + (k - k) * bs) with v by lia. symmetry. exact Hv.
Qed.

Lemma full_mask_test n mask :
  0 ≤ n < 32 → 0 ≤ mask < 2 ^ n →
  (uint32 (Z.shiftl 1 n - 1) <=? mask) = (mask =? 2 ^ n - 1).
Proof.
  intros Hn Hm. rewrite Z.shiftl_1_l.
  assert (2 ^ n < 2 ^ 32) by (apply Z.pow_lt_mono_r; lia).
  rewrite uint32_small by lia.
  destruct (Z.leb_spec (2 ^ n - 1) mask), (Z.eqb_spec mask (2 ^ n - 1));
    lia.
Qed.

Lemma gralloc_alloc_framebuffer_full dev n usage wd pfb fb :
  scanout_ready wd pfb fb →
  bufferMask (module wd) = 2 ^ numBuffers (module wd) - 1 →
  gralloc_alloc_framebuffer dev n usage wd
  = Some ((- Z.pos ENOMEM, None), wd).
Proof.
  intros [Hfb Hh Hn Hm Hb] Hfull.
  unfold gralloc_alloc_framebuffer, gralloc_alloc_framebuffer_locked.
  unfold bind, get_module. rewrite Hfb. unfold ret.
  change (0 <? 0) with false. cbv beta iota zeta.
  destruct (Z.eqb_spec (numBuffers (module wd)) 1); [lia|].
  rewrite full_mask_test by lia.
  rewrite Hfull, Z.eqb_refl. reflexivity.
Qed.

Lemma gralloc_alloc_framebuffer_slot dev n usage wd pfb fb :
  scanout_ready wd pfb fb →
  bufferMask (module wd) ≠ 2 ^ numBuffers (module wd) - 1 →
  ∃ i p r wd',
    0 ≤ i < numBuffers (module wd)
    ∧ Z.testbit (bufferMask (module wd)) i = false
    ∧ (∀ j, 0 ≤ j < i → Z.testbit (bufferMask (module wd)) j = true)
    ∧ gralloc_alloc_framebuffer dev n usage wd = Some ((0, Some p), wd')
    ∧ module wd'
      = set_bufferMask (Z.lor (bufferMask (module wd)) (2 ^ i)) (module wd)
    ∧ heap wd !! p = None
    ∧ heap wd' = <[p := r]> (heap wd)
    ∧ sAllocator wd' = sAllocator wd ∧ sGPUAllocator wd' = sGPUAllocator wd
    ∧ base r = sint32 (base fb + i * slot_size (module wd))
    ∧ flags r = Z.lor PRIV_FLAGS_USES_PMEM PRIV_FLAGS_FRAMEBUFFER
    ∧ validate (Some r) = 0.
Proof.
  intros [Hfb Hh Hn Hm Hb] Hfull.
  pose proof (find_free_slot_spec (bufferMask (module wd))
                (slot_size (module wd))
                (Z.to_nat (numBuffers (module wd))) 0 (base fb)) as Hspec.
  rewrite Z2Nat.id in Hspec by lia.
  specialize (Hspec ltac:(lia) ltac:(lia) Hb).
  unfold gralloc_alloc_framebuffer, gralloc_alloc_framebuffer_locked.
  unfold bind, get_module, load_framebuffer, bind, get_module.
  rewrite Hfb. unfold ret. change (0 <? 0) with false. cbv beta iota zeta.
  destruct (Z.eqb_spec (numBuffers (module wd)) 1); [lia|].
  rewrite full_mask_test by lia.
  destruct (Z.eqb_spec (bufferMask (module wd))
              (2 ^ numBuffers (module wd) - 1)); [contradiction|].
  unfold load, do_syscall, new, modify_module, store.
  rewrite Hfb, Hh. cbn [module sAllocator sGPUAllocator heap errno trace].
  destruct (find_free_slot _ _ _ 0 (base fb)) as [[i|] v'].
  - destruct Hspec as (Hi & Hclear & Hlow & ->).
    cbn [module sAllocator sGPUAllocator heap errno trace].
    rewrite lookup_insert_eq.
    cbn [module sAllocator sGPUAllocator heap errno trace].
    rewrite insert_insert_eq, uint32_pow2 by lia.
    eexists i, _, _, _. split; [lia|]. split; [exact Hclear|].
    split; [intros j Hj; apply Hlow; lia|].
    split; [reflexivity|].
    cbn [module sAllocator sGPUAllocator heap errno trace].
    split; [reflexivity|]. split; [apply (fresh_heap_None wd)|].
    split; [reflexivity|]. split; [reflexivity|]. split; [reflexivity|].
    split; [cbn [base set_phys set_offset set_base]; f_equal; lia|].
    split; [reflexivity|].
    apply validate_Some_0. repeat split; reflexivity.
  - exfalso. apply Hfull, mask_full; [lia|exact Hm|].
    intros j Hj. apply Hspec. lia.
Qed.

Lemma clear_bit_mask mask i :
  0 ≤ i < 32 → 0 ≤ mask < 2 ^ 32 →
  Z.land mask (uint32 (Z.lnot (Z.shiftl 1 i))) = Z.ldiff mask (2 ^ i).
Proof.
  intros Hi Hm. apply Z.bits_inj'. intros j Hj.
  rewrite Z.land_spec, Z.ldiff_spec. unfold uint32.
  rewrite Z.testbit_mod_pow2, Z.lnot_spec, Z.shiftl_1_l by lia.
  destruct (Z.ltb_spec j 32); [reflexivity|].
  rewrite (testbit_above mask 32 j) by lia. reflexivity.
Qed.

Lemma slot_index_of_base fbbase i bs n :
  0 ≤ i < n → n < 32 → 0 < bs → n * bs ≤ 2 ^ 32 →
  sint32 (uint32 (sint32 (sint32 (fbbase + i * bs) - fbbase)) / bs) = i.
Proof.
  intros Hi Hn Hbs Hfit.
  replace (sint32 (fbbase + i * bs) - fbbase)
    with (sint32 (fbbase + i * bs) + - fbbase) by lia.
  rewrite sint32_add_l, uint32_sint32.
  replace (fbbase + i * bs + - fbbase) with (i * bs) by lia.
  rewrite uint32_small by nia.
  rewrite Z.div_mul by lia. apply sint32_small. lia.
Qed.

Lemma gralloc_free_slot wd pfb fb p r i :
  scanout_ready wd pfb fb → surface_fits wd →
  scanout_handle wd pfb fb p r i →
  ∃ wd',
    gralloc_free (Some p) wd = Some (0, wd')
    ∧ module wd'
      = set_bufferMask (Z.ldiff (bufferMask (module wd)) (2 ^ i)) (module wd)
    ∧ heap wd' = base.delete p (heap wd)
    ∧ sAllocator wd' = sAllocator wd ∧ sGPUAllocator wd' = sGPUAllocator wd.
Proof.
  intros [Hfb Hh Hn Hm Hb] [Hbs Hfit] [Hne Hr Hv Hfl Hi Hbase].
  rewrite (gralloc_free_valid _ _ _ Hr Hv).
  assert (release_backing r wd
          = Some (tt, mk_world
                        (set_bufferMask
                           (Z.ldiff (bufferMask (module wd)) (2 ^ i))
                           (module wd))
                        (sAllocator wd) (sGPUAllocator wd) (heap wd)
                        (errno wd) (trace wd))) as Hrel.
  { unfold release_backing.
    destruct (Z.eqb_spec (Z.land (flags r) PRIV_FLAGS_FRAMEBUFFER) 0);
      [contradiction|]. cbn [negb].
    unfold bind, get_module, load_framebuffer, bind, get_module.
    rewrite Hfb. unfold load. rewrite Hh.
    destruct (Z.eqb_spec (slot_size (module wd)) 0); [lia|].
    unfold modify_module. rewrite Hbase.
    rewrite (slot_index_of_base _ _ _ (numBuffers (module wd))) by lia.
    rewrite clear_bit_mask; [reflexivity|lia|].
    split; [lia|]. apply Z.lt_trans with (2 ^ numBuffers (module wd)); [lia|].
    apply Z.pow_lt_mono_r; lia. }
  rewrite (bind_run _ _ _ _ _ Hrel).
  match goal with
  | |- context [unregister_close_delete p ?w] =>
      destruct (unregister_close_delete_run w p r Hr)
        as (wd' & r' & rc & Hrun & Hm' & Hs' & Hg' & Hh' & _)
  end.
  exists wd'. split; [exact Hrun|]. repeat split; assumption.
Qed.

Lemma below_pow2 a n :
  0 ≤ n → 0 ≤ a → (∀ j, n ≤ j → Z.testbit a j = false) → a < 2 ^ n.
Proof.
  intros Hn Ha Hhigh.
  assert (a = a mod 2 ^ n) as ->.
  { apply Z.bits_inj'. intros j Hj. rewrite Z.testbit_mod_pow2 by lia.
    destruct (Z.ltb_spec j n); [reflexivity|]. apply Hhigh. lia. }
  apply Z.mod_pos_bound. apply Z.pow_pos_nonneg; lia.
Qed.

Lemma scanout_ready_update wd wd' pfb fb mask' :
  scanout_ready wd pfb fb →
  module wd' = set_bufferMask mask' (module wd) →
  heap wd' !! pfb = Some fb →
  0 ≤ mask' →
  (∀ j, numBuffers (module wd) ≤ j → Z.testbit mask' j = false) →
  scanout_ready wd' pfb fb.
Proof.
  intros [Hfb Hh Hn Hm Hb] Hmod Hh' Hpos Hhigh.
  split; rewrite ?Hmod; cbn [framebuffer numBuffers bufferMask set_bufferMask];
    try assumption.
  split; [exact Hpos|]. apply below_pow2; [lia|exact Hpos|exact Hhigh].
Qed.

(** C7: with a mapped display of more than one buffer (2 to 31 slots, no
    bit of the bitmask beyond them), a scanout request fails with
    [-ENOMEM] and changes nothing when all the slot bits are set;
    otherwise it sets the lowest clear bit [i] and returns a valid
    framebuffer handle whose base is the base of the surface plus [i]
    times the slot size (in [int] arithmetic).  When the surface lies in
    the address space, freeing the handle of slot [i] clears bit [i] of
    the bitmask and no other; and if the bitmask was full before that
    free, the next scanout request succeeds, gets the same slot and fills
    the bitmask again, and the one after it fails with [-ENOMEM]. *)
Theorem framebuffer_slots dev n usage wd pfb fb :
  scanout_ready wd pfb fb →
  let count := numBuffers (module wd) in
  let mask := bufferMask (module wd) in
  (mask = 2 ^ count - 1 →
     gralloc_alloc_framebuffer dev n usage wd
     = Some ((- Z.pos ENOMEM, None), wd))
  ∧ (mask ≠ 2 ^ count - 1 →
       ∃ i p r wd',
         0 ≤ i < count ∧ Z.testbit mask i = false
         ∧ (∀ j, 0 ≤ j < i → Z.testbit mask j = true)
         ∧ gralloc_alloc_framebuffer dev n usage wd = Some ((0, Some p), wd')
         ∧ bufferMask (module wd') = Z.lor mask (2 ^ i)
         ∧ heap wd' !! p = Some r
         ∧ base r = sint32 (base fb + i * slot_size (module wd))
         ∧ Z.land (flags r) PRIV_FLAGS_FRAMEBUFFER ≠ 0
         ∧ validate (Some r) = 0)
  ∧ (∀ p r i,
       surface_fits wd → scanout_handle wd pfb fb p r i →
       ∃ wd1,
         gralloc_free (Some p) wd = Some (0, wd1)
         ∧ bufferMask (module wd1) = Z.ldiff mask (2 ^ i)
         ∧ (∀ j, 0 ≤ j →
              Z.testbit (bufferMask (module wd1)) j
              = Z.testbit mask j && negb (j =? i))
         ∧ (mask = 2 ^ count - 1 →
              ∃ p2 r2 wd2,
                gralloc_alloc_framebuffer dev n usage wd1
                = Some ((0, Some p2), wd2)
                ∧ heap wd2 !! p2 = Some r2
                ∧ base r2 = base r
                ∧ bufferMask (module wd2) = 2 ^ count - 1
                ∧ gralloc_alloc_framebuffer dev n usage wd2
                  = Some ((- Z.pos ENOMEM, None), wd2))).
Proof.
  intros Hready count mask. split; [|split].
  - intros Hfull. eapply gralloc_alloc_framebuffer_full; eassumption.
  - intros Hfree.
    destruct (gralloc_alloc_framebuffer_slot dev n usage wd pfb fb Hready Hfree)
      as (i & p & r & wd' & Hi & Hclear & Hlow & Hrun & Hmod & _ & Hheap
          & _ & _ & Hbase & Hfl & Hv).
    exists i, p, r, wd'. repeat split; try assumption; try lia.
    + rewrite Hmod. reflexivity.
    + rewrite Hheap. apply lookup_insert_eq.
    + rewrite Hfl. discriminate.
  - intros p r i Hfits Hslot.
    destruct (gralloc_free_slot wd pfb fb p r i Hready Hfits Hslot)
      as (wd1 & Hrun & Hmod & Hheap & _ & _).
    pose proof Hready as [Hfb Hh Hn Hm Hb].
    pose proof Hslot as [Hne Hr Hv Hflag Hi Hbase].
    fold count in Hn, Hi. fold mask in Hm.
    assert (bufferMask (module wd1) = Z.ldiff mask (2 ^ i)) as Hmask1.
    { rewrite Hmod. reflexivity. }
    assert (∀ j, 0 ≤ j →
              Z.testbit (Z.ldiff mask (2 ^ i)) j
              = Z.testbit mask j && negb (j =? i)) as Hbits.
    { intros j Hj. rewrite Z.ldiff_spec, Z.pow2_bits_eqb by lia.
      rewrite (Z.eqb_sym i j). reflexivity. }
    exists wd1. split; [exact Hrun|]. split; [exact Hmask1|].
    split; [intros j Hj; rewrite Hmask1; apply Hbits, Hj|].
    intros Hfull.
    assert (scanout_ready wd1 pfb fb) as Hready1.
    { eapply scanout_ready_update; [exact Hready|exact Hmod| | |].
      - rewrite Hheap, lookup_delete_ne by done. exact Hh.
      - apply Z.ldiff_nonneg. left. lia.
      - intros j Hj. rewrite Hbits by lia.
        rewrite (testbit_above mask count j) by lia. reflexivity. }
    assert (Z.testbit mask i = true) as Hset.
    { unfold mask in *. rewrite Hfull.
      replace (2 ^ count - 1) with (Z.ones count)
        by (rewrite Z.ones_equiv; lia).
      apply Z.ones_spec_low. lia. }
    assert (bufferMask (module wd1) ≠ 2 ^ numBuffers (module wd1) - 1)
      as Hfree1.
    { rewrite Hmask1, Hmod. cbn [numBuffers set_bufferMask]. fold count.
      intros Heq. rewrite <- Hfull in Heq.
      pose proof (Hbits i ltac:(lia)) as Hbi.
      rewrite Heq, Hset, Z.eqb_refl in Hbi. discriminate Hbi. }
    destruct (gralloc_alloc_framebuffer_slot dev n usage wd1 pfb fb
                Hready1 Hfree1)
      as (i' & p2 & r2 & wd2 & Hi' & Hclear' & _ & Hrun2 & Hmod2 & Hfresh2
          & Hheap2 & _ & _ & Hbase2 & _ & _).
    assert (i' = i) as ->.
    { rewrite Hmask1, Hbits in Hclear' by lia.
      rewrite Hmod in Hi'. cbn [numBuffers set_bufferMask] in Hi'.
      fold count in Hi'.
      assert (Z.testbit mask i' = true) as Hset'.
      { unfold mask in *. rewrite Hfull.
        replace (2 ^ count - 1) with (Z.ones count)
          by (rewrite Z.ones_equiv; lia).
        apply Z.ones_spec_low. lia. }
      rewrite Hset' in Hclear'. cbn [andb] in Hclear'.
      destruct (Z.eqb_spec i' i); [assumption|discriminate Hclear']. }
    assert (Z.lor (Z.ldiff mask (2 ^ i)) (2 ^ i) = mask) as Hback.
    { apply Z.bits_inj'. intros j Hj.
      rewrite Z.lor_spec, Hbits, Z.pow2_bits_eqb by lia.
      rewrite (Z.eqb_sym i j).
      destruct (Z.eqb_spec j i) as [->|]; [rewrite Hset; reflexivity|].
      rewrite andb_true_r, orb_false_r. reflexivity. }
    assert (module wd2 = set_bufferMask mask (module wd)) as Hmod2'.
    { rewrite Hmod2, Hmask1, Hback, Hmod. reflexivity. }
    assert (scanout_ready wd2 pfb fb) as Hready2.
    { eapply scanout_ready_update; [exact Hready|exact Hmod2'| | |].
      - rewrite Hheap2, lookup_insert_ne.
        + rewrite Hheap, lookup_delete_ne by done. exact Hh.
        + intros ->. rewrite Hheap, lookup_delete_ne in Hfresh2 by done.
          rewrite Hh in Hfresh2. discriminate Hfresh2.
      - lia.
      - intros j Hj. apply (testbit_above mask count j); lia. }
    exists p2, r2, wd2. split; [exact Hrun2|].
    split; [rewrite Hheap2; apply lookup_insert_eq|].
    split.
    { rewrite Hbase2, Hbase, Hmod. reflexivity. }
    split.
    { rewrite Hmod2'. cbn [bufferMask set_bufferMask]. exact Hfull. }
    eapply gralloc_alloc_framebuffer_full; [exact Hready2|].
    rewrite Hmod2'. cbn [bufferMask numBuffers set_bufferMask]. exact Hfull.
Qed.

(** ** Freeing a handle that is backed by anonymous shared memory *)

(** The branch behind [true ||] does not look at
    [PRIV_FLAGS_USES_PMEM]: a valid handle that is neither a framebuffer
    slot nor pmem-backed, and whose descriptor is open, has
    [deallocate(hnd->offset)] applied to the allocator that its
    [bufferType] selects and [memset] run over [hnd->size] bytes at
    [hnd->base] before the descriptor is closed. *)
Lemma gralloc_free_ashmem_runs_pool_branch wd p r :
  heap wd !! p = Some r → validate (Some r) = 0 →
  Z.land (flags r) PRIV_FLAGS_FRAMEBUFFER = 0 →
  Z.land (flags r) PRIV_FLAGS_USES_PMEM = 0 →
  0 ≤ fd r →
  ∃ wd' r' rc,
    gralloc_free (Some p) wd = Some (0, wd')
    ∧ pool_state (pool_of (bufferType r)) wd'
      = deallocate (pool_state (pool_of (bufferType r)) wd) (offset r)
    ∧ trace wd'
      = EvDelete p :: EvSys (sys_close (fd r')) rc :: EvUnregister p
          :: EvMemset (base r) (size r)
          :: EvDeallocate (pool_of (bufferType r)) (offset r) :: trace wd.
Proof.
  intros Hr Hv Hfb _ Hfd. rewrite (gralloc_free_valid _ _ _ Hr Hv).
  unfold release_backing. rewrite Hfb. change (negb (0 =? 0)) with false.
  cbv iota. destruct (Z.leb_spec 0 (fd r)) as [_|]; [|lia].
  unfold pool_of.
  destruct (buffer_type_eqb (bufferType r) BUFFER_TYPE_PMEM);
    unfold bind at 1; unfold bind at 1; unfold pool_deallocate, memset, emit;
    cbn [module sAllocator sGPUAllocator heap errno trace];
    match goal with
    | |- context [unregister_close_delete p ?w] =>
        destruct (unregister_close_delete_run w p r Hr)
          as (wd' & r' & rc & Hrun & _ & Hs & Hg & _ & _ & Ht)
    end;
    exists wd', r', rc; (split; [exact Hrun|]); split;
    [exact Hs|exact Ht|exact Hg|exact Ht].
Qed.

(** * The allocation and free paths in detail *)

(** ** The steps of [gralloc_alloc_buffer], one by one *)

Lemma try_ashmem_shape n wd fd' err wd' :
  try_ashmem n wd = Some ((fd', err), wd') →
  module wd' = module wd ∧ heap wd' = heap wd
  ∧ sAllocator wd' = sAllocator wd ∧ sGPUAllocator wd' = sGPUAllocator wd
  ∧ ∃ rp,
      trace wd' = EvSys (sys_ashmem_create_region "Buffer" n) rp :: trace wd
      ∧ fd' = syscall_ret rp
      ∧ ((∃ v, rp = ROk v ∧ err = 0) ∨ (∃ e, rp = RErr e ∧ err = - Z.pos e)).
Proof.
  unfold try_ashmem, bind, do_syscall, get_errno, ret. intros Hrun.
  destruct (os_reply (trace wd) _) as [v|e] eqn:Hk; cbn [syscall_ret] in Hrun.
  - destruct (Z.ltb_spec (Z.of_N v) 0); [lia|]. injection Hrun as <- <- <-.
    do 4 (split; [reflexivity|]). eexists. split; [reflexivity|].
    split; [reflexivity|]. left. eauto.
  - change (-1 <? 0) with true in Hrun. cbv iota in Hrun.
    injection Hrun as <- <- <-.
    do 4 (split; [reflexivity|]). eexists. split; [reflexivity|].
    split; [reflexivity|]. right. eauto.
Qed.

Lemma publish_handle_inv err fd' n fl bt b o ls wd e hnd wd' :
  publish_handle err fd' n fl bt b o ls wd = Some ((e, hnd), wd') →
  e = err ∧ module wd' = module wd ∧ trace wd' = trace wd
  ∧ sAllocator wd' = sAllocator wd ∧ sGPUAllocator wd' = sGPUAllocator wd
  ∧ ((err ≠ 0 ∧ hnd = None ∧ heap wd' = heap wd)
     ∨ (err = 0
        ∧ ∃ p r,
            hnd = Some p ∧ heap wd !! p = None
            ∧ heap wd' = <[p := r]> (heap wd)
            ∧ validate (Some r) = 0
            ∧ fd r = fd' ∧ flags r = fl ∧ size r = sint32 n
            ∧ offset r = o ∧ base r = sint32 (sint32 b + o)
            ∧ lockState r = ls ∧ writeOwner r = 0 ∧ pid r = getpid
            ∧ bufferType r = bt
            ∧ phys r = if buffer_type_eqb bt BUFFER_TYPE_GPU1
                       then sint32 (master_phys (module wd) + o) else 0)).
Proof.
  unfold publish_handle, bind, get_module, new, ret.
  destruct (Z.eqb_spec err 0) as [->|Hne]; intros [= <- <- <-].
  - do 5 (split; [reflexivity|]). right. split; [reflexivity|].
    eexists _, _. split; [reflexivity|].
    split; [apply (fresh_heap_None wd)|]. split; [reflexivity|].
    destruct (buffer_type_eqb bt BUFFER_TYPE_GPU1);
      (split; [apply validate_Some_0; repeat split; reflexivity|]);
      repeat split.
  - do 5 (split; [reflexivity|]). left. repeat split. exact Hne.
Qed.

Lemma alloc_from_pool_shape bt n mfd wd err fd' b off ls wd' :
  alloc_from_pool bt n mfd wd = Some ((err, fd', b, off, ls), wd') →
  module wd' = module wd ∧ heap wd' = heap wd
  ∧ b = master_base_of (module wd) bt ∧ ls = LOCK_STATE_MAPPED
  ∧ off = (allocate (pool_state (pool_of bt) wd) n).1
  ∧ (∀ a', a' ≠ pool_of bt → pool_state a' wd' = pool_state a' wd)
  ∧ (off < 0 →
       err = - Z.pos ENOMEM ∧ fd' = -1
       ∧ trace wd' = EvAllocate (pool_of bt) n off :: trace wd
       ∧ errno wd' = errno wd
       ∧ pool_state (pool_of bt) wd'
         = (allocate (pool_state (pool_of bt) wd) n).2)
  ∧ (err = 0 →
       0 ≤ off ∧ 0 ≤ fd'
       ∧ pool_state (pool_of bt) wd'
         = (allocate (pool_state (pool_of bt) wd) n).2)
  ∧ ∃ steps,
      trace wd' = steps ++ EvAllocate (pool_of bt) n off :: trace wd
      ∧ ∀ ev, In ev steps →
          ¬ is_allocate ev ∧ ¬ is_mmap ev ∧ ¬ is_ashmem ev
          ∧ ∀ path, opened ev = Some path → pmem_device bt = Some path.
Proof.
  unfold alloc_from_pool, bind, get_module, pool_allocate, open_pmem_device,
    pool_deallocate, get_errno, ret, bind, pool_state.
  intros Hrun.
  destruct (pool_of bt) eqn:Hpool;
    destruct (allocate _ n) as [off0 s] eqn:Hal; cbn [fst snd];
    destruct (Z.ltb_spec off0 0) as [Hneg|Hneg].
  all: try (injection Hrun as <- <- <- <- <- <-;
            do 5 (split; [reflexivity|]);
            split; [intros [] Hne; [contradiction || reflexivity
                                   |contradiction || reflexivity]|];
            split; [intros _; repeat split|];
            split; [pose proof (Pos2Z.is_pos ENOMEM); intros; lia|];
            exists []; split; [reflexivity|]; intros ev []).
  all: destruct (pmem_device bt) as [path|] eqn:Hdev;
    unfold bind, do_syscall, ret in Hrun;
    cbn [module sAllocator sGPUAllocator heap errno trace] in Hrun.
  all: repeat match type of Hrun with
         | context [os_reply ?t ?c] =>
             destruct (os_reply t c) as [?|?] eqn:?;
             cbn [module sAllocator sGPUAllocator heap errno trace
                  ioctl_ret syscall_ret Z.ltb Z.compare Z.opp] in Hrun
         end.
  all: cbn [module sAllocator sGPUAllocator heap errno trace
                  ioctl_ret syscall_ret Z.ltb Z.compare Z.opp] in Hrun.
  all: injection Hrun as <- <- <- <- <- <-.
  all: try match goal with
         | H : os_reply _ (sys_ioctl _ _) = ROk _ |- _ => discriminate H
         end.
  all: cbn [trace heap sAllocator sGPUAllocator module].
  all: do 5 (split; [reflexivity|]).
  all: split; [intros [] Hne; [contradiction || reflexivity
                              |contradiction || reflexivity]|].
  all: split; [intros; lia|].
  all: split; [intros Herr;
               first [ discriminate Herr
                     | exfalso; pose proof (Pos2Z.is_pos ENOMEM); lia
                     | split; [exact Hneg|]; split; [lia|reflexivity] ]|].
  all: find_steps; cbn [rev app]; split; [reflexivity|].
  all: intros ev; cbn [In]; intros Hin;
    repeat (destruct Hin as [<-|Hin];
            [cbn [is_allocate is_mmap is_ashmem opened];
             repeat split; try tauto; intros ? [= <-]; reflexivity|]);
    contradiction.
Qed.

Lemma init_pmem_area_shape bt wd x wd' :
  init_pmem_area bt wd = Some (x, wd') →
  heap wd' = heap wd
  ∧ sAllocator wd' = sAllocator wd ∧ sGPUAllocator wd' = sGPUAllocator wd
  ∧ framebuffer (module wd') = framebuffer (module wd)
  ∧ numBuffers (module wd') = numBuffers (module wd)
  ∧ bufferMask (module wd') = bufferMask (module wd)
  ∧ finfo_line_length (module wd') = finfo_line_length (module wd)
  ∧ info_yres (module wd') = info_yres (module wd)
  ∧ (pmem_device bt ≠ None → master_fd_of (module wd) bt = -1 →
       0 ≤ master_fd_of (module wd') bt
       ∨ (master_fd_of (module wd') bt = -1 ∧ x < 0))
  ∧ ∃ evs,
      trace wd' = evs ++ trace wd
      ∧ ∀ ev, In ev evs →
          is_sys ev ∧ ¬ is_ashmem ev
          ∧ ∀ path, opened ev = Some path → pmem_device bt = Some path.
Proof.
  unfold init_pmem_area, bind, open_pmem_device, pool_size, get_errno,
    modify_module, ret, bind.
  intros Hrun.
  destruct bt; cbn [pmem_device buffer_type_eqb pool_of master_fd_of] in *;
    unfold bind, do_syscall, ret in Hrun;
    cbn [module sAllocator sGPUAllocator heap errno trace] in Hrun.
  all: repeat match type of Hrun with
         | context [os_reply ?t ?c] =>
             destruct (os_reply t c) as [?|?] eqn:?;
             cbn [module sAllocator sGPUAllocator heap errno trace
                  ioctl_ret syscall_ret Z.leb Z.compare Z.opp] in Hrun
         | context [if (0 <=? Z.of_N ?v) then _ else _] =>
             destruct (Z.leb_spec 0 (Z.of_N v)) as [_|]; [|lia]
         end.
  all: cbn [module sAllocator sGPUAllocator heap errno trace
            ioctl_ret syscall_ret Z.leb Z.compare Z.opp] in Hrun.
  all: injection Hrun as <- <-.
  all: try match goal with
         | H : os_reply _ (sys_ioctl _ _) = ROk _ |- _ => discriminate H
         end.
  all: cbn [trace heap sAllocator sGPUAllocator module framebuffer numBuffers
            bufferMask finfo_line_length info_yres set_pmem_master
            set_gpu_master set_master_phys pmem_master gpu_master].
  all: do 8 (split; [reflexivity|]).
  all: split;
    [intros Hdev Hm;
     first [ contradiction
           | left; apply N2Z.is_nonneg
           | right; split; [first [reflexivity | exact Hm]|lia] ]|].
  all: find_prefix; cbn [rev app]; split; [reflexivity|].
  all: intros ev; cbn [In]; intros Hin;
    repeat (destruct Hin as [<-|Hin];
            [cbn [is_sys is_ashmem opened];
             repeat split; try tauto; intros ? [= <-]; reflexivity|]);
    contradiction.
Qed.

(** The four ways through [gralloc_alloc_buffer]: anonymous memory from the
    start; a pool whose master descriptor is usable; the retry as anonymous
    memory; and the refusal of a 2D request. *)
Lemma gralloc_alloc_buffer_cases dev n usage wd e hnd wd' :
  gralloc_alloc_buffer dev n usage wd = Some ((e, hnd), wd') →
  let fl := (choose_backing dev usage).1 in
  let bt := (choose_backing dev usage).2 in
  let sz := roundUpToPageSize n in
  (fl = 0
   ∧ ∃ fd' err wd1,
       try_ashmem sz wd = Some ((fd', err), wd1)
       ∧ publish_handle err fd' sz 0 bt 0 0 0 wd1 = Some ((e, hnd), wd'))
  ∨ (fl = PRIV_FLAGS_USES_PMEM
     ∧ ∃ err0 wd0,
         (if master_fd_of (module wd) bt =? -1
          then init_pmem_area bt else ret 0) wd = Some (err0, wd0)
         ∧ ((0 ≤ master_fd_of (module wd0) bt
             ∧ ∃ err fd' b o ls wd1,
                 alloc_from_pool bt sz (master_fd_of (module wd0) bt) wd0
                 = Some ((err, fd', b, o, ls), wd1)
                 ∧ publish_handle err fd' sz PRIV_FLAGS_USES_PMEM bt b o ls wd1
                   = Some ((e, hnd), wd'))
            ∨ (master_fd_of (module wd0) bt < 0
               ∧ Z.land usage GRALLOC_USAGE_HW_2D = 0
               ∧ ∃ fd' err wd1,
                   try_ashmem sz wd0 = Some ((fd', err), wd1)
                   ∧ publish_handle err fd' sz 0 bt 0 0 0 wd1
                     = Some ((e, hnd), wd'))
            ∨ (master_fd_of (module wd0) bt < 0
               ∧ Z.land usage GRALLOC_USAGE_HW_2D ≠ 0
               ∧ publish_handle err0 (-1) sz PRIV_FLAGS_USES_PMEM bt 0 0 0 wd0
                 = Some ((e, hnd), wd')))).
Proof.
  intros Hrun fl bt sz. unfold gralloc_alloc_buffer in Hrun.
  subst fl bt. unfold choose_backing in *.
  destruct (negb (Z.land usage (Z.lor _ _) =? 0));
    [|destruct (negb (Z.land usage GRALLOC_USAGE_HW_TEXTURE =? 0))];
    cbn [fst snd] in *.
  3: { left. split; [reflexivity|].
       change (Z.land 0 PRIV_FLAGS_USES_PMEM =? 0) with true in Hrun.
       cbv iota in Hrun.
       apply bind_Some in Hrun as ([fd' err] & wd1 & Hash & Hpub). eauto 6. }
  all: right; split; [reflexivity|];
    change (Z.land PRIV_FLAGS_USES_PMEM PRIV_FLAGS_USES_PMEM =? 0)
      with false in Hrun; cbv iota in Hrun;
    apply bind_Some in Hrun as (m & wd0' & [= <- <-] & Hrun);
    apply bind_Some in Hrun as (err0 & wd0 & Hinit & Hrun);
    apply bind_Some in Hrun as (m1 & wd1' & [= <- <-] & Hrun);
    exists err0, wd0; (split; [exact Hinit|]);
    match type of Hrun with
    | context [0 <=? ?x] => destruct (Z.leb_spec 0 x) as [Hm|Hm]
    end.
  all: try (left; split; [exact Hm|];
            apply bind_Some
              in Hrun as ([[[[err1 fd'] b] off1] ls] & wd2 & Hpool & Hpub);
            eauto 10).
  all: right;
    destruct (Z.eqb_spec (Z.land usage GRALLOC_USAGE_HW_2D) 0) as [H2d|H2d];
    [left; split; [exact Hm|]; split; [exact H2d|];
     apply bind_Some in Hrun as ([fd' err] & wd1 & Hash & Hpub);
     change (Z.land PRIV_FLAGS_USES_PMEM (Z.lnot PRIV_FLAGS_USES_PMEM))
       with 0 in Hpub; eauto 6
    |right; split; [exact Hm|]; split; [exact H2d|]; exact Hrun].
Qed.


Lemma maybe_init_shape bt wd err0 wd0 :
  (if master_fd_of (module wd) bt =? -1 then init_pmem_area bt else ret 0) wd
  = Some (err0, wd0) →
  heap wd0 = heap wd
  ∧ sAllocator wd0 = sAllocator wd ∧ sGPUAllocator wd0 = sGPUAllocator wd
  ∧ framebuffer (module wd0) = framebuffer (module wd)
  ∧ numBuffers (module wd0) = numBuffers (module wd)
  ∧ bufferMask (module wd0) = bufferMask (module wd)
  ∧ finfo_line_length (module wd0) = finfo_line_length (module wd)
  ∧ info_yres (module wd0) = info_yres (module wd)
  ∧ (master_fd_of (module wd) bt ≠ -1 → wd0 = wd ∧ err0 = 0)
  ∧ (pmem_device bt ≠ None →
     master_fd_of (module wd) bt = -1 ∨ 0 ≤ master_fd_of (module wd) bt →
       0 ≤ master_fd_of (module wd0) bt
       ∨ (master_fd_of (module wd0) bt = -1 ∧ err0 < 0))
  ∧ ∃ evs,
      trace wd0 = evs ++ trace wd
      ∧ ∀ ev, In ev evs →
          is_sys ev ∧ ¬ is_ashmem ev
          ∧ ∀ path, opened ev = Some path → pmem_device bt = Some path.
Proof.
  destruct (Z.eqb_spec (master_fd_of (module wd) bt) (-1)) as [Hm|Hm].
  - intros Hrun.
    destruct (init_pmem_area_shape _ _ _ _ Hrun)
      as (Hh & Hs & Hg & H1 & H2 & H3 & H4 & H5 & Hmaster & Hevs).
    do 8 (split; [assumption|]). split; [intros; contradiction|].
    split; [|exact Hevs]. intros Hdev _. apply Hmaster; assumption.
  - intros [= <- <-]. do 8 (split; [reflexivity|]).
    split; [intros _; split; reflexivity|].
    split; [intros _ [?|?]; [contradiction|left; assumption]|].
    exists []. split; [reflexivity|]. intros ev [].
Qed.

Lemma publish_handle_heap err fd' n fl bt b o ls wd1 e hnd wd'
    (hp : gmap positive private_handle_t) :
  publish_handle err fd' n fl bt b o ls wd1 = Some ((e, hnd), wd') →
  heap wd1 = hp →
  (e = 0 ↔ ∃ p, hnd = Some p)
  ∧ (hnd = None → heap wd' = hp)
  ∧ (∀ p, hnd = Some p →
       hp !! p = None ∧ (∃ r, heap wd' !! p = Some r)
       ∧ ∀ q, q ≠ p → heap wd' !! q = hp !! q).
Proof.
  intros Hpub <-.
  destruct (publish_handle_inv _ _ _ _ _ _ _ _ _ _ _ _ Hpub)
    as (-> & _ & _ & _ & _ & [(Hne & -> & Hh) | (-> & p & r & -> & Hp & Hh & _)]).
  - split; [split; [intros; contradiction|intros [p [=]]]|].
    split; [intros _; exact Hh|]. intros p [=].
  - split; [split; [eauto|reflexivity]|]. split; [intros [=]|].
    intros p' [= <-]. split; [exact Hp|]. rewrite Hh.
    split; [rewrite lookup_insert_eq; eauto|].
    intros q Hq. apply lookup_insert_ne. congruence.
Qed.

Ltac alloc_buffer_cases Hrun :=
  destruct (gralloc_alloc_buffer_cases _ _ _ _ _ _ _ Hrun)
    as [(Hfl & fd' & err & wd1 & Hash & Hpub)
       |(Hfl & err0 & wd0 & Hinit
         & [(Hm & err & fd' & b & o & ls & wd1 & Hpool & Hpub)
           |[(Hm & H2d & fd' & err & wd1 & Hash & Hpub)
            |(Hm & H2d & Hpub)]])].

(** ** What [gralloc_alloc_buffer] leaves behind *)

(** X3: [gralloc_alloc_buffer] hands out a handle exactly when it returns
    0.  Without a handle the handle records are as before the call; with
    one, the record sits at an address that held no record, and every
    record that existed before is untouched. *)
Theorem gralloc_alloc_buffer_handle_iff_zero dev n usage wd e hnd wd' :
  gralloc_alloc_buffer dev n usage wd = Some ((e, hnd), wd') →
  (e = 0 ↔ ∃ p, hnd = Some p)
  ∧ (hnd = None → heap wd' = heap wd)
  ∧ (∀ p, hnd = Some p →
       heap wd !! p = None ∧ (∃ r, heap wd' !! p = Some r)
       ∧ ∀ q, q ≠ p → heap wd' !! q = heap wd !! q).
Proof.
  intros Hrun. alloc_buffer_cases Hrun.
  - apply try_ashmem_shape in Hash as (_ & Hh & _).
    exact (publish_handle_heap _ _ _ _ _ _ _ _ _ _ _ _ _ Hpub Hh).
  - apply maybe_init_shape in Hinit as (Hh0 & _).
    apply alloc_from_pool_shape in Hpool as (_ & Hh & _).
    apply (publish_handle_heap _ _ _ _ _ _ _ _ _ _ _ _ _ Hpub).
    rewrite Hh. exact Hh0.
  - apply maybe_init_shape in Hinit as (Hh0 & _).
    apply try_ashmem_shape in Hash as (_ & Hh & _).
    apply (publish_handle_heap _ _ _ _ _ _ _ _ _ _ _ _ _ Hpub).
    rewrite Hh. exact Hh0.
  - apply maybe_init_shape in Hinit as (Hh0 & _).
    exact (publish_handle_heap _ _ _ _ _ _ _ _ _ _ _ _ _ Hpub Hh0).
Qed.

(** X4: the fields of a handle that [gralloc_alloc_buffer] hands out: its
    size is the request rounded to pages (as an [int]), it belongs to the
    calling process, its buffer type is the one chosen from the usage
    bits, it is no framebuffer slot, its flags are 0 or
    [PRIV_FLAGS_USES_PMEM]; a handle with flags 0 sits on an open
    descriptor and has offset, base and lock state 0; and [phys] is 0
    unless the buffer type is [BUFFER_TYPE_GPU1], where it is the physical
    base of the pool plus the offset. *)
Theorem gralloc_alloc_buffer_handle_fields dev n usage wd e p wd' :
  gralloc_alloc_buffer dev n usage wd = Some ((e, Some p), wd') →
  ∃ r,
    heap wd' !! p = Some r
    ∧ size r = sint32 (roundUpToPageSize n)
    ∧ pid r = getpid ∧ writeOwner r = 0
    ∧ bufferType r = (choose_backing dev usage).2
    ∧ (flags r = 0 ∨ flags r = PRIV_FLAGS_USES_PMEM)
    ∧ Z.land (flags r) PRIV_FLAGS_FRAMEBUFFER = 0
    ∧ (flags r = 0 →
         offset r = 0 ∧ base r = 0 ∧ lockState r = 0 ∧ 0 ≤ fd r)
    ∧ phys r = (if buffer_type_eqb (bufferType r) BUFFER_TYPE_GPU1
                then sint32 (master_phys (module wd') + offset r) else 0).
Proof.
  intros Hrun. alloc_buffer_cases Hrun.
  all: destruct (publish_handle_inv _ _ _ _ _ _ _ _ _ _ _ _ Hpub)
    as (-> & Hmod & _ & _ & _
        & [(_ & [=] & _)
          |(Herr & q & r & [= <-] & _ & Hh & _ & Hfd & Hflags & Hsize & Hoff
            & Hbase & Hls & Hwo & Hpid & Hbt & Hphys)]).
  all: exists r; split; [rewrite Hh; apply lookup_insert_eq|].
  all: split; [exact Hsize|]; split; [exact Hpid|]; split; [exact Hwo|].
  all: split; [exact Hbt|].
  all: rewrite Hflags, Hbt, Hmod, Hoff, Hphys.
  all: split; [first [left; reflexivity | right; reflexivity]|].
  all: split; [reflexivity|].
  all: split; [|reflexivity].
  all: try (intros [=]; fail).
  all: intros _; rewrite Hbase, Hls, Hfd;
    apply try_ashmem_shape in Hash as (_ & _ & _ & _ & rp & _ & -> & Hrp);
    destruct Hrp as [(v & -> & _)|(e' & _ & ->)]; [|lia];
    repeat split; apply N2Z.is_nonneg.
Qed.

(** The module across a run of [gralloc_alloc_buffer]: the display part is
    never written, and nothing at all is written, and nothing mapped, when
    no pool has to be opened. *)
Lemma gralloc_alloc_buffer_module dev n usage wd res wd' :
  gralloc_alloc_buffer dev n usage wd = Some (res, wd') →
  (framebuffer (module wd') = framebuffer (module wd)
   ∧ numBuffers (module wd') = numBuffers (module wd)
   ∧ bufferMask (module wd') = bufferMask (module wd)
   ∧ finfo_line_length (module wd') = finfo_line_length (module wd)
   ∧ info_yres (module wd') = info_yres (module wd))
  ∧ ((choose_backing dev usage).1 = 0
     ∨ master_fd_of (module wd) (choose_backing dev usage).2 ≠ -1 →
     module wd' = module wd
     ∧ ∃ evs, trace wd' = evs ++ trace wd ∧ ∀ ev, In ev evs → ¬ is_mmap ev).
Proof.
  destruct res as [e hnd]. intros Hrun. alloc_buffer_cases Hrun.
  all: destruct (publish_handle_inv _ _ _ _ _ _ _ _ _ _ _ _ Hpub)
    as (_ & Hmod & Ht & _).
  - apply try_ashmem_shape in Hash as (Hm1 & _ & _ & _ & rp & Ht1 & _).
    rewrite Hmod, Hm1. split; [repeat split|]. intros _.
    split; [reflexivity|]. eexists [_]. rewrite Ht, Ht1.
    split; [reflexivity|]. intros ev [<-|[]]. exact id.
  - apply maybe_init_shape
      in Hinit as (_ & _ & _ & H1 & H2 & H3 & H4 & H5 & Hsame & _).
    apply alloc_from_pool_shape
      in Hpool as (Hm1 & _ & _ & _ & _ & _ & _ & _ & steps & Ht1 & Hsteps).
    rewrite Hmod, Hm1. split; [repeat split; assumption|].
    intros [Hz|Hopen]; [rewrite Hfl in Hz; discriminate Hz|].
    destruct (Hsame Hopen) as [-> _]. split; [reflexivity|].
    exists (steps ++ [EvAllocate
                (pool_of (choose_backing dev usage).2)
                (roundUpToPageSize n) o]).
    rewrite Ht, Ht1, <- app_assoc. split; [reflexivity|].
    intros ev Hin. apply in_app_or in Hin as [Hin|[<-|[]]].
    + apply (Hsteps ev Hin).
    + exact id.
  - apply maybe_init_shape
      in Hinit as (_ & _ & _ & H1 & H2 & H3 & H4 & H5 & Hsame & _).
    apply try_ashmem_shape in Hash as (Hm1 & _ & _ & _ & rp & Ht1 & _).
    rewrite Hmod, Hm1. split; [repeat split; assumption|].
    intros [Hz|Hopen]; [rewrite Hfl in Hz; discriminate Hz|].
    destruct (Hsame Hopen) as [-> _]. split; [reflexivity|].
    eexists [_]. rewrite Ht, Ht1.
    split; [reflexivity|]. intros ev [<-|[]]. exact id.
  - apply maybe_init_shape
      in Hinit as (_ & _ & _ & H1 & H2 & H3 & H4 & H5 & Hsame & _).
    rewrite Hmod. split; [repeat split; assumption|].
    intros [Hz|Hopen]; [rewrite Hfl in Hz; discriminate Hz|].
    destruct (Hsame Hopen) as [-> _]. split; [reflexivity|].
    exists []. rewrite Ht. split; [reflexivity|]. intros ev [].
Qed.

(** X5: [gralloc_alloc_buffer] never touches the display part of the
    module (framebuffer pointer, number of buffers, slot bitmask, line
    length, height); and a request that does not target a pool leaves the
    whole module as it is and maps nothing. *)
Theorem gralloc_alloc_buffer_module_frame dev n usage wd res wd' :
  gralloc_alloc_buffer dev n usage wd = Some (res, wd') →
  (framebuffer (module wd') = framebuffer (module wd)
   ∧ numBuffers (module wd') = numBuffers (module wd)
   ∧ bufferMask (module wd') = bufferMask (module wd)
   ∧ finfo_line_length (module wd') = finfo_line_length (module wd)
   ∧ info_yres (module wd') = info_yres (module wd))
  ∧ (Z.land usage (Z.lor GRALLOC_USAGE_HW_2D GRALLOC_USAGE_HW_RENDER) = 0 →
     Z.land usage GRALLOC_USAGE_HW_TEXTURE = 0 →
     module wd' = module wd
     ∧ ∃ evs, trace wd' = evs ++ trace wd ∧ ∀ ev, In ev evs → ¬ is_mmap ev).
Proof.
  intros Hrun.
  destruct (gralloc_alloc_buffer_module _ _ _ _ _ _ Hrun) as [Hdisplay Hsame].
  split; [exact Hdisplay|]. intros H2d Htex. apply Hsame. left.
  rewrite (choose_backing_plain dev usage H2d Htex). reflexivity.
Qed.

(** X6: when the targeted pool is open but its allocator has no room
    ([allocate] returns a negative number), [gralloc_alloc_buffer] returns
    [-ENOMEM] without a handle.  It makes no call into the system, so it
    opens nothing and does not fall back on anonymous memory, whatever the
    usage bits; the only thing that changes is the allocator that was
    asked. *)
Theorem gralloc_alloc_buffer_pool_exhausted dev n usage wd bt :
  choose_backing dev usage = (PRIV_FLAGS_USES_PMEM, bt) →
  0 ≤ master_fd_of (module wd) bt →
  (allocate (pool_state (pool_of bt) wd) (roundUpToPageSize n)).1 < 0 →
  ∃ wd',
    gralloc_alloc_buffer dev n usage wd = Some ((- Z.pos ENOMEM, None), wd')
    ∧ module wd' = module wd ∧ heap wd' = heap wd ∧ errno wd' = errno wd
    ∧ trace wd'
      = EvAllocate (pool_of bt) (roundUpToPageSize n)
          (allocate (pool_state (pool_of bt) wd) (roundUpToPageSize n)).1
          :: trace wd
    ∧ pool_state (pool_of bt) wd'
      = (allocate (pool_state (pool_of bt) wd) (roundUpToPageSize n)).2
    ∧ ∀ a', a' ≠ pool_of bt → pool_state a' wd' = pool_state a' wd.
Proof.
  intros Hch Hopen Hfull.
  destruct (defined_gralloc_alloc_buffer dev n usage wd)
    as ([e hnd] & wd' & Hrun).
  rewrite Hrun. alloc_buffer_cases Hrun; rewrite Hch in *; cbn [fst snd] in *.
  - discriminate Hfl.
  - apply maybe_init_shape in Hinit as (_ & _ & _ & _ & _ & _ & _ & _ & Hsame & _).
    destruct Hsame as [-> ->]; [lia|].
    apply alloc_from_pool_shape
      in Hpool as (Hm1 & Hh1 & _ & _ & -> & Hother & Hneg & _).
    destruct (Hneg Hfull) as (-> & -> & Ht1 & He1 & Hp1).
    unfold publish_handle in Hpub.
    destruct (Z.eqb_spec (- Z.pos ENOMEM) 0) as [Hz|_];
      [pose proof (Pos2Z.is_pos ENOMEM); lia|].
    injection Hpub as <- <- <-. eexists. split; [reflexivity|].
    repeat split; assumption.
  - apply maybe_init_shape in Hinit as (_ & _ & _ & _ & _ & _ & _ & _ & Hsame & _).
    destruct Hsame as [-> ->]; lia.
  - apply maybe_init_shape in Hinit as (_ & _ & _ & _ & _ & _ & _ & _ & Hsame & _).
    destruct Hsame as [-> ->]; lia.
Qed.

(** ** Which backing store a handle got *)

Lemma choose_backing_device dev usage :
  (choose_backing dev usage).1 = PRIV_FLAGS_USES_PMEM →
  (choose_backing dev usage).2 = ctx_bufferType dev
  ∨ (choose_backing dev usage).2 = BUFFER_TYPE_PMEM.
Proof.
  unfold choose_backing.
  destruct (negb _); [left; reflexivity|].
  destruct (negb _); [right; reflexivity|]. intros [=].
Qed.

Lemma master_fd_sane (m : private_module_t) bt :
  pmem_master m = -1 ∨ 0 ≤ pmem_master m →
  gpu_master m = -1 ∨ 0 ≤ gpu_master m →
  master_fd_of m bt = -1 ∨ 0 ≤ master_fd_of m bt.
Proof. intros Hp Hg. unfold master_fd_of. destruct (buffer_type_eqb _ _); assumption. Qed.

(** A request that succeeds from a state in which each master descriptor
    is -1 or open, through a context whose buffer type names a device,
    was served in one of two ways, and the handle tells which. *)
Lemma gralloc_alloc_buffer_backing dev n usage wd e p wd' :
  ctx_bufferType dev ≠ BUFFER_TYPE_FB →
  pmem_master (module wd) = -1 ∨ 0 ≤ pmem_master (module wd) →
  gpu_master (module wd) = -1 ∨ 0 ≤ gpu_master (module wd) →
  gralloc_alloc_buffer dev n usage wd = Some ((e, Some p), wd') →
  let bt := (choose_backing dev usage).2 in
  let sz := roundUpToPageSize n in
  ∃ r evs,
    heap wd' !! p = Some r ∧ trace wd' = evs ++ trace wd
    ∧ bufferType r = bt
    ∧ ((flags r = 0
        ∧ (∃ ev, In ev evs ∧ is_ashmem ev)
        ∧ (∀ ev, In ev evs → ¬ is_allocate ev)
        ∧ sAllocator wd' = sAllocator wd ∧ sGPUAllocator wd' = sGPUAllocator wd)
       ∨ (flags r = PRIV_FLAGS_USES_PMEM
          ∧ (∀ ev, In ev evs → ¬ is_ashmem ev)
          ∧ In (EvAllocate (pool_of bt) sz (offset r)) evs
          ∧ offset r = (allocate (pool_state (pool_of bt) wd) sz).1
          ∧ 0 ≤ offset r ∧ 0 ≤ fd r
          ∧ lockState r = LOCK_STATE_MAPPED
          ∧ base r = sint32 (sint32 (master_base_of (module wd') bt) + offset r)
          ∧ pool_state (pool_of bt) wd'
            = (allocate (pool_state (pool_of bt) wd) sz).2
          ∧ (∀ a', a' ≠ pool_of bt → pool_state a' wd' = pool_state a' wd)
          ∧ 0 ≤ master_fd_of (module wd') bt)).
Proof.
  intros Hdev Hpm Hgm Hrun bt sz. alloc_buffer_cases Hrun.
  all: fold bt in Hpub; fold sz in Hpub.
  all: destruct (publish_handle_inv _ _ _ _ _ _ _ _ _ _ _ _ Hpub)
    as (-> & Hmod & Ht & Hs & Hg
        & [(_ & [=] & _)
          |(Herr & q & r & [= <-] & _ & Hh & _ & Hfd & Hflags & _ & Hoff
            & Hbase & Hls & _ & _ & Hbt & _)]).
  - apply try_ashmem_shape
      in Hash as (_ & _ & Hs1 & Hg1 & rp & Ht1 & _ & _).
    exists r. eexists [_]. split; [rewrite Hh; apply lookup_insert_eq|].
    split; [rewrite Ht, Ht1; reflexivity|]. split; [exact Hbt|].
    left. split; [exact Hflags|]. split.
    { eexists. split; [left; reflexivity|exact I]. }
    split; [intros ev [<-|[]]; exact id|].
    split; congruence.
  - fold bt in Hinit, Hpool, Hm. fold sz in Hpool.
    apply maybe_init_shape
      in Hinit as (_ & Hs0 & Hg0 & _ & _ & _ & _ & _ & _ & _ & pre & Ht0 & Hpre).
    apply alloc_from_pool_shape
      in Hpool as (Hm1 & _ & -> & -> & Ho & Hother & _ & Hok & steps & Ht1
                   & Hsteps).
    destruct (Hok Herr) as (Hoff0 & Hfd0 & Hpool1).
    rewrite (pool_state_frame _ wd wd0 Hs0 Hg0) in Ho, Hpool1.
    exists r, (steps ++ EvAllocate (pool_of bt) sz o :: pre).
    split; [rewrite Hh; apply lookup_insert_eq|].
    split; [rewrite Ht, Ht1, Ht0, <- app_assoc; reflexivity|].
    split; [exact Hbt|]. right. split; [exact Hflags|]. split.
    { intros ev Hin. apply in_app_or in Hin as [Hin|[<-|Hin]].
      - apply (Hsteps ev Hin).
      - exact id.
      - apply (Hpre ev Hin). }
    rewrite Hoff, Hfd, Hls, Hbase, Hmod, Hm1.
    split; [apply in_or_app; right; left; reflexivity|].
    split; [exact Ho|]. split; [exact Hoff0|]. split; [exact Hfd0|].
    split; [reflexivity|]. split; [reflexivity|].
    split; [rewrite (pool_state_frame _ wd1 wd' Hs Hg); exact Hpool1|].
    split; [|exact Hm].
    intros a' Ha'. rewrite (pool_state_frame _ wd1 wd' Hs Hg), (Hother a' Ha').
    apply pool_state_frame; assumption.
  - fold bt in Hinit, Hm. fold sz in Hash.
    apply maybe_init_shape
      in Hinit as (_ & Hs0 & Hg0 & _ & _ & _ & _ & _ & _ & _ & pre & Ht0 & Hpre).
    apply try_ashmem_shape
      in Hash as (_ & _ & Hs1 & Hg1 & rp & Ht1 & _ & _).
    exists r. eexists (_ :: pre). split; [rewrite Hh; apply lookup_insert_eq|].
    split; [rewrite Ht, Ht1, Ht0; reflexivity|]. split; [exact Hbt|].
    left. split; [exact Hflags|]. split.
    { eexists. split; [left; reflexivity|exact I]. }
    split.
    { intros ev [<-|Hin]; [exact id|].
      apply is_sys_not_allocate, (Hpre ev Hin). }
    split; congruence.
  - exfalso. fold bt in Hinit, Hm.
    apply maybe_init_shape
      in Hinit as (_ & _ & _ & _ & _ & _ & _ & _ & _ & Hsane & _).
    destruct Hsane as [Hopen|[_ Hneg]]; [| |lia|lia].
    + destruct (choose_backing_device dev usage Hfl) as [Hb|Hb];
        fold bt in Hb; rewrite Hb; [|discriminate].
      destruct (ctx_bufferType dev); try discriminate. contradiction.
    + apply master_fd_sane; assumption.
Qed.

(** What [gralloc_free] does with a valid handle that is no framebuffer
    slot and whose descriptor is not negative, whatever its flags. *)
Lemma gralloc_free_pool_branch wd p r :
  heap wd !! p = Some r → validate (Some r) = 0 →
  Z.land (flags r) PRIV_FLAGS_FRAMEBUFFER = 0 →
  0 ≤ fd r →
  ∃ wd' r' rc,
    gralloc_free (Some p) wd = Some (0, wd')
    ∧ r' = (gralloc_unregister_buffer r).2
    ∧ module wd' = module wd
    ∧ heap wd' = base.delete p (heap wd)
    ∧ pool_state (pool_of (bufferType r)) wd'
      = deallocate (pool_state (pool_of (bufferType r)) wd) (offset r)
    ∧ (∀ a', a' ≠ pool_of (bufferType r) → pool_state a' wd' = pool_state a' wd)
    ∧ trace wd'
      = EvDelete p :: EvSys (sys_close (fd r')) rc :: EvUnregister p
          :: EvMemset (base r) (size r)
          :: EvDeallocate (pool_of (bufferType r)) (offset r) :: trace wd.
Proof.
  intros Hr Hv Hfb Hfd. rewrite (gralloc_free_valid _ _ _ Hr Hv).
  unfold release_backing. rewrite Hfb. change (negb (0 =? 0)) with false.
  cbv iota. destruct (Z.leb_spec 0 (fd r)) as [_|]; [|lia].
  unfold pool_of.
  destruct (buffer_type_eqb (bufferType r) BUFFER_TYPE_PMEM);
    unfold bind at 1; unfold bind at 1; unfold pool_deallocate, memset, emit;
    cbn [module sAllocator sGPUAllocator heap errno trace];
    match goal with
    | |- context [unregister_close_delete p ?w] =>
        destruct (unregister_close_delete_run w p r Hr)
          as (wd' & r' & rc & Hrun & Hm & Hs & Hg & Hh & Hr' & Ht)
    end;
    exists wd', r', rc; (split; [exact Hrun|]); (split; [exact Hr'|]);
    (split; [exact Hm|]); (split; [exact Hh|]);
    (split; [first [exact Hs | exact Hg]|]); (split; [|exact Ht]);
    intros [] Hne; first [contradiction | exact Hs | exact Hg].
Qed.

(** X7: for a request that succeeds from a state in which each master
    descriptor is -1 or open, through a context whose buffer type names a
    pmem device, [usesPhysicallyContiguousMemory] on the handle says
    whether the run reserved an extent of a pool: it is true exactly when
    the run called [allocate], false exactly when the run created an
    anonymous region, and the two never happen in the same successful run.
    A contiguous handle holds the offset that [allocate] returned, is
    marked as mapped, and sits on an open descriptor. *)
Theorem contiguous_iff_extent_reserved dev n usage wd e p wd' :
  ctx_bufferType dev ≠ BUFFER_TYPE_FB →
  pmem_master (module wd) = -1 ∨ 0 ≤ pmem_master (module wd) →
  gpu_master (module wd) = -1 ∨ 0 ≤ gpu_master (module wd) →
  gralloc_alloc_buffer dev n usage wd = Some ((e, Some p), wd') →
  ∃ r evs,
    heap wd' !! p = Some r ∧ trace wd' = evs ++ trace wd
    ∧ (usesPhysicallyContiguousMemory r = true
       ↔ ∃ ev, In ev evs ∧ is_allocate ev)
    ∧ (usesPhysicallyContiguousMemory r = false
       ↔ ∃ ev, In ev evs ∧ is_ashmem ev)
    ∧ (usesPhysicallyContiguousMemory r = true →
         offset r
         = (allocate (pool_state (pool_of (bufferType r)) wd)
              (roundUpToPageSize n)).1
         ∧ 0 ≤ offset r ∧ 0 ≤ fd r
         ∧ lockState r = LOCK_STATE_MAPPED).
Proof.
  intros Hdev Hpm Hgm Hrun.
  destruct (gralloc_alloc_buffer_backing dev n usage wd e p wd'
              Hdev Hpm Hgm Hrun)
    as (r & evs & Hr & Ht & Hbt
        & [(Hfl & Hash & Hnone & _)
          |(Hfl & Hnone & Hin & Hoff & Hoff0 & Hfd & Hls & _)]).
  - exists r, evs. split; [exact Hr|]. split; [exact Ht|].
    unfold usesPhysicallyContiguousMemory. rewrite Hfl.
    change (negb (Z.land 0 PRIV_FLAGS_USES_PMEM =? 0)) with false.
    split; [split; [intros [=]|intros (ev & Hev & Hal)]|].
    { exfalso. exact (Hnone ev Hev Hal). }
    split; [split; [intros _; exact Hash|reflexivity]|]. intros [=].
  - exists r, evs. split; [exact Hr|]. split; [exact Ht|].
    unfold usesPhysicallyContiguousMemory. rewrite Hfl.
    change (negb (Z.land PRIV_FLAGS_USES_PMEM PRIV_FLAGS_USES_PMEM =? 0))
      with true.
    split; [split; [intros _; eexists; split; [exact Hin|exact I]|reflexivity]|].
    split; [split; [intros [=]|intros (ev & Hev & Hal)]|].
    { exfalso. exact (Hnone ev Hev Hal). }
    intros _. rewrite Hbt. repeat split; assumption.
Qed.

(** X8: allocation followed by free on a pool.  When a handle that
    [gralloc_alloc_buffer] handed out reports physically contiguous memory,
    [gralloc_free] succeeds on it: it gives the offset that [allocate]
    returned back to the same allocator with [deallocate], clears the
    buffer with [memset] over its base and size, unregisters the handle,
    closes its descriptor and deletes the record, after which no record
    is left at the address.  The other allocator is as it was before the
    allocation, and the free leaves the module as it is. *)
Theorem gralloc_free_gives_extent_back dev n usage wd e p wd1 r :
  ctx_bufferType dev ≠ BUFFER_TYPE_FB →
  pmem_master (module wd) = -1 ∨ 0 ≤ pmem_master (module wd) →
  gpu_master (module wd) = -1 ∨ 0 ≤ gpu_master (module wd) →
  gralloc_alloc_buffer dev n usage wd = Some ((e, Some p), wd1) →
  heap wd1 !! p = Some r →
  usesPhysicallyContiguousMemory r = true →
  let a := pool_of (bufferType r) in
  let reserved := allocate (pool_state a wd) (roundUpToPageSize n) in
  ∃ wd2 rc,
    gralloc_free (Some p) wd1 = Some (0, wd2)
    ∧ trace wd2
      = EvDelete p :: EvSys (sys_close (fd (gralloc_unregister_buffer r).2)) rc
          :: EvUnregister p :: EvMemset (base r) (size r)
          :: EvDeallocate a reserved.1 :: trace wd1
    ∧ pool_state a wd2 = deallocate reserved.2 reserved.1
    ∧ (∀ a', a' ≠ a → pool_state a' wd2 = pool_state a' wd)
    ∧ module wd2 = module wd1
    ∧ heap wd2 !! p = None.
Proof.
  intros Hdev Hpm Hgm Hrun Hr Hcont a reserved.
  destruct (gralloc_alloc_buffer_backing dev n usage wd e p wd1
              Hdev Hpm Hgm Hrun)
    as (r0 & evs & Hr0 & Ht & Hbt & Hcases).
  rewrite Hr in Hr0. injection Hr0 as <-.
  destruct Hcases
    as [(Hfl & _)|(Hfl & _ & _ & Hoff & _ & Hfd & _ & _ & Hpool & Hother & _)].
  { unfold usesPhysicallyContiguousMemory in Hcont. rewrite Hfl in Hcont.
    discriminate Hcont. }
  rewrite <- Hbt in Hoff, Hpool, Hother. fold a in Hoff, Hpool, Hother.
  fold reserved in Hoff, Hpool.
  destruct (gralloc_alloc_buffer_valid _ _ _ _ _ _ _ Hrun) as (r1 & Hr1 & Hv).
  rewrite Hr in Hr1. injection Hr1 as <-.
  destruct (gralloc_free_pool_branch wd1 p r Hr Hv) as
    (wd2 & r' & rc & Hfree & -> & Hmod & Hh & Hp2 & Ho2 & Ht2);
    [rewrite Hfl; reflexivity|exact Hfd|].
  fold a in Hp2, Ho2, Ht2.
  exists wd2, rc. split; [exact Hfree|].
  split; [rewrite Ht2, Hoff; reflexivity|].
  split; [rewrite Hp2, Hpool, Hoff; reflexivity|].
  split; [intros a' Ha'; rewrite (Ho2 a' Ha'); exact (Hother a' Ha')|].
  split; [exact Hmod|].
  rewrite Hh. apply lookup_delete_eq.
Qed.

Lemma master_fd_of_pool (m : private_module_t) bt bt' :
  pool_of bt = pool_of bt' → master_fd_of m bt = master_fd_of m bt'.
Proof.
  unfold pool_of, master_fd_of.
  destruct (buffer_type_eqb bt _), (buffer_type_eqb bt' _);
    intros [=]; reflexivity.
Qed.

(** X23: a pool is opened and mapped once.  After a request that was
    served from a pool, the master descriptor of that pool is set, and a
    later request that targets the same pool (or no pool) leaves the
    module as it is and maps nothing: it can only reserve an extent and
    connect a fresh descriptor to the master. *)
Theorem pool_is_mapped_once dev n1 u1 n2 u2 wd e1 p1 wd1 r1 res wd2 :
  ctx_bufferType dev ≠ BUFFER_TYPE_FB →
  pmem_master (module wd) = -1 ∨ 0 ≤ pmem_master (module wd) →
  gpu_master (module wd) = -1 ∨ 0 ≤ gpu_master (module wd) →
  gralloc_alloc_buffer dev n1 u1 wd = Some ((e1, Some p1), wd1) →
  heap wd1 !! p1 = Some r1 →
  usesPhysicallyContiguousMemory r1 = true →
  pool_of (choose_backing dev u2).2 = pool_of (bufferType r1) →
  gralloc_alloc_buffer dev n2 u2 wd1 = Some (res, wd2) →
  0 ≤ master_fd_of (module wd1) (bufferType r1)
  ∧ module wd2 = module wd1
  ∧ ∃ evs, trace wd2 = evs ++ trace wd1 ∧ ∀ ev, In ev evs → ¬ is_mmap ev.
Proof.
  intros Hdev Hpm Hgm Hrun1 Hr1 Hcont Hsame Hrun2.
  destruct (gralloc_alloc_buffer_backing dev n1 u1 wd e1 p1 wd1
              Hdev Hpm Hgm Hrun1)
    as (r0 & evs & Hr0 & _ & Hbt & Hcases).
  rewrite Hr1 in Hr0. injection Hr0 as <-.
  destruct Hcases as [(Hfl & _)|(_ & _ & _ & _ & _ & _ & _ & _ & _ & _ & Hopen)].
  { unfold usesPhysicallyContiguousMemory in Hcont. rewrite Hfl in Hcont.
    discriminate Hcont. }
  rewrite <- Hbt in Hopen. split; [exact Hopen|].
  apply (gralloc_alloc_buffer_module _ _ _ _ _ _ Hrun2). right.
  rewrite (master_fd_of_pool _ _ _ Hsame). lia.
Qed.

(** ** The devices that are opened *)

Lemma gralloc_alloc_buffer_opened dev n usage wd res wd' :
  gralloc_alloc_buffer dev n usage wd = Some (res, wd') →
  ∃ evs,
    trace wd' = evs ++ trace wd
    ∧ ∀ ev path, In ev evs → opened ev = Some path →
        (choose_backing dev usage).1 = PRIV_FLAGS_USES_PMEM
        ∧ pmem_device (choose_backing dev usage).2 = Some path.
Proof.
  destruct res as [e hnd]. intros Hrun. alloc_buffer_cases Hrun.
  all: destruct (publish_handle_inv _ _ _ _ _ _ _ _ _ _ _ _ Hpub)
    as (_ & _ & Ht & _).
  - apply try_ashmem_shape in Hash as (_ & _ & _ & _ & rp & Ht1 & _).
    eexists [_]. rewrite Ht, Ht1. split; [reflexivity|].
    intros ev path [<-|[]] [=].
  - apply maybe_init_shape
      in Hinit as (_ & _ & _ & _ & _ & _ & _ & _ & _ & _ & pre & Ht0 & Hpre).
    apply alloc_from_pool_shape
      in Hpool as (_ & _ & _ & _ & _ & _ & _ & _ & steps & Ht1 & Hsteps).
    exists (steps ++ EvAllocate (pool_of (choose_backing dev usage).2)
                       (roundUpToPageSize n) o :: pre).
    rewrite Ht, Ht1, Ht0, <- app_assoc. split; [reflexivity|].
    intros ev path Hin Hop. split; [exact Hfl|].
    apply in_app_or in Hin as [Hin|[<-|Hin]].
    + apply (Hsteps ev Hin), Hop.
    + discriminate Hop.
    + apply (Hpre ev Hin), Hop.
  - apply maybe_init_shape
      in Hinit as (_ & _ & _ & _ & _ & _ & _ & _ & _ & _ & pre & Ht0 & Hpre).
    apply try_ashmem_shape in Hash as (_ & _ & _ & _ & rp & Ht1 & _).
    eexists (_ :: pre). rewrite Ht, Ht1, Ht0. split; [reflexivity|].
    intros ev path [<-|Hin] Hop; [discriminate Hop|].
    split; [exact Hfl|]. apply (Hpre ev Hin), Hop.
  - apply maybe_init_shape
      in Hinit as (_ & _ & _ & _ & _ & _ & _ & _ & _ & _ & pre & Ht0 & Hpre).
    exists pre. rewrite Ht, Ht0. split; [reflexivity|].
    intros ev path Hin Hop. split; [exact Hfl|]. apply (Hpre ev Hin), Hop.
Qed.

Lemma gralloc_alloc_framebuffer_inv dev n usage wd e hnd wd' :
  gralloc_alloc_framebuffer dev n usage wd = Some ((e, hnd), wd') →
  ∃ wd0,
    trace wd0 = display_calls wd ++ trace wd
    ∧ sAllocator wd0 = sAllocator wd ∧ sGPUAllocator wd0 = sGPUAllocator wd
    ∧ (framebuffer (module wd) ≠ None → wd0 = wd)
    ∧ ((e < 0 ∧ hnd = None ∧ wd' = wd0 ∧ framebuffer (module wd) = None)
       ∨ (numBuffers (module wd0) = 1
          ∧ gralloc_alloc_buffer dev (slot_size (module wd0))
              (Z.lor (Z.land usage (Z.lnot GRALLOC_USAGE_HW_FB))
                 GRALLOC_USAGE_HW_2D) wd0
            = Some ((e, hnd), wd'))
       ∨ (numBuffers (module wd0) ≠ 1
          ∧ e = - Z.pos ENOMEM ∧ hnd = None ∧ wd' = wd0)
       ∨ (numBuffers (module wd0) ≠ 1 ∧ e = 0
          ∧ ∃ pfb fb rp p r,
              framebuffer (module wd0) = Some pfb ∧ heap wd0 !! pfb = Some fb
              ∧ hnd = Some p
              ∧ trace wd' = EvSys (sys_dup (fd fb)) rp :: trace wd0
              ∧ sAllocator wd' = sAllocator wd0
              ∧ sGPUAllocator wd' = sGPUAllocator wd0
              ∧ heap wd0 !! p = None
              ∧ heap wd' = <[p := r]> (heap wd0)
              ∧ rp = os_reply (trace wd0) (sys_dup (fd fb))
              ∧ fd r = syscall_ret rp
              ∧ size r = sint32 n ∧ bufferType r = BUFFER_TYPE_FB
              ∧ pid r = getpid ∧ lockState r = 0
              ∧ flags r = Z.lor PRIV_FLAGS_USES_PMEM PRIV_FLAGS_FRAMEBUFFER
              ∧ offset r = sint32 (base r - base fb)
              ∧ phys r = sint32 (phys fb + offset r))).
Proof.
  intros Hrun.
  unfold gralloc_alloc_framebuffer, gralloc_alloc_framebuffer_locked in Hrun.
  apply bind_Some in Hrun as (m & wd0' & [= <- <-] & Hrun).
  apply bind_Some in Hrun as (err & wd0 & Hmap & Hrun).
  assert (trace wd0 = display_calls wd ++ trace wd
          ∧ sAllocator wd0 = sAllocator wd
          ∧ sGPUAllocator wd0 = sGPUAllocator wd
          ∧ (framebuffer (module wd) ≠ None → wd0 = wd)
          ∧ (err < 0 → framebuffer (module wd) = None))
    as (Ht0 & Hs0 & Hg0 & Hsame & Hfail).
  { unfold display_calls. destruct (framebuffer (module wd)) as [pfb|].
    - injection Hmap as <- <-. repeat split. intros; lia.
    - unfold call_mapFrameBufferLocked in Hmap.
      injection Hmap as <- <-. repeat split. intros; contradiction. }
  exists wd0. do 4 (split; [assumption|]).
  destruct (Z.ltb_spec err 0) as [Hneg|Hpos].
  { injection Hrun as <- <- <-. left. repeat split; try assumption.
    apply Hfail, Hneg. }
  apply bind_Some in Hrun as (m2 & wd0'' & [= <- <-] & Hrun).
  destruct (Z.eqb_spec (numBuffers (module wd0)) 1) as [H1|H1].
  { right. left. split; assumption. }
  destruct (_ <=? bufferMask (module wd0)).
  { injection Hrun as <- <- <-. right. right. left. repeat split. exact H1. }
  right. right. right. split; [exact H1|].
  apply bind_Some in Hrun as (fb & wd4 & Hfb & Hrun).
  unfold load_framebuffer in Hfb.
  apply bind_Some in Hfb as (m' & wd4' & [= <- <-] & Hfb).
  destruct (framebuffer (module wd0)) as [pfb|] eqn:Hpfb; [|discriminate].
  unfold load in Hfb. destruct (heap wd0 !! pfb) as [fb0|] eqn:Hfb0;
    [|discriminate].
  injection Hfb as <- <-.
  apply bind_Some in Hrun as (rd & wd5 & Hdup & Hrun).
  unfold do_syscall in Hdup. injection Hdup as <- <-.
  apply bind_Some in Hrun as (q & wd6 & Hnew & Hrun).
  unfold new in Hnew. cbn [heap module sAllocator sGPUAllocator errno trace]
    in Hnew. injection Hnew as <- <-.
  destruct (find_free_slot _ _ _ _ _) as [slot vaddr].
  apply bind_Some in Hrun as ([] & wd7 & Hmod & Hrun).
  apply bind_Some in Hrun as (hnd0 & wd8 & Hload & Hrun).
  apply bind_Some in Hrun as ([] & wd9 & Hstore & Hrun).
  injection Hrun as <- <- <-.
  assert (heap wd7 = <[fresh (dom (heap wd0)) :=
                         new_private_handle_t getpid
                           (syscall_ret (os_reply (trace wd0) (sys_dup (fd fb0))))
                           (sint32 n)
                           (Z.lor PRIV_FLAGS_USES_PMEM PRIV_FLAGS_FRAMEBUFFER)
                           BUFFER_TYPE_FB]> (heap wd0)
          ∧ trace wd7 = EvSys (sys_dup (fd fb0))
                          (os_reply (trace wd0) (sys_dup (fd fb0))) :: trace wd0
          ∧ sAllocator wd7 = sAllocator wd0
          ∧ sGPUAllocator wd7 = sGPUAllocator wd0) as (Hh7 & Ht7 & Hs7 & Hg7).
  { destruct slot; injection Hmod as <-; repeat split. }
  unfold load in Hload. rewrite Hh7, lookup_insert_eq in Hload.
  injection Hload as <- <-.
  unfold store in Hstore. injection Hstore as <-.
  cbn [heap module sAllocator sGPUAllocator errno trace].
  split; [reflexivity|].
  eexists pfb, fb0, _, _, _. split; [reflexivity|]. split; [exact Hfb0|].
  split; [reflexivity|]. split; [exact Ht7|]. split; [exact Hs7|].
  split; [exact Hg7|]. split; [apply (fresh_heap_None wd0)|].
  split; [rewrite Hh7; apply insert_insert_eq|]. repeat split.
Qed.

(** X9: the device nodes opened during a call of [gralloc_alloc].  Apart
    from what [mapFrameBufferLocked] opens when a scanout request finds
    the display not mapped yet, the only nodes opened are [/dev/pmem] and
    the node of the buffer type of the context; through the context that
    [gralloc_device_open] sets up, that is [/dev/pmem] and
    [/dev/pmem_gpu1], and never [/dev/pmem_gpu0]. *)
Theorem gralloc_alloc_opens_pool_devices_only dev w h format usage
    pHandle pStride wd res wd' :
  gralloc_alloc dev w h format usage pHandle pStride wd = Some (res, wd') →
  ∃ evs,
    trace wd' = evs ++ trace wd
    ∧ ∀ ev path, In ev evs → opened ev = Some path →
        (Z.land usage GRALLOC_USAGE_HW_FB ≠ 0 ∧ In ev (display_calls wd))
        ∨ ((path = "/dev/pmem"%string
            ∨ pmem_device (ctx_bufferType dev) = Some path)
           ∧ (dev = gralloc_device_open →
                path = "/dev/pmem"%string ∨ path = "/dev/pmem_gpu1"%string)).
Proof.
  intros Hrun.
  assert (∃ evs,
            trace wd' = evs ++ trace wd
            ∧ ∀ ev path, In ev evs → opened ev = Some path →
                (Z.land usage GRALLOC_USAGE_HW_FB ≠ 0
                 ∧ In ev (display_calls wd))
                ∨ path = "/dev/pmem"%string
                ∨ pmem_device (ctx_bufferType dev) = Some path)
    as (evs & Ht & Hevs).
  { assert (∀ sz us e hnd w1 w2,
              gralloc_alloc_buffer dev sz us w1 = Some ((e, hnd), w2) →
              ∃ evs,
                trace w2 = evs ++ trace w1
                ∧ ∀ ev path, In ev evs → opened ev = Some path →
                    path = "/dev/pmem"%string
                    ∨ pmem_device (ctx_bufferType dev) = Some path) as Hbuf.
    { intros sz us e hnd w1 w2 Hb.
      destruct (gralloc_alloc_buffer_opened _ _ _ _ _ _ Hb) as (evs & Ht & Hevs).
      exists evs. split; [exact Ht|]. intros ev path Hin Hop.
      destruct (Hevs ev path Hin Hop) as [Hfl Hdev].
      destruct (choose_backing_device dev us Hfl) as [Hb'|Hb'];
        rewrite Hb' in Hdev; [right; exact Hdev|left].
      injection Hdev as <-. reflexivity. }
    unfold gralloc_alloc in Hrun.
    destruct (negb pHandle || negb pStride).
    { injection Hrun as <- <-. exists []. split; [reflexivity|].
      intros ev path []. }
    destruct (bytes_per_pixel format) as [bpp|].
    2: { injection Hrun as <- <-. exists []. split; [reflexivity|].
         intros ev path []. }
    apply bind_Some in Hrun as ([err hnd] & wd1 & Hpath & Hrun).
    assert (wd1 = wd') as ->.
    { destruct (err <? 0); injection Hrun as <- <-; reflexivity. }
    destruct (Z.eqb_spec (Z.land usage GRALLOC_USAGE_HW_FB) 0) as [Hz|Hfb];
      cbn [negb] in Hpath.
    - destruct (Hbuf _ _ _ _ _ _ Hpath) as (evs & Ht & Hevs).
      exists evs. split; [exact Ht|]. intros ev path Hin Hop.
      right. exact (Hevs ev path Hin Hop).
    - destruct (gralloc_alloc_framebuffer_inv _ _ _ _ _ _ _ Hpath)
        as (wd0 & Ht0 & _ & _ & _
            & [(_ & _ & -> & _)
              |[(_ & Hb)
               |[(_ & _ & _ & ->)
                |(_ & _ & pfb & fb & rp & p & r & _ & _ & _ & Ht & _)]]]).
      + exists (display_calls wd). split; [exact Ht0|].
        intros ev path Hin _. left. split; assumption.
      + destruct (Hbuf _ _ _ _ _ _ Hb) as (evs & Ht & Hevs).
        exists (evs ++ display_calls wd). rewrite Ht, Ht0, app_assoc.
        split; [reflexivity|]. intros ev path Hin Hop.
        apply in_app_or in Hin as [Hin|Hin].
        * right. exact (Hevs ev path Hin Hop).
        * left. split; assumption.
      + exists (display_calls wd). split; [exact Ht0|].
        intros ev path Hin _. left. split; assumption.
      + exists (EvSys (sys_dup (fd fb)) rp :: display_calls wd).
        rewrite Ht, Ht0. split; [reflexivity|].
        intros ev path [<-|Hin] Hop; [discriminate Hop|].
        left. split; assumption. }
  exists evs. split; [exact Ht|]. intros ev path Hin Hop.
  destruct (Hevs ev path Hin Hop) as [Hmap|Hp]; [left; exact Hmap|right].
  split; [exact Hp|].
  intros ->. destruct Hp as [Hp|Hp]; [left; exact Hp|right].
  injection Hp as <-. reflexivity.
Qed.

(** ** Rounding to pages and rows *)

Lemma land_lnot_low a k :
  0 ≤ k → Z.land a (Z.lnot (2 ^ k - 1)) = a / 2 ^ k * 2 ^ k.
Proof.
  intros Hk. rewrite <- Z.ldiff_land.
  replace (2 ^ k - 1) with (Z.ones k) by (rewrite Z.ones_equiv; lia).
  rewrite Z.ldiff_ones_r, Z.shiftl_mul_pow2, Z.shiftr_div_pow2 by lia.
  reflexivity.
Qed.

Lemma roundUpToPageSize_eq k x :
  PAGE_SIZE = 2 ^ k → 0 ≤ k ≤ 32 → 0 ≤ x →
  roundUpToPageSize x = uint32 ((x + (PAGE_SIZE - 1)) / PAGE_SIZE * PAGE_SIZE).
Proof.
  intros HP Hk Hx. unfold roundUpToPageSize. rewrite HP.
  rewrite land_lnot_low by lia. reflexivity.
Qed.

Lemma roundUpToPageSize_bounds k x :
  PAGE_SIZE = 2 ^ k → 0 ≤ k ≤ 32 → 0 ≤ x → x + (PAGE_SIZE - 1) < 2 ^ 32 →
  roundUpToPageSize x = (x + (PAGE_SIZE - 1)) / PAGE_SIZE * PAGE_SIZE
  ∧ roundUpToPageSize x mod PAGE_SIZE = 0
  ∧ x ≤ roundUpToPageSize x < x + PAGE_SIZE.
Proof.
  intros HP Hk Hx Hfit.
  assert (0 < PAGE_SIZE) as Hpos by (rewrite HP; apply Z.pow_pos_nonneg; lia).
  assert (PAGE_SIZE ≠ 0) as Hne by lia.
  set (r := (x + (PAGE_SIZE - 1)) / PAGE_SIZE * PAGE_SIZE).
  assert (r mod PAGE_SIZE = 0) as Hr0 by (apply Z.mod_mul; lia).
  assert (x ≤ r < x + PAGE_SIZE) as Hrx.
  { unfold r. pose proof (Z.div_mod (x + (PAGE_SIZE - 1)) PAGE_SIZE Hne) as Hdm.
    pose proof (Z.mod_pos_bound (x + (PAGE_SIZE - 1)) PAGE_SIZE Hpos) as Hmb.
    rewrite (Z.mul_comm PAGE_SIZE) in Hdm.
    generalize dependent ((x + (PAGE_SIZE - 1)) / PAGE_SIZE * PAGE_SIZE).
    generalize dependent ((x + (PAGE_SIZE - 1)) mod PAGE_SIZE).
    intros; lia. }
  assert (roundUpToPageSize x = r) as Hround.
  { rewrite (roundUpToPageSize_eq k) by assumption. apply uint32_small.
    fold r. lia. }
  rewrite Hround. split; [reflexivity|]. split; [exact Hr0|exact Hrx].
Qed.

(** X1: when the page size is a power of two and [x + PAGE_SIZE - 1] still
    fits in a [size_t], [roundUpToPageSize x] is the least multiple of the
    page size that is not below [x], and rounding it again changes
    nothing. *)
Theorem roundUpToPageSize_least_multiple k x :
  PAGE_SIZE = 2 ^ k → 0 ≤ k ≤ 32 → 0 ≤ x → x + (PAGE_SIZE - 1) < 2 ^ 32 →
  roundUpToPageSize x mod PAGE_SIZE = 0
  ∧ x ≤ roundUpToPageSize x < x + PAGE_SIZE
  ∧ (∀ y, x ≤ y → y mod PAGE_SIZE = 0 → roundUpToPageSize x ≤ y)
  ∧ roundUpToPageSize (roundUpToPageSize x) = roundUpToPageSize x.
Proof.
  intros HP Hk Hx Hfit.
  assert (0 < PAGE_SIZE) as Hpos by (rewrite HP; apply Z.pow_pos_nonneg; lia).
  assert (PAGE_SIZE ≠ 0) as Hne by lia.
  assert (2 ^ 32 mod PAGE_SIZE = 0) as Hdiv.
  { rewrite HP. replace 32 with (k + (32 - k)) at 1 by lia.
    rewrite Z.pow_add_r by lia. rewrite Z.mul_comm. apply Z.mod_mul.
    rewrite <- HP. lia. }
  destruct (roundUpToPageSize_bounds k x HP Hk Hx Hfit) as (_ & Hr0 & Hrx).
  set (r := roundUpToPageSize x) in *.
  assert (r + PAGE_SIZE ≤ 2 ^ 32) as Hroom.
  { pose proof Hr0 as Hr0'. apply Z.mod_divide in Hr0', Hdiv; try lia.
    destruct Hr0' as [a Ha], Hdiv as [b Hb].
    assert (a < b) as Hab.
    { apply (Z.mul_lt_mono_pos_r PAGE_SIZE); lia. }
    assert ((a + 1) * PAGE_SIZE ≤ b * PAGE_SIZE) as Hmul.
    { apply Z.mul_le_mono_nonneg_r; lia. }
    lia. }
  split; [exact Hr0|]. split; [exact Hrx|]. split.
  - intros y Hy Hy0. pose proof Hr0 as Hr0'.
    apply Z.mod_divide in Hr0', Hy0; try lia.
    destruct Hr0' as [a Ha], Hy0 as [b Hb].
    destruct (Z.le_gt_cases a b) as [Hab|Hab].
    + rewrite Ha, Hb. apply Z.mul_le_mono_nonneg_r; lia.
    + assert ((b + 1) * PAGE_SIZE ≤ a * PAGE_SIZE) as Hmul.
      { apply Z.mul_le_mono_nonneg_r; lia. }
      lia.
  - destruct (roundUpToPageSize_bounds k r HP Hk ltac:(lia) ltac:(lia))
      as (Heq & _ & _).
    rewrite Heq. pose proof Hr0 as Hr0'. apply Z.mod_divide in Hr0'; try lia.
    destruct Hr0' as [a Ha]. rewrite Ha.
    rewrite Z.div_add_l by lia. rewrite Z.div_small by lia. lia.
Qed.

(** X2: a size in the last page below 2^32 is rounded to 0: the sum
    [x + PAGE_SIZE - 1] wraps around. *)
Theorem roundUpToPageSize_wraps_to_zero k x :
  PAGE_SIZE = 2 ^ k → 0 ≤ k ≤ 32 →
  2 ^ 32 - PAGE_SIZE < x < 2 ^ 32 →
  roundUpToPageSize x = 0.
Proof.
  intros HP Hk Hx.
  assert (0 < PAGE_SIZE) as Hpos by (rewrite HP; apply Z.pow_pos_nonneg; lia).
  assert (PAGE_SIZE ≤ 2 ^ 32) as Hle.
  { rewrite HP. apply Z.pow_le_mono_r; lia. }
  rewrite (roundUpToPageSize_eq k) by (try assumption; lia).
  assert (∃ b, 2 ^ 32 = b * PAGE_SIZE) as [b Hb].
  { exists (2 ^ (32 - k)). rewrite HP, <- Z.pow_add_r by lia. f_equal. lia. }
  assert ((x + (PAGE_SIZE - 1)) / PAGE_SIZE = b) as ->.
  { symmetry. apply (Z.div_unique _ _ b (x + (PAGE_SIZE - 1) - 2 ^ 32)); lia. }
  unfold uint32. rewrite <- Hb. apply Z.mod_same. lia.
Qed.



(** ** The row of [gralloc_alloc] *)

Lemma gralloc_alloc_row w bpp :
  bpp = 4 ∨ bpp = 2 → 0 ≤ w → w * bpp + 3 < 2 ^ 31 →
  ∃ stride,
    uint32 (Z.land (sint32 (sint32 (w * bpp) + (4 - 1))) (Z.lnot (4 - 1)))
    = stride * bpp
    ∧ sint32 (stride * bpp / bpp) = stride
    ∧ w ≤ stride ∧ stride * bpp ≤ w * bpp + 3
    ∧ (bpp = 4 → stride = w) ∧ (bpp = 2 → stride = w + w mod 2).
Proof.
  intros [-> | ->] Hw Hrow.
  - exists w. rewrite (sint32_small (w * 4)) by lia.
    rewrite (sint32_small (w * 4 + (4 - 1))) by lia.
    change (4 - 1) with (2 ^ 2 - 1). rewrite land_lnot_low by lia.
    change (2 ^ 2) with 4.
    assert ((w * 4 + (4 - 1)) / 4 * 4 = w * 4) as ->
      by (Z.to_euclidean_division_equations; lia).
    rewrite uint32_small by lia. rewrite Z.div_mul by lia.
    rewrite sint32_small by lia. repeat split; lia.
  - exists (w + w mod 2). rewrite (sint32_small (w * 2)) by lia.
    rewrite (sint32_small (w * 2 + (4 - 1))) by lia.
    change (4 - 1) with (2 ^ 2 - 1). rewrite land_lnot_low by lia.
    change (2 ^ 2) with 4.
    assert ((w * 2 + (4 - 1)) / 4 * 4 = (w + w mod 2) * 2) as ->
      by (Z.to_euclidean_division_equations; lia).
    assert (0 ≤ w mod 2 < 2) as Hmod by (apply Z.mod_pos_bound; lia).
    rewrite uint32_small by lia. rewrite Z.div_mul by lia.
    rewrite sint32_small by lia. repeat split; lia.
Qed.

(** X10: for a width that is not negative and whose row fits in an [int],
    the stride that [gralloc_alloc] stores is the least number of pixels
    that is not below the width and whose row is a multiple of 4 bytes:
    the width itself for the formats of 4 bytes per pixel, the width
    rounded up to an even number for those of 2. *)
Theorem gralloc_alloc_stride dev w h format usage wd e hnd stride wd' bpp :
  bytes_per_pixel format = Some bpp →
  0 ≤ w → w * bpp + 3 < 2 ^ 31 →
  gralloc_alloc dev w h format usage true true wd
  = Some ((e, hnd, Some stride), wd') →
  w ≤ stride ∧ (stride * bpp) mod 4 = 0
  ∧ (∀ s, w ≤ s → (s * bpp) mod 4 = 0 → stride ≤ s)
  ∧ (bpp = 4 → stride = w)
  ∧ (bpp = 2 → stride = w + w mod 2).
Proof.
  intros Hbpp Hw Hrow Hrun.
  assert (bpp = 4 ∨ bpp = 2) as Hcases.
  { unfold bytes_per_pixel in Hbpp.
    destruct (_ || _); [left; congruence|].
    destruct (_ || _ || _); [right; congruence|discriminate]. }
  destruct (gralloc_alloc_row w bpp Hcases Hw Hrow)
    as (s & Hbpr & Hstride & Hs & Hsb & H4 & H2).
  unfold gralloc_alloc in Hrun. cbn [negb orb] in Hrun. rewrite Hbpp in Hrun.
  cbv zeta in Hrun. rewrite Hbpr, Hstride in Hrun.
  apply bind_Some in Hrun as ([err hnd0] & wd1 & _ & Hrun).
  assert (stride = s) as ->.
  { destruct (err <? 0); [discriminate|]. injection Hrun as _ _ <- _.
    reflexivity. }
  split; [exact Hs|]. split.
  { destruct Hcases as [-> | ->].
    - apply Z.mod_mul. lia.
    - rewrite (H2 eq_refl). Z.to_euclidean_division_equations; lia. }
  split; [|split; assumption].
  intros s' Hs' Hs4. destruct Hcases as [-> | ->].
  - rewrite (H4 eq_refl). exact Hs'.
  - rewrite (H2 eq_refl). Z.to_euclidean_division_equations; lia.
Qed.

(** X11: [gralloc_alloc] never returns a positive number; it stores a
    stride exactly when it returns 0; and it hands out a handle only when
    it returns 0. *)
Theorem gralloc_alloc_stride_iff_zero dev w h format usage pHandle pStride
    wd e hnd stride wd' :
  gralloc_alloc dev w h format usage pHandle pStride wd
  = Some ((e, hnd, stride), wd') →
  e ≤ 0 ∧ (e = 0 ↔ ∃ s, stride = Some s)
  ∧ ((∃ p, hnd = Some p) → e = 0).
Proof.
  intros Hrun. unfold gralloc_alloc in Hrun.
  pose proof (Pos2Z.is_pos EINVAL) as Hpos.
  destruct (negb pHandle || negb pStride).
  { injection Hrun as <- <- <- <-.
    split; [lia|]. split; [split; [lia|intros [s [=]]]|intros [p [=]]]. }
  destruct (bytes_per_pixel format) as [bpp|].
  2: { injection Hrun as <- <- <- <-.
       split; [lia|]. split; [split; [lia|intros [s [=]]]|intros [p [=]]]. }
  apply bind_Some in Hrun as ([e0 hnd0] & wd9 & Hpath & Hrun).
  destruct (Z.ltb_spec e0 0) as [Hneg|Hok]; injection Hrun as <- <- <- <-.
  - split; [lia|]. split; [split; [lia|intros [s [=]]]|].
    intros [p ->]. exfalso.
    assert (∀ sz us w1,
              gralloc_alloc_buffer dev sz us w1 = Some ((e0, Some p), wd9) →
              e0 = 0) as Hbuf.
    { intros sz us w1 Hb. alloc_buffer_cases Hb.
      all: apply (publish_handle_heap _ _ _ _ _ _ _ _ _ _ _ _ _ Hpub eq_refl);
        eauto. }
    destruct (negb _).
    + destruct (gralloc_alloc_framebuffer_inv _ _ _ _ _ _ _ Hpath)
        as (wd0 & _ & _ & _ & _
            & [(_ & [=] & _)|[(_ & Hb)|[(_ & _ & [=] & _)|(_ & Hz & _)]]]).
      * apply Hbuf in Hb. lia.
      * lia.
    + apply Hbuf in Hpath. lia.
  - split; [lia|]. split; [split; eauto|reflexivity].
Qed.

(** ** Mapping a pool *)

Lemma os_reply_no_descriptor tr rq :
  os_reply tr (sys_ioctl (-1) rq) = RErr EBADF.
Proof. reflexivity. Qed.

(** X12: when the device of a pool opens but cannot be mapped,
    [init_pmem_area] closes the descriptor again and records the pool as
    not open (master descriptor -1, base 0), so that the next request
    tries again; it returns a negative number.  For [/dev/pmem] that is
    the error of [mmap].  For the GPU pools the [PMEM_GET_PHYS] request
    is still issued, on the descriptor -1: the result is -1 and [errno]
    is that of the request, not that of [mmap]. *)
Theorem init_pmem_area_mmap_fails bt path wd v e :
  pmem_device bt = Some path →
  kernel (trace wd) (sys_open path) = ROk v →
  kernel (EvSys (sys_open path) (ROk v) :: trace wd)
    (sys_mmap (allocator_size (pool_state (pool_of bt) wd)) (Z.of_N v))
  = RErr e →
  ∃ x wd' rc evs,
    init_pmem_area bt wd = Some (x, wd')
    ∧ x < 0
    ∧ master_fd_of (module wd') bt = -1
    ∧ master_base_of (module wd') bt = 0
    ∧ master_phys (module wd') = master_phys (module wd)
    ∧ heap wd' = heap wd
    ∧ sAllocator wd' = sAllocator wd ∧ sGPUAllocator wd' = sGPUAllocator wd
    ∧ trace wd'
      = evs ++ EvSys (sys_close (Z.of_N v)) rc
          :: EvSys (sys_mmap (allocator_size (pool_state (pool_of bt) wd))
                      (Z.of_N v)) (RErr e)
          :: EvSys (sys_open path) (ROk v) :: trace wd
    ∧ (bt = BUFFER_TYPE_PMEM → x = - Z.pos e ∧ evs = [])
    ∧ (bt ≠ BUFFER_TYPE_PMEM →
         x = -1 ∧ errno wd' = Z.pos EBADF
         ∧ evs = [EvSys (sys_ioctl (-1) PMEM_GET_PHYS) (RErr EBADF)]).
Proof.
  intros Hdev Hopen Hmap.
  pose proof (N2Z.is_nonneg v) as Hv.
  assert (open_pmem_device bt wd
          = Some (Z.of_N v,
                  mk_world (module wd) (sAllocator wd) (sGPUAllocator wd)
                    (heap wd) (errno wd)
                    (EvSys (sys_open path) (ROk v) :: trace wd))) as Hfd.
  { unfold open_pmem_device. rewrite Hdev.
    rewrite (bind_run _ _ _ _ _ (do_syscall_ok wd (sys_open path) v Hopen)).
    reflexivity. }
  unfold init_pmem_area. rewrite (bind_run _ _ _ _ _ Hfd).
  unfold bind at 1. unfold pool_size at 1.
  destruct (Z.leb_spec 0 (Z.of_N v)) as [_|]; [|lia].
  cbn [module sAllocator sGPUAllocator heap errno trace].
  replace (match pool_of bt with
           | PoolPmem => allocator_size (sAllocator wd)
           | PoolGpu => allocator_size (sGPUAllocator wd)
           end) with (allocator_size (pool_state (pool_of bt) wd))
    by (destruct (pool_of bt); reflexivity).
  match goal with
  | |- context [bind (do_syscall ?c) ?k ?w] =>
      rewrite (bind_run _ k _ _ _
                 (do_syscall_err w c e
                    (eq_trans (os_reply_fd (trace w) c (Z.of_N v) eq_refl Hv)
                       Hmap)))
  end.
  unfold bind at 1. unfold bind at 1. unfold get_errno at 1.
  unfold bind at 1. unfold do_syscall at 1. unfold ret at 1.
  cbn [module sAllocator sGPUAllocator heap errno trace].
  destruct bt; try discriminate Hdev; cbn [buffer_type_eqb];
    unfold bind, do_syscall, modify_module, ret;
    cbn [module sAllocator sGPUAllocator heap errno trace];
    rewrite ?os_reply_no_descriptor;
    eexists _, _, _, _; (split; [reflexivity|]);
    cbn [module sAllocator sGPUAllocator heap errno trace master_fd_of
         master_base_of buffer_type_eqb set_gpu_master set_pmem_master
         gpu_master gpu_master_base pmem_master pmem_master_base master_phys
         ioctl_ret];
    (split; [lia|]); do 6 (split; [reflexivity|]);
    lazymatch goal with
    | |- _ = ?l ++ _ ∧ _ =>
        first
          [ unify l (@nil event); split; [reflexivity|]
          | unify l [EvSys (sys_ioctl (-1) PMEM_GET_PHYS) (RErr EBADF)];
            split; [reflexivity|] ]
    end;
    (split; [intros Hbt; first [discriminate Hbt | split; reflexivity]
            |intros Hbt; first [contradiction
                               | repeat split; reflexivity]]).
Qed.

(** X13: when the device of a GPU pool opens and maps, [init_pmem_area]
    records the descriptor and the address of the mapping as the master of
    the GPU pool and leaves the [/dev/pmem] pool alone.  The physical base
    is recorded when [PMEM_GET_PHYS] succeeds (truncated to 32 bits) and
    the result is 0; when that request fails the result is -1, the
    physical base stays as it was, and the pool stays open all the
    same. *)
Theorem init_pmem_area_gpu_maps_pool bt path wd v b :
  pmem_device bt = Some path → bt ≠ BUFFER_TYPE_PMEM →
  kernel (trace wd) (sys_open path) = ROk v →
  kernel (EvSys (sys_open path) (ROk v) :: trace wd)
    (sys_mmap (allocator_size (sGPUAllocator wd)) (Z.of_N v))
  = ROk b →
  ∃ x wd',
    init_pmem_area bt wd = Some (x, wd')
    ∧ gpu_master (module wd') = Z.of_N v
    ∧ gpu_master_base (module wd') = Z.of_N b
    ∧ pmem_master (module wd') = pmem_master (module wd)
    ∧ pmem_master_base (module wd') = pmem_master_base (module wd)
    ∧ match kernel (EvSys (sys_mmap (allocator_size (sGPUAllocator wd))
                             (Z.of_N v)) (ROk b)
                      :: EvSys (sys_open path) (ROk v) :: trace wd)
               (sys_ioctl (Z.of_N v) PMEM_GET_PHYS) with
      | ROk region_offset =>
          x = 0 ∧ master_phys (module wd') = uint32 (Z.of_N region_offset)
      | RErr _ => x = -1 ∧ master_phys (module wd') = master_phys (module wd)
      end.
Proof.
  intros Hdev Hbt Hopen Hmap.
  pose proof (N2Z.is_nonneg v) as Hv.
  assert (open_pmem_device bt wd
          = Some (Z.of_N v,
                  mk_world (module wd) (sAllocator wd) (sGPUAllocator wd)
                    (heap wd) (errno wd)
                    (EvSys (sys_open path) (ROk v) :: trace wd))) as Hfd.
  { unfold open_pmem_device. rewrite Hdev.
    rewrite (bind_run _ _ _ _ _ (do_syscall_ok wd (sys_open path) v Hopen)).
    reflexivity. }
  unfold init_pmem_area. rewrite (bind_run _ _ _ _ _ Hfd).
  unfold bind at 1. unfold pool_size at 1.
  destruct (Z.leb_spec 0 (Z.of_N v)) as [_|]; [|lia].
  cbn [module sAllocator sGPUAllocator heap errno trace].
  assert (pool_of bt = PoolGpu) as ->
    by (destruct bt; try reflexivity; contradiction).
  assert (buffer_type_eqb bt BUFFER_TYPE_PMEM = false) as ->
    by (destruct bt; try reflexivity; contradiction).
  match goal with
  | |- context [bind (do_syscall ?c) ?k ?w] =>
      rewrite (bind_run _ k _ _ _
                 (do_syscall_ok w c b
                    (eq_trans (os_reply_fd (trace w) c (Z.of_N v) eq_refl Hv)
                       Hmap)))
  end.
  unfold bind at 1. unfold ret at 1. unfold bind at 1.
  unfold modify_module at 1. unfold bind at 1. unfold do_syscall at 1.
  cbn [module sAllocator sGPUAllocator heap errno trace].
  rewrite (os_reply_fd _ _ (Z.of_N v)) by done.
  destruct (kernel _ (sys_ioctl (Z.of_N v) PMEM_GET_PHYS));
    unfold bind, modify_module, ret;
    eexists _, _; (split; [reflexivity|]); repeat split.
Qed.



(** ** More on the free path *)

Lemma release_backing_module r wd wd1 :
  release_backing r wd = Some (tt, wd1) →
  heap wd1 = heap wd
  ∧ (module wd1 = module wd
     ∨ ∃ x, module wd1
            = set_bufferMask (Z.land (bufferMask (module wd)) x) (module wd))
  ∧ (Z.land (flags r) PRIV_FLAGS_FRAMEBUFFER = 0 → module wd1 = module wd).
Proof.
  unfold release_backing.
  destruct (Z.eqb_spec (Z.land (flags r) PRIV_FLAGS_FRAMEBUFFER) 0)
    as [Hz|Hnz]; cbn [negb].
  - intros Hrel.
    assert (heap wd1 = heap wd ∧ module wd1 = module wd) as [Hh Hm].
    { destruct (0 <=? fd r).
      - destruct (buffer_type_eqb _ _); injection Hrel as <-; split; reflexivity.
      - injection Hrel as <-. split; reflexivity. }
    split; [exact Hh|]. split; [left; exact Hm|]. intros _. exact Hm.
  - intros Hrel.
    apply bind_Some in Hrel as (m & wd2 & [= <- <-] & Hrel).
    apply bind_Some in Hrel as (fb & wd3 & Hfb & Hrel).
    unfold load_framebuffer in Hfb.
    apply bind_Some in Hfb as (m' & wd4 & [= <- <-] & Hfb).
    destruct (framebuffer (module wd)); [|discriminate].
    unfold load in Hfb. destruct (heap wd !! _); [|discriminate].
    injection Hfb as <- <-.
    destruct (_ =? 0); [discriminate|].
    injection Hrel as <-. split; [reflexivity|].
    split; [right; eexists; reflexivity|]. intros; contradiction.
Qed.

Lemma set_bufferMask_same (m : private_module_t) :
  set_bufferMask (bufferMask m) m = m.
Proof. destruct m. reflexivity. Qed.

(** X14: [gralloc_free] returns 0 or [-EINVAL], and changes nothing when it
    returns [-EINVAL].  The only field of the module it can write is the
    slot bitmask, in which it never sets a bit; and for a handle that is
    no framebuffer slot the module stays as it is. *)
Theorem gralloc_free_never_sets_slot_bit handle wd e wd' :
  gralloc_free handle wd = Some (e, wd') →
  (e = 0 ∨ e = - Z.pos EINVAL ∧ wd' = wd)
  ∧ module wd' = set_bufferMask (bufferMask (module wd')) (module wd)
  ∧ (∀ j, Z.testbit (bufferMask (module wd')) j = true →
          Z.testbit (bufferMask (module wd)) j = true)
  ∧ (∀ p r, handle = Some p → heap wd !! p = Some r →
       Z.land (flags r) PRIV_FLAGS_FRAMEBUFFER = 0 → module wd' = module wd).
Proof.
  intros Hrun.
  assert (∀ wd, module wd = set_bufferMask (bufferMask (module wd)) (module wd))
    as Hsame by (intros w; symmetry; apply set_bufferMask_same).
  unfold gralloc_free in Hrun.
  apply bind_Some in Hrun as (v & wd0 & Hval & Hrun).
  assert (wd0 = wd) as ->.
  { destruct handle as [p|]; [|injection Hval as _ <-; reflexivity].
    apply bind_Some in Hval as (r & wd1 & Hl & Hv).
    unfold load in Hl. destruct (heap wd !! p); [|discriminate].
    injection Hl as _ <-. injection Hv as _ <-. reflexivity. }
  destruct (v <? 0).
  { injection Hrun as <- <-. split; [right; split; reflexivity|].
    split; [apply Hsame|]. split; [intros j Hj; exact Hj|]. reflexivity. }
  destruct handle as [p|]; [|discriminate].
  apply bind_Some in Hrun as (r & wd1 & Hl & Hrun).
  unfold load in Hl. destruct (heap wd !! p) as [r0|] eqn:Hr; [|discriminate].
  injection Hl as <- <-.
  apply bind_Some in Hrun as ([] & wd1 & Hrel & Hrun).
  apply release_backing_module in Hrel as (Hh1 & Hm1 & Hplain).
  assert (heap wd1 !! p = Some r0) as Hr1 by (rewrite Hh1; exact Hr).
  destruct (unregister_close_delete_run _ _ _ Hr1)
    as (wd2 & r' & rc & Hucd & Hm2 & _).
  rewrite Hucd in Hrun. injection Hrun as <- <-.
  split; [left; reflexivity|]. rewrite Hm2.
  split; [|split].
  - destruct Hm1 as [-> | [x ->]]; [apply Hsame|reflexivity].
  - intros j. destruct Hm1 as [-> | [x ->]]; [exact id|].
    cbn [bufferMask set_bufferMask]. rewrite Z.land_spec.
    intros Hj. apply andb_prop in Hj. exact (proj1 Hj).
  - intros p' r1 [= <-] Hr' Hfl. rewrite Hr in Hr'. injection Hr' as <-.
    exact (Hplain Hfl).
Qed.

(** X15: a valid handle that is no framebuffer slot and whose descriptor
    is negative is freed without touching a pool and without [memset]:
    the handle is unregistered, [close] is still called on the descriptor,
    the record is deleted, so that none is left at the address, and the
    result is 0. *)
Theorem gralloc_free_negative_descriptor wd p r :
  heap wd !! p = Some r → validate (Some r) = 0 →
  Z.land (flags r) PRIV_FLAGS_FRAMEBUFFER = 0 →
  fd r < 0 →
  ∃ wd' rc,
    gralloc_free (Some p) wd = Some (0, wd')
    ∧ trace wd'
      = EvDelete p :: EvSys (sys_close (fd (gralloc_unregister_buffer r).2)) rc
          :: EvUnregister p :: trace wd
    ∧ module wd' = module wd
    ∧ sAllocator wd' = sAllocator wd ∧ sGPUAllocator wd' = sGPUAllocator wd
    ∧ heap wd' !! p = None.
Proof.
  intros Hr Hv Hfl Hfd. rewrite (gralloc_free_valid _ _ _ Hr Hv).
  unfold release_backing. rewrite Hfl. change (negb (0 =? 0)) with false.
  cbv iota. destruct (Z.leb_spec 0 (fd r)) as [|_]; [lia|].
  unfold bind at 1. unfold ret at 1.
  destruct (unregister_close_delete_run wd p r Hr)
    as (wd' & r' & rc & Hrun & Hm & Hs & Hg & Hh & -> & Ht).
  exists wd', rc. split; [exact Hrun|]. split; [exact Ht|].
  split; [exact Hm|]. split; [exact Hs|]. split; [exact Hg|].
  rewrite Hh. apply lookup_delete_eq.
Qed.

(** X16: [gralloc_free] on a valid handle that carries
    [PRIV_FLAGS_FRAMEBUFFER] reads through [m->framebuffer] and divides by
    the size of a slot without a test: when the display is not mapped, or
    the size of a slot is 0, the call leaves defined behaviour. *)
Theorem gralloc_free_slot_needs_mapped_display wd p r :
  heap wd !! p = Some r → validate (Some r) = 0 →
  Z.land (flags r) PRIV_FLAGS_FRAMEBUFFER ≠ 0 →
  framebuffer (module wd) = None ∨ slot_size (module wd) = 0 →
  gralloc_free (Some p) wd = None.
Proof.
  intros Hr Hv Hfl Hbad. rewrite (gralloc_free_valid _ _ _ Hr Hv).
  unfold release_backing.
  destruct (Z.eqb_spec (Z.land (flags r) PRIV_FLAGS_FRAMEBUFFER) 0);
    [contradiction|]. cbn [negb].
  unfold bind at 1. unfold bind at 1. unfold get_module at 1.
  unfold bind at 1. unfold load_framebuffer, bind, get_module.
  destruct (framebuffer (module wd)) as [pfb|] eqn:Hfb; [|reflexivity].
  destruct Hbad as [[=]|Hz]. unfold load.
  destruct (heap wd !! pfb); [|reflexivity].
  rewrite Hz. reflexivity.
Qed.

(** ** More on the framebuffer slots *)

(** X17: a scanout request on a mapped display with a free slot makes one
    call into the system, [dup] of the descriptor of the framebuffer, and
    does not test its result: the request returns 0 and takes a slot also
    when [dup] fails, and the handle then carries the descriptor -1.  The
    handle has the requested size, the type [BUFFER_TYPE_FB], the offset
    of its slot from the base of the surface, and the physical address of
    the surface plus that offset; the pools are not touched. *)
Theorem scanout_handle_from_dup dev n usage wd pfb fb :
  scanout_ready wd pfb fb →
  bufferMask (module wd) ≠ 2 ^ numBuffers (module wd) - 1 →
  ∃ p r wd',
    gralloc_alloc_framebuffer dev n usage wd = Some ((0, Some p), wd')
    ∧ heap wd' !! p = Some r
    ∧ trace wd'
      = EvSys (sys_dup (fd fb)) (os_reply (trace wd) (sys_dup (fd fb)))
          :: trace wd
    ∧ fd r = syscall_ret (os_reply (trace wd) (sys_dup (fd fb)))
    ∧ (∀ e, os_reply (trace wd) (sys_dup (fd fb)) = RErr e → fd r = -1)
    ∧ size r = sint32 n ∧ bufferType r = BUFFER_TYPE_FB
    ∧ pid r = getpid ∧ lockState r = 0
    ∧ offset r = sint32 (base r - base fb)
    ∧ phys r = sint32 (phys fb + offset r)
    ∧ sAllocator wd' = sAllocator wd ∧ sGPUAllocator wd' = sGPUAllocator wd.
Proof.
  intros Hready Hfree.
  destruct (gralloc_alloc_framebuffer_slot dev n usage wd pfb fb Hready Hfree)
    as (i & p & r & wd' & _ & _ & _ & Hrun & _ & _ & Hheap & _).
  pose proof Hready as [Hfb Hh Hn Hm Hb].
  destruct (gralloc_alloc_framebuffer_inv _ _ _ _ _ _ _ Hrun)
    as (wd0 & _ & _ & _ & Hsame & Hcases).
  rewrite (Hsame ltac:(rewrite Hfb; discriminate)) in Hcases. clear Hsame wd0.
  pose proof (Pos2Z.is_pos ENOMEM) as Hpos.
  destruct Hcases
    as [(Hneg & _)
       |[(H1 & _)
        |[(_ & Hz & _)
         |(_ & _ & pfb' & fb' & rp & p' & r' & Hfb' & Hh' & [= <-] & Ht & Hs
           & Hg & _ & Hheap' & -> & Hfd & Hsize & Hbt & Hpid & Hls & _ & Hoff
           & Hphys)]]]; [lia|lia|lia|].
  rewrite Hfb in Hfb'. injection Hfb' as <-.
  rewrite Hh in Hh'. injection Hh' as <-.
  assert (r' = r) as ->.
  { assert (heap wd' !! p = Some r') as H1
      by (rewrite Hheap'; apply lookup_insert_eq).
    rewrite Hheap, lookup_insert_eq in H1. congruence. }
  exists p, r, wd'. split; [exact Hrun|].
  split; [rewrite Hheap; apply lookup_insert_eq|].
  split; [exact Ht|]. split; [exact Hfd|].
  split; [intros e He; rewrite Hfd, He; reflexivity|].
  repeat split; assumption.
Qed.

(** X18: two scanout requests that succeed one after the other, on a
    mapped display whose surface lies in the address space, are served
    from different slots: the two handles are different records with
    different base addresses, and both slot bits are set afterwards. *)
Theorem successive_scanout_buffers_differ dev n1 u1 n2 u2 wd pfb fb
    p1 wd1 p2 wd2 :
  scanout_ready wd pfb fb → surface_fits wd →
  gralloc_alloc_framebuffer dev n1 u1 wd = Some ((0, Some p1), wd1) →
  gralloc_alloc_framebuffer dev n2 u2 wd1 = Some ((0, Some p2), wd2) →
  p1 ≠ p2
  ∧ ∃ r1 r2 i1 i2,
      heap wd2 !! p1 = Some r1 ∧ heap wd2 !! p2 = Some r2
      ∧ i1 ≠ i2
      ∧ 0 ≤ i1 < numBuffers (module wd) ∧ 0 ≤ i2 < numBuffers (module wd)
      ∧ base r1 = sint32 (base fb + i1 * slot_size (module wd))
      ∧ base r2 = sint32 (base fb + i2 * slot_size (module wd))
      ∧ base r1 ≠ base r2
      ∧ Z.testbit (bufferMask (module wd2)) i1 = true
      ∧ Z.testbit (bufferMask (module wd2)) i2 = true.
Proof.
  intros Hready [Hbs Hfit] Hrun1 Hrun2.
  pose proof Hready as [Hfb Hh Hn Hm Hb].
  pose proof (Pos2Z.is_pos ENOMEM) as Hpos.
  destruct (Z.eq_dec (bufferMask (module wd)) (2 ^ numBuffers (module wd) - 1))
    as [Hfull|Hfree].
  { rewrite (gralloc_alloc_framebuffer_full dev n1 u1 wd pfb fb Hready Hfull)
      in Hrun1. injection Hrun1 as Hz _. lia. }
  destruct (gralloc_alloc_framebuffer_slot dev n1 u1 wd pfb fb Hready Hfree)
    as (i1 & q1 & r1 & wd1' & Hi1 & Hclear1 & _ & Hrun1' & Hmod1 & Hfresh1
        & Hheap1 & _ & _ & Hbase1 & _).
  rewrite Hrun1 in Hrun1'. injection Hrun1' as <- <-.
  assert (p1 ≠ pfb) as Hne1.
  { intros ->. rewrite Hh in Hfresh1. discriminate Hfresh1. }
  assert (scanout_ready wd1 pfb fb) as Hready1.
  { eapply scanout_ready_update; [exact Hready|exact Hmod1| | |].
    - rewrite Hheap1, lookup_insert_ne by done. exact Hh.
    - apply Z.lor_nonneg. split; [lia|]. apply Z.pow_nonneg. lia.
    - intros j Hj. rewrite Z.lor_spec.
      rewrite (testbit_above _ (numBuffers (module wd)) j) by lia.
      rewrite Z.pow2_bits_false by lia. reflexivity. }
  destruct (Z.eq_dec (bufferMask (module wd1))
              (2 ^ numBuffers (module wd1) - 1)) as [Hfull1|Hfree1].
  { rewrite (gralloc_alloc_framebuffer_full dev n2 u2 wd1 pfb fb Hready1 Hfull1)
      in Hrun2. injection Hrun2 as Hz _. lia. }
  destruct (gralloc_alloc_framebuffer_slot dev n2 u2 wd1 pfb fb Hready1 Hfree1)
    as (i2 & q2 & r2 & wd2' & Hi2 & Hclear2 & _ & Hrun2' & Hmod2 & Hfresh2
        & Hheap2 & _ & _ & Hbase2 & _).
  rewrite Hrun2 in Hrun2'. injection Hrun2' as <- <-.
  rewrite Hmod1 in Hi2, Hclear2, Hbase2, Hmod2.
  cbn [numBuffers bufferMask set_bufferMask] in Hi2, Hclear2, Hmod2.
  change (slot_size (set_bufferMask _ (module wd)))
    with (slot_size (module wd)) in Hbase2.
  assert (p1 ≠ p2) as Hne.
  { intros ->. rewrite Hheap1, lookup_insert_eq in Hfresh2.
    discriminate Hfresh2. }
  assert (i1 ≠ i2) as Hi.
  { intros ->. rewrite Z.lor_spec, Z.pow2_bits_true, orb_true_r in Hclear2
      by lia. discriminate Hclear2. }
  split; [exact Hne|]. exists r1, r2, i1, i2.
  split; [rewrite Hheap2, lookup_insert_ne, Hheap1 by done;
          apply lookup_insert_eq|].
  split; [rewrite Hheap2; apply lookup_insert_eq|].
  split; [exact Hi|]. split; [exact Hi1|]. split; [exact Hi2|].
  split; [exact Hbase1|]. split; [exact Hbase2|]. split.
  { intros Heq. apply Hi.
    rewrite <- (slot_index_of_base (base fb) i1 (slot_size (module wd))
                  (numBuffers (module wd))) by lia.
    rewrite <- (slot_index_of_base (base fb) i2 (slot_size (module wd))
                  (numBuffers (module wd))) by lia.
    rewrite <- Hbase1, <- Hbase2, Heq. reflexivity. }
  rewrite Hmod2. cbn [bufferMask set_bufferMask].
  rewrite !Z.lor_spec, !Z.pow2_bits_true by lia.
  rewrite !orb_true_r. split; reflexivity.
Qed.






(** ** Casting a handle *)

(** X20: [dynamicCast] returns the pointer it was given exactly when
    [validate] answers 0 on it, and the null pointer otherwise: a handle
    fresh from the constructor is cast to itself, a handle whose
    destructor has run is cast to the null pointer, as is the null
    pointer, and whatever [dynamicCast] returns passes [validate] and is
    cast to itself again. *)
Theorem dynamicCast_accepts_valid_handles_only :
  (∀ h r, dynamicCast h = Some r ↔ h = Some r ∧ validate (Some r) = 0)
  ∧ (∀ self fd' size' flags' bt,
       dynamicCast (Some (new_private_handle_t self fd' size' flags' bt))
       = Some (new_private_handle_t self fd' size' flags' bt))
  ∧ (∀ r, dynamicCast (Some (destroy_private_handle_t r)) = None)
  ∧ dynamicCast None = None
  ∧ (∀ h, dynamicCast (dynamicCast h) = dynamicCast h).
Proof.
  assert (dynamicCast None = None) as Hnull.
  { unfold dynamicCast. cbn [validate].
    destruct (Z.eqb_spec (- Z.pos EINVAL) 0); [lia|reflexivity]. }
  assert (∀ h r, dynamicCast h = Some r ↔ h = Some r ∧ validate (Some r) = 0)
    as Hiff.
  { intros h r. unfold dynamicCast.
    destruct (Z.eqb_spec (validate h) 0) as [Hz|Hnz].
    - split; [intros ->; split; [reflexivity|exact Hz]|intros [-> _]; reflexivity].
    - split; [intros [=]|intros [-> Hz]; contradiction]. }
  split; [exact Hiff|]. split.
  { intros. unfold dynamicCast. rewrite validate_new. reflexivity. }
  split.
  { intros r. unfold dynamicCast. rewrite validate_destroyed.
    destruct (Z.eqb_spec (- Z.pos EINVAL) 0); [lia|reflexivity]. }
  split; [exact Hnull|].
  intros h. destruct (dynamicCast h) as [r|] eqn:Hc; [|exact Hnull].
  apply Hiff. split; [reflexivity|]. apply Hiff in Hc. exact (proj2 Hc).
Qed.

(** ** The size of the buffer *)

Lemma gralloc_alloc_buffer_size dev n usage wd e p wd' :
  gralloc_alloc_buffer dev n usage wd = Some ((e, Some p), wd') →
  ∃ r, heap wd' !! p = Some r ∧ size r = sint32 (roundUpToPageSize n).
Proof.
  intros Hrun. alloc_buffer_cases Hrun.
  all: destruct (publish_handle_inv _ _ _ _ _ _ _ _ _ _ _ _ Hpub)
    as (_ & _ & _ & _ & _
        & [(_ & [=] & _)
          |(_ & q & r & [= <-] & _ & Hh & _ & _ & _ & Hsize & _)]).
  all: exists r; split; [rewrite Hh; apply lookup_insert_eq|exact Hsize].
Qed.

(** X21: the buffer is large enough for the image.  For a request that
    does not ask for the framebuffer, with a width and a height that are
    not negative and an image that, rounded to pages, fits in an [int],
    the handle that [gralloc_alloc] hands out records a size that is a
    multiple of the page size, that is the number of bytes of [h] rows of
    the stored stride rounded up to the next page, and that is not below
    [w * h] pixels. *)
Theorem gralloc_alloc_buffer_holds_image dev w h format usage wd p stride wd'
    bpp k :
  bytes_per_pixel format = Some bpp →
  PAGE_SIZE = 2 ^ k → 0 ≤ k ≤ 32 →
  Z.land usage GRALLOC_USAGE_HW_FB = 0 →
  0 ≤ w → 0 ≤ h → w * bpp + 3 < 2 ^ 31 →
  (w * bpp + 3) * h + (PAGE_SIZE - 1) < 2 ^ 31 →
  gralloc_alloc dev w h format usage true true wd
  = Some ((0, Some p, Some stride), wd') →
  ∃ r,
    heap wd' !! p = Some r
    ∧ size r mod PAGE_SIZE = 0
    ∧ stride * bpp * h ≤ size r < stride * bpp * h + PAGE_SIZE
    ∧ w * bpp * h ≤ size r.
Proof.
  intros Hbpp HP Hk Hfb Hw Hh Hrow Himg Hrun.
  assert (bpp = 4 ∨ bpp = 2) as Hcases.
  { unfold bytes_per_pixel in Hbpp.
    destruct (_ || _); [left; congruence|].
    destruct (_ || _ || _); [right; congruence|discriminate]. }
  assert (0 < PAGE_SIZE) as Hpos by (rewrite HP; apply Z.pow_pos_nonneg; lia).
  destruct (gralloc_alloc_row w bpp Hcases Hw Hrow)
    as (s & Hbpr & Hstride & Hs & Hsb & _).
  unfold gralloc_alloc in Hrun. cbn [negb orb] in Hrun. rewrite Hbpp in Hrun.
  cbv zeta in Hrun. rewrite Hfb in Hrun.
  change (negb (0 =? 0)) with false in Hrun. cbv iota in Hrun.
  rewrite Hbpr in Hrun.
  apply bind_Some in Hrun as ([e0 hnd0] & wd1 & Hbuf & Hrun).
  assert (hnd0 = Some p ∧ wd1 = wd' ∧ stride = s) as (-> & -> & ->).
  { destruct (e0 <? 0); [discriminate|]. injection Hrun as -> <- <-.
    rewrite Hstride. repeat split. }
  destruct (gralloc_alloc_buffer_size _ _ _ _ _ _ _ Hbuf) as (r & Hr & Hsize).
  exists r. split; [exact Hr|].
  assert (0 ≤ s * bpp) as Hsb0 by (destruct Hcases as [-> | ->]; lia).
  assert (0 ≤ s * bpp * h ≤ (w * bpp + 3) * h) as Himg'.
  { split; [apply Z.mul_nonneg_nonneg; lia|].
    apply Z.mul_le_mono_nonneg_r; lia. }
  assert (w * bpp * h ≤ s * bpp * h) as Hwh.
  { apply Z.mul_le_mono_nonneg_r; [lia|].
    destruct Hcases as [-> | ->]; lia. }
  assert (h < 2 ^ 32) as Hh32.
  { destruct (Z.eq_dec h 0) as [->|]; [lia|].
    assert (1 * h ≤ (w * bpp + 3) * h)
      by (apply Z.mul_le_mono_nonneg_r; destruct Hcases as [-> | ->]; lia).
    lia. }
  rewrite (uint32_small h) in Hsize by lia.
  rewrite (uint32_small (s * bpp * h)) in Hsize by lia.
  destruct (roundUpToPageSize_bounds k (s * bpp * h) HP Hk)
    as (_ & Hmod & Hround); [lia|lia|].
  rewrite sint32_small in Hsize by lia.
  rewrite Hsize. split; [exact Hmod|]. split; [exact Hround|]. lia.
Qed.

(** ** A display that cannot be mapped *)

(** X22: when a scanout request in a supported format finds the display
    not mapped and [mapFrameBufferLocked] fails, [gralloc_alloc] returns
    the error of [mapFrameBufferLocked] and stores neither a handle nor a
    stride.  It adds no call of its own to those that
    [mapFrameBufferLocked] made (no [dup], no pool device is opened) and
    touches neither allocator; module, handle records and [errno] are as
    [mapFrameBufferLocked] left them. *)
Theorem gralloc_alloc_framebuffer_map_fails dev w h format usage wd :
  bytes_per_pixel format ≠ None →
  Z.land usage GRALLOC_USAGE_HW_FB ≠ 0 →
  framebuffer (module wd) = None →
  let mapping :=
    mapFrameBufferLocked (trace wd) (errno wd) (module wd) (heap wd) in
  map_ret mapping < 0 →
  gralloc_alloc dev w h format usage true true wd
  = Some ((map_ret mapping, None, None),
          mk_world (map_module mapping) (sAllocator wd) (sGPUAllocator wd)
            (map_heap mapping) (map_errno mapping)
            (map_calls mapping ++ trace wd)).
Proof.
  intros Hfmt Hfb Hnone mapping Herr.
  unfold gralloc_alloc. cbn [negb orb].
  destruct (bytes_per_pixel format) as [bpp|]; [|contradiction].
  cbv zeta.
  destruct (Z.eqb_spec (Z.land usage GRALLOC_USAGE_HW_FB) 0) as [|_];
    [contradiction|]. cbn [negb].
  unfold gralloc_alloc_framebuffer, gralloc_alloc_framebuffer_locked.
  unfold bind at 1. unfold bind at 1. unfold get_module at 1. rewrite Hnone.
  unfold bind at 1. unfold call_mapFrameBufferLocked. fold mapping.
  destruct (Z.ltb_spec (map_ret mapping) 0) as [_|]; [|lia].
  unfold ret at 1.
  destruct (Z.ltb_spec (map_ret mapping) 0) as [_|]; [|lia].
  reflexivity.
Qed.


End Properties.

(** * Runs on the concrete device *)

(** ** Where the code and the claims part *)

(** C2: with one live buffer in each pool (an extent of 16384 bytes at
    offset 0), a buffer without hardware usage is allocated; it is backed by
    anonymous shared memory (flags 0).  Freeing it calls [deallocate(0)] on
    the allocator that its never assigned [bufferType] selects, whatever
    that value is, and [memset] over its 16384 bytes at address 0: the
    extent that a live buffer occupies in that pool is free afterwards. *)
Theorem free_of_ashmem_buffer_releases_pool_extent (bt : buffer_type) :
  free_of_ashmem_buffer bt
  = Some (0,
          [BestFit.mk_chunk 0 16384 false;
           BestFit.mk_chunk 16384
             (BestFit.heap_size
                (if buffer_type_eqb bt BUFFER_TYPE_PMEM
                 then sAllocator_init else sGPUAllocator_init) - 16384) true],
          [BestFit.mk_chunk 0
             (BestFit.heap_size
                (if buffer_type_eqb bt BUFFER_TYPE_PMEM
                 then sAllocator_init else sGPUAllocator_init)) true],
          [EvDelete 3; EvSys (sys_close 16) (ROk 0); EvUnregister 3;
           EvMemset 0 16384; EvDeallocate (pool_of bt) 0]).
Proof. destruct bt; vm_compute; reflexivity. Qed.

(** C1 fails as stated: a request whose usage is the render-target bit
    alone, on a board whose pmem devices cannot be opened, does not fail; it
    returns 0 with a handle, after one failed [open] and one
    [ashmem_create_region]. *)
Lemma render_target_request_falls_back_to_ashmem :
  Z.land (@GRALLOC_USAGE_HW_RENDER android_arm) (@GRALLOC_USAGE_HW_RENDER android_arm) ≠ 0
  ∧ returned (device_alloc_buffer kernel_no_pmem 16384
                (@GRALLOC_USAGE_HW_RENDER android_arm) boot)
    = Some (0, Some 1%positive)
  ∧ events_since boot
      (device_alloc_buffer kernel_no_pmem 16384
         (@GRALLOC_USAGE_HW_RENDER android_arm) boot)
    = Some [EvSys (sys_ashmem_create_region "Buffer" 16384) (ROk 4);
            EvSys (sys_open "/dev/pmem_gpu1") (RErr 19)].
Proof. split; [|split]; vm_compute; [discriminate|reflexivity|reflexivity]. Qed.

(** C3 fails as stated: the stride stored for a 64 by 64 RGBA_8888 texture
    buffer is 64, not 256. *)
Lemma stride_of_64x64_rgba_is_64 :
  returned (device_alloc kernel_ok 64 64 (@HAL_PIXEL_FORMAT_RGBA_8888 android_arm)
              (@GRALLOC_USAGE_HW_TEXTURE android_arm) true true boot)
  = Some (0, Some 1%positive, Some 64)
  ∧ ∀ hnd, returned (device_alloc kernel_ok 64 64
                       (@HAL_PIXEL_FORMAT_RGBA_8888 android_arm)
                       (@GRALLOC_USAGE_HW_TEXTURE android_arm) true true boot)
           ≠ Some (0, hnd, Some 256).
Proof. split; [|intros hnd]; vm_compute; [reflexivity|discriminate]. Qed.

(** C8 fails as stated: a texture buffer is allocated and freed.  Right
    after the free, [validate] on the freed handle reads a record that is
    no longer there, which is undefined.  The next texture request places
    its record at the address of the freed one, and from then on
    [validate] on the freed handle answers 0, not [-EINVAL]. *)
Lemma freed_handle_validates_after_reuse :
  returned (device_alloc_buffer kernel_ok 16384 0x100 boot)
  = Some (0, Some 1%positive)
  ∧ device_free kernel_ok (Some 1%positive) world_after_texture_alloc
    = Some (0, world_after_texture_free)
  ∧ @validate_handle android_arm BestFit.t (Some 1%positive)
      world_after_texture_free
    = None
  ∧ returned (device_alloc_buffer kernel_ok 16384 0x100
                world_after_texture_free)
    = Some (0, Some 1%positive)
  ∧ returned (@validate_handle android_arm BestFit.t (Some 1%positive)
                world_after_texture_realloc)
    = Some 0
  ∧ returned (@validate_handle android_arm BestFit.t (Some 1%positive)
                world_after_texture_realloc)
    ≠ Some (-22).
Proof.
  split; [|split; [|split; [|split; [|split]]]]; vm_compute;
    first [reflexivity | discriminate].
Qed.

(** C9 fails as stated: a request of width 0, and one of width -1, in a
    supported format are not rejected; [gralloc_alloc] returns 0 with a
    handle. *)
Lemma non_positive_width_is_accepted :
  returned (device_alloc kernel_ok 0 64 (@HAL_PIXEL_FORMAT_RGBA_8888 android_arm)
              0 true true boot)
  = Some (0, Some 1%positive, Some 0)
  ∧ returned (device_alloc kernel_ok (-1) 64
                (@HAL_PIXEL_FORMAT_RGBA_8888 android_arm) 0 true true boot)
    = Some (0, Some 1%positive, Some 1073741823).
Proof. split; vm_compute; reflexivity. Qed.

(** ** The theorems at work on concrete requests *)

Lemma gralloc_alloc_buffer_pool_unavailable_witness :
  (∃ p, returned (device_alloc_buffer kernel_no_pmem 16384
                    (@GRALLOC_USAGE_HW_TEXTURE android_arm) boot)
        = Some (0, Some p))
  ∧ returned (device_alloc_buffer kernel_no_pmem 16384
                (@GRALLOC_USAGE_HW_2D android_arm) boot)
    = Some (-19, None).
Proof.
  split.
  - destruct (@gralloc_alloc_buffer_pool_unavailable android_arm BestFit.t
                bestfit_allocator (environment kernel_no_pmem)
                gralloc_device_open 16384 (@GRALLOC_USAGE_HW_TEXTURE android_arm)
                boot BUFFER_TYPE_PMEM "/dev/pmem" 19%positive
                eq_refl eq_refl eq_refl eq_refl) as [Hfallback _].
    destruct (proj1 (Hfallback eq_refl) 4%N eq_refl) as (p & r & Hrun & _).
    exists p. unfold returned. rewrite Hrun. reflexivity.
  - destruct (@gralloc_alloc_buffer_pool_unavailable android_arm BestFit.t
                bestfit_allocator (environment kernel_no_pmem)
                gralloc_device_open 16384 (@GRALLOC_USAGE_HW_2D android_arm)
                boot BUFFER_TYPE_GPU1 "/dev/pmem_gpu1" 19%positive
                eq_refl eq_refl eq_refl eq_refl) as [_ Hstrict].
    unfold returned. rewrite Hstrict; [reflexivity|].
    vm_compute. discriminate.
Defined.

Lemma gralloc_alloc_64x64_rgba_texture_witness :
  ∃ p r wd',
    device_alloc kernel_ok 64 64 (@HAL_PIXEL_FORMAT_RGBA_8888 android_arm)
      (@GRALLOC_USAGE_HW_TEXTURE android_arm) true true boot
    = Some ((0, Some p, Some 64), wd')
    ∧ heap wd' !! p = Some r
    ∧ flags r = PRIV_FLAGS_USES_PMEM
    ∧ Z.land (flags r) PRIV_FLAGS_FRAMEBUFFER = 0
    ∧ bufferType r = BUFFER_TYPE_PMEM
    ∧ @validate android_arm (Some r) = 0.
Proof.
  apply (@gralloc_alloc_64x64_rgba_texture android_arm BestFit.t
           bestfit_allocator (environment kernel_ok) gralloc_device_open
           (@GRALLOC_USAGE_HW_TEXTURE android_arm) boot).
  - reflexivity.
  - reflexivity.
  - vm_compute. discriminate.
  - intros tr. eexists. reflexivity.
  - intros tr n fd'. eexists. reflexivity.
  - intros tr fd' [| |]; eexists; reflexivity.
  - left. reflexivity.
  - vm_compute. discriminate.
Defined.


Lemma free_releases_the_record_witness :
  device_free kernel_ok (Some 1%positive) world_after_texture_alloc
  = Some (0, world_after_texture_free)
  ∧ heap world_after_texture_free !! 1%positive = None
  ∧ @validate_handle android_arm BestFit.t (Some 1%positive)
      world_after_texture_realloc
    = Some (0, world_after_texture_realloc).
Proof.
  assert (device_free kernel_ok (Some 1%positive) world_after_texture_alloc
          = Some (0, world_after_texture_free)) as Hfree
    by (vm_compute; reflexivity).
  assert (device_alloc_buffer kernel_ok 16384 0x100 world_after_texture_free
          = Some ((0, Some 1%positive), world_after_texture_realloc))
    as Hrun by (vm_compute; reflexivity).
  pose proof (@free_releases_the_record android_arm BestFit.t
                bestfit_allocator (environment kernel_ok)
                world_after_texture_alloc 1%positive world_after_texture_free
                Hfree) as H.
  destruct H as (_ & Hgone & _ & _ & Hreuse).
  split; [exact Hfree|]. split; [exact Hgone|].
  exact (Hreuse gralloc_device_open 16384 0x100 0
           world_after_texture_realloc Hrun).
Defined.

Lemma gralloc_alloc_rejects_unknown_format_witness :
  device_alloc kernel_ok 64 64 99 (@GRALLOC_USAGE_HW_TEXTURE android_arm)
    true true boot
  = Some ((-22, None, None), boot)
  ∧ ∃ p stride wd',
      device_alloc kernel_ok (-1) 0 (@HAL_PIXEL_FORMAT_RGB_565 android_arm) 0
        true true boot
      = Some ((0, Some p, Some stride), wd').
Proof.
  split.
  - apply (proj1 (@gralloc_alloc_rejects_unknown_format android_arm BestFit.t
                    bestfit_allocator (environment kernel_ok)
                    gralloc_device_open 64 64 99
                    (@GRALLOC_USAGE_HW_TEXTURE android_arm) true true boot)).
    left. repeat split; vm_compute; discriminate.
  - apply (proj2 (@gralloc_alloc_rejects_unknown_format android_arm BestFit.t
                    bestfit_allocator (environment kernel_ok)
                    gralloc_device_open (-1) 0
                    (@HAL_PIXEL_FORMAT_RGB_565 android_arm) 0 true true boot)).
    + right. right. left. reflexivity.
    + reflexivity.
    + reflexivity.
    + reflexivity.
    + intros tr m. eexists. reflexivity.
Defined.

Lemma gralloc_alloc_handle_validates_witness :
  ∃ r,
    device_alloc kernel_ok 64 64 (@HAL_PIXEL_FORMAT_RGBA_8888 android_arm) 0
      true true boot
    = Some ((0, Some 1%positive, Some 64), world_after_plain_alloc)
    ∧ heap world_after_plain_alloc !! 1%positive = Some r
    ∧ magic r = 0x3141592
    ∧ @validate android_arm (Some r) = 0.
Proof.
  assert (device_alloc kernel_ok 64 64 (@HAL_PIXEL_FORMAT_RGBA_8888 android_arm)
            0 true true boot
          = Some ((0, Some 1%positive, Some 64), world_after_plain_alloc))
    as Hrun by (vm_compute; reflexivity).
  pose proof (@gralloc_alloc_handle_validates android_arm BestFit.t
                bestfit_allocator (environment kernel_ok) gralloc_device_open
                64 64 (@HAL_PIXEL_FORMAT_RGBA_8888 android_arm) 0 true true
                boot) as Hvalid.
  destruct Hvalid as (_ & Hvalid & _).
  pose proof (Hvalid 1%positive (Some 64) world_after_plain_alloc Hrun) as Hr.
  destruct Hr as (r & Hr & _ & _ & _ & Hm & Hv).
  exists r.
  split; [exact Hrun|]. split; [exact Hr|]. split; [exact Hm|exact Hv].
Defined.

Lemma gralloc_alloc_buffer_unwinds_on_failure_witness :
  device_alloc_buffer kernel_map_fails 16384
    (@GRALLOC_USAGE_HW_RENDER android_arm) boot
  = Some ((-1, None), world_after_refused_map)
  ∧ heap world_after_refused_map = heap boot
  ∧ pool_state PoolGpu world_after_refused_map
    = @deallocate BestFit.t bestfit_allocator
        (@allocate BestFit.t bestfit_allocator (pool_state PoolGpu boot) 16384).2
        0
  ∧ pool_state PoolPmem world_after_refused_map = pool_state PoolPmem boot.
Proof.
  assert (device_alloc_buffer kernel_map_fails 16384
            (@GRALLOC_USAGE_HW_RENDER android_arm) boot
          = Some ((-1, None), world_after_refused_map))
    as Hrun by (vm_compute; reflexivity).
  split; [exact Hrun|].
  assert (trace world_after_refused_map
          = [EvDeallocate PoolGpu 0; EvSys (sys_close 7) (ROk 0);
             EvSys (sys_ioctl 7 (PMEM_MAP 0 16384)) (RErr 22);
             EvSys (sys_ioctl 7 (PMEM_CONNECT 3)) (ROk 0);
             EvSys (sys_open "/dev/pmem_gpu1") (ROk 7)]
            ++ EvAllocate PoolGpu 16384 0
               :: [EvSys (sys_ioctl 3 PMEM_GET_PHYS) (ROk 33554432);
                   EvSys (sys_mmap 3145728 3) (ROk 1073741824);
                   EvSys (sys_open "/dev/pmem_gpu1") (ROk 3)]
               ++ trace boot) as Htrace by (vm_compute; reflexivity).
  assert (∃ c e,
            In (EvSys c (RErr e))
              [EvDeallocate PoolGpu 0; EvSys (sys_close 7) (ROk 0);
               EvSys (sys_ioctl 7 (PMEM_MAP 0 16384)) (RErr 22);
               EvSys (sys_ioctl 7 (PMEM_CONNECT 3)) (ROk 0);
               EvSys (sys_open "/dev/pmem_gpu1") (ROk 7)]) as Hfail.
  { exists (sys_ioctl 7 (PMEM_MAP 0 16384)), 22%positive.
    right. right. left. reflexivity. }
  pose proof (@gralloc_alloc_buffer_unwinds_on_failure android_arm BestFit.t
                bestfit_allocator (environment kernel_map_fails)
                gralloc_device_open 16384 (@GRALLOC_USAGE_HW_RENDER android_arm)
                boot (-1) None world_after_refused_map
                [EvDeallocate PoolGpu 0; EvSys (sys_close 7) (ROk 0);
                 EvSys (sys_ioctl 7 (PMEM_MAP 0 16384)) (RErr 22);
                 EvSys (sys_ioctl 7 (PMEM_CONNECT 3)) (ROk 0);
                 EvSys (sys_open "/dev/pmem_gpu1") (ROk 7)]
                [EvSys (sys_ioctl 3 PMEM_GET_PHYS) (ROk 33554432);
                 EvSys (sys_mmap 3145728 3) (ROk 1073741824);
                 EvSys (sys_open "/dev/pmem_gpu1") (ROk 3)]
                PoolGpu 16384 0
                Hrun Htrace (Z.le_refl 0) Hfail) as Hunwound.
  destruct Hunwound as (_ & _ & Hheap & Hpool & Hother & _).
  split; [exact Hheap|]. split; [exact Hpool|].
  exact (Hother PoolPmem ltac:(discriminate)).
Defined.

Lemma framebuffer_slots_witness :
  device_alloc_framebuffer kernel_ok (1920 * 800)
    (@GRALLOC_USAGE_HW_FB android_arm) world_display_full
  = Some ((-12, None), world_display_full)
  ∧ ∃ wd1,
      device_free kernel_ok (Some 3%positive) world_display_full = Some (0, wd1)
      ∧ bufferMask (module wd1) = 1
      ∧ ∃ p2 r2 wd2,
          device_alloc_framebuffer kernel_ok (1920 * 800)
            (@GRALLOC_USAGE_HW_FB android_arm) wd1
          = Some ((0, Some p2), wd2)
          ∧ heap wd2 !! p2 = Some r2
          ∧ base r2 = 0x50000000 + 1920 * 800
          ∧ bufferMask (module wd2) = 3
          ∧ device_alloc_framebuffer kernel_ok (1920 * 800)
              (@GRALLOC_USAGE_HW_FB android_arm) wd2
            = Some ((-12, None), wd2).
Proof.
  assert (@scanout_ready BestFit.t world_display_full 1%positive display_handle)
    as Hready.
  { split; [reflexivity|reflexivity|vm_compute; split; reflexivity
           |vm_compute; split; [discriminate|reflexivity]
           |vm_compute; reflexivity]. }
  assert (@surface_fits BestFit.t world_display_full) as Hfits.
  { split; vm_compute; [reflexivity|discriminate]. }
  assert (@scanout_handle android_arm BestFit.t world_display_full 1%positive
            display_handle 3%positive slot1_handle 1) as Hslot.
  { split; [discriminate|reflexivity|reflexivity|vm_compute; discriminate
           |vm_compute; split; [discriminate|reflexivity]
           |vm_compute; reflexivity]. }
  pose proof (@framebuffer_slots android_arm BestFit.t bestfit_allocator
                (environment kernel_ok) gralloc_device_open (1920 * 800)
                (@GRALLOC_USAGE_HW_FB android_arm) world_display_full
                1%positive display_handle Hready) as Hslots.
  destruct Hslots as (Hfull & _ & Hfree).
  split; [exact (Hfull eq_refl)|].
  pose proof (Hfree 3%positive slot1_handle 1 Hfits Hslot) as Hfreed.
  destruct Hfreed as (wd1 & Hrun & Hmask & _ & Hnext).
  exists wd1. split; [exact Hrun|]. split; [exact Hmask|].
  exact (Hnext eq_refl).
Defined.

(** ** Further runs on concrete requests *)

Lemma roundUpToPageSize_least_multiple_witness :
  @roundUpToPageSize android_arm 5000 mod @PAGE_SIZE android_arm = 0
  ∧ 5000 ≤ @roundUpToPageSize android_arm 5000 < 5000 + @PAGE_SIZE android_arm.
Proof.
  assert (0 ≤ 12 ≤ 32) as Hk by lia.
  assert (0 ≤ 5000) as Hx by lia.
  assert (5000 + (@PAGE_SIZE android_arm - 1) < 2 ^ 32) as Hfit
    by (vm_compute; reflexivity).
  pose proof (@roundUpToPageSize_least_multiple android_arm 12 5000
                eq_refl Hk Hx Hfit) as H.
  destruct H as (H0 & H1 & _). split; [exact H0|exact H1].
Defined.

Lemma roundUpToPageSize_wraps_to_zero_witness :
  @roundUpToPageSize android_arm (2 ^ 32 - 1) = 0.
Proof.
  assert (0 ≤ 12 ≤ 32) as Hk by lia.
  assert (2 ^ 32 - @PAGE_SIZE android_arm < 2 ^ 32 - 1 < 2 ^ 32) as Hx
    by (split; vm_compute; reflexivity).
  exact (@roundUpToPageSize_wraps_to_zero android_arm 12 (2 ^ 32 - 1)
           eq_refl Hk Hx).
Defined.

Lemma gralloc_alloc_buffer_handle_iff_zero_witness :
  device_alloc_buffer kernel_ok 16384 0 boot
  = Some ((0, Some 1%positive), world_after_plain_alloc)
  ∧ heap boot !! 1%positive = None
  ∧ ∃ r, heap world_after_plain_alloc !! 1%positive = Some r.
Proof.
  assert (device_alloc_buffer kernel_ok 16384 0 boot
          = Some ((0, Some 1%positive), world_after_plain_alloc))
    as Hrun by (vm_compute; reflexivity).
  pose proof (@gralloc_alloc_buffer_handle_iff_zero android_arm BestFit.t
                bestfit_allocator (environment kernel_ok) gralloc_device_open
                16384 0 boot 0 (Some 1%positive) world_after_plain_alloc Hrun)
    as H.
  destruct H as (_ & _ & Hnew).
  pose proof (Hnew 1%positive eq_refl) as Hp. destruct Hp as (Hfresh & Hr & _).
  split; [exact Hrun|]. split; [exact Hfresh|exact Hr].
Defined.

Lemma gralloc_alloc_buffer_handle_fields_witness :
  ∃ r, heap world_after_texture_alloc !! 1%positive = Some r
       ∧ size r = sint32 (@roundUpToPageSize android_arm 16384)
       ∧ pid r = 1.
Proof.
  assert (device_alloc_buffer kernel_ok 16384 0x100 boot
          = Some ((0, Some 1%positive), world_after_texture_alloc))
    as Hrun by (vm_compute; reflexivity).
  pose proof (@gralloc_alloc_buffer_handle_fields android_arm BestFit.t
                bestfit_allocator (environment kernel_ok) gralloc_device_open
                16384 0x100 boot 0 1%positive world_after_texture_alloc Hrun)
    as H.
  destruct H as (r & Hr & Hsize & Hpid & _).
  exists r. split; [exact Hr|]. split; [exact Hsize|exact Hpid].
Defined.

Lemma gralloc_alloc_buffer_module_frame_witness :
  bufferMask (module world_after_texture_alloc) = bufferMask (module boot)
  ∧ numBuffers (module world_after_texture_alloc) = numBuffers (module boot).
Proof.
  assert (device_alloc_buffer kernel_ok 16384 0x100 boot
          = Some ((0, Some 1%positive), world_after_texture_alloc))
    as Hrun by (vm_compute; reflexivity).
  pose proof (@gralloc_alloc_buffer_module_frame android_arm BestFit.t
                bestfit_allocator (environment kernel_ok) gralloc_device_open
                16384 0x100 boot (0, Some 1%positive)
                world_after_texture_alloc Hrun) as H.
  destruct H as ((_ & Hn & Hmask & _) & _).
  split; [exact Hmask|exact Hn].
Defined.

Lemma gralloc_alloc_buffer_pool_exhausted_witness :
  ∃ wd',
    device_alloc_buffer kernel_ok 4096 0x200 world_gpu_pool_taken
    = Some ((-12, None), wd')
    ∧ heap wd' = heap world_gpu_pool_taken.
Proof.
  assert (@choose_backing android_arm (environment kernel_ok)
            gralloc_device_open 0x200
          = (PRIV_FLAGS_USES_PMEM, BUFFER_TYPE_GPU1)) as Hch
    by (vm_compute; reflexivity).
  assert (0 ≤ master_fd_of (module world_gpu_pool_taken) BUFFER_TYPE_GPU1)
    as Hopen by (vm_compute; discriminate).
  assert ((@allocate BestFit.t bestfit_allocator
             (pool_state (pool_of BUFFER_TYPE_GPU1) world_gpu_pool_taken)
             (@roundUpToPageSize android_arm 4096)).1 < 0) as Hfull
    by (vm_compute; reflexivity).
  pose proof (@gralloc_alloc_buffer_pool_exhausted android_arm BestFit.t
                bestfit_allocator (environment kernel_ok) gralloc_device_open
                4096 0x200 world_gpu_pool_taken BUFFER_TYPE_GPU1
                Hch Hopen Hfull) as H.
  destruct H as (wd' & Hrun & _ & Hheap & _).
  exists wd'. split; [exact Hrun|exact Hheap].
Defined.

Lemma contiguous_iff_extent_reserved_witness :
  ∃ r, heap world_after_texture_alloc !! 1%positive = Some r
       ∧ (usesPhysicallyContiguousMemory r = true → 0 ≤ fd r).
Proof.
  assert (ctx_bufferType gralloc_device_open ≠ BUFFER_TYPE_FB) as Hdev
    by discriminate.
  assert (pmem_master (module boot) = -1 ∨ 0 ≤ pmem_master (module boot))
    as Hpm by (left; reflexivity).
  assert (gpu_master (module boot) = -1 ∨ 0 ≤ gpu_master (module boot))
    as Hgm by (left; reflexivity).
  assert (device_alloc_buffer kernel_ok 16384 0x100 boot
          = Some ((0, Some 1%positive), world_after_texture_alloc))
    as Hrun by (vm_compute; reflexivity).
  pose proof (@contiguous_iff_extent_reserved android_arm BestFit.t
                bestfit_allocator (environment kernel_ok) gralloc_device_open
                16384 0x100 boot 0 1%positive world_after_texture_alloc
                Hdev Hpm Hgm Hrun) as H.
  destruct H as (r & evs & Hr & _ & _ & _ & Hcont).
  exists r. split; [exact Hr|]. intros Hc.
  pose proof (Hcont Hc) as Hf. destruct Hf as (_ & _ & Hfd & _). exact Hfd.
Defined.

Lemma gralloc_free_gives_extent_back_witness :
  ∃ wd2,
    device_free kernel_ok (Some 1%positive) world_after_texture_alloc
    = Some (0, wd2)
    ∧ module wd2 = module world_after_texture_alloc.
Proof.
  assert (ctx_bufferType gralloc_device_open ≠ BUFFER_TYPE_FB) as Hdev
    by discriminate.
  assert (pmem_master (module boot) = -1 ∨ 0 ≤ pmem_master (module boot))
    as Hpm by (left; reflexivity).
  assert (gpu_master (module boot) = -1 ∨ 0 ≤ gpu_master (module boot))
    as Hgm by (left; reflexivity).
  assert (device_alloc_buffer kernel_ok 16384 0x100 boot
          = Some ((0, Some 1%positive), world_after_texture_alloc))
    as Hrun by (vm_compute; reflexivity).
  assert (heap world_after_texture_alloc !! 1%positive = Some texture_handle)
    as Hr by (vm_compute; reflexivity).
  assert (usesPhysicallyContiguousMemory texture_handle = true) as Hc
    by (vm_compute; reflexivity).
  pose proof (@gralloc_free_gives_extent_back android_arm BestFit.t
                bestfit_allocator (environment kernel_ok) gralloc_device_open
                16384 0x100 boot 0 1%positive world_after_texture_alloc
                texture_handle Hdev Hpm Hgm Hrun Hr Hc) as H.
  cbv zeta in H. destruct H as (wd2 & rc & Hfree & _ & _ & _ & Hmod & _).
  exists wd2. split; [exact Hfree|exact Hmod].
Defined.

Lemma gralloc_alloc_opens_pool_devices_only_witness :
  ∃ evs,
    trace world_after_render_alloc = evs ++ trace boot
    ∧ ∀ ev path, In ev evs → opened ev = Some path →
        path = "/dev/pmem"%string ∨ path = "/dev/pmem_gpu1"%string.
Proof.
  assert (device_alloc kernel_ok 64 64 1 0x200 true true boot
          = Some ((0, Some 1%positive, Some 64), world_after_render_alloc))
    as Hrun by (vm_compute; reflexivity).
  pose proof (@gralloc_alloc_opens_pool_devices_only android_arm BestFit.t
                bestfit_allocator (environment kernel_ok) gralloc_device_open
                64 64 1 0x200 true true boot (0, Some 1%positive, Some 64)
                world_after_render_alloc Hrun) as H.
  destruct H as (evs & Ht & Hevs).
  exists evs. split; [exact Ht|].
  intros ev path Hin Hop.
  pose proof (Hevs ev path Hin Hop) as Hp.
  destruct Hp as [[Hfb _]|[_ Hp]]; [|exact (Hp eq_refl)].
  exfalso. apply Hfb. reflexivity.
Defined.

Lemma gralloc_alloc_stride_witness :
  device_alloc kernel_ok 63 64 (@HAL_PIXEL_FORMAT_RGB_565 android_arm) 0
    true true boot
  = Some ((0, Some 1%positive, Some 64), world_after_rgb565_alloc)
  ∧ 64 = 63 + 63 mod 2.
Proof.
  assert (@bytes_per_pixel android_arm (@HAL_PIXEL_FORMAT_RGB_565 android_arm)
          = Some 2) as Hbpp by reflexivity.
  assert (0 ≤ 63) as Hw by lia.
  assert (63 * 2 + 3 < 2 ^ 31) as Hrow by lia.
  assert (device_alloc kernel_ok 63 64 (@HAL_PIXEL_FORMAT_RGB_565 android_arm)
            0 true true boot
          = Some ((0, Some 1%positive, Some 64), world_after_rgb565_alloc))
    as Hrun by (vm_compute; reflexivity).
  pose proof (@gralloc_alloc_stride android_arm BestFit.t bestfit_allocator
                (environment kernel_ok) gralloc_device_open 63 64
                (@HAL_PIXEL_FORMAT_RGB_565 android_arm) 0 boot 0
                (Some 1%positive) 64 world_after_rgb565_alloc 2
                Hbpp Hw Hrow Hrun) as H.
  destruct H as (_ & _ & _ & _ & Heven).
  split; [exact Hrun|exact (Heven eq_refl)].
Defined.

Lemma gralloc_alloc_stride_iff_zero_witness :
  device_alloc kernel_ok 63 64 (@HAL_PIXEL_FORMAT_RGB_565 android_arm) 0
    true true boot
  = Some ((0, Some 1%positive, Some 64), world_after_rgb565_alloc)
  ∧ (0 = 0 ↔ ∃ s, Some 64 = Some s).
Proof.
  assert (device_alloc kernel_ok 63 64 (@HAL_PIXEL_FORMAT_RGB_565 android_arm)
            0 true true boot
          = Some ((0, Some 1%positive, Some 64), world_after_rgb565_alloc))
    as Hrun by (vm_compute; reflexivity).
  pose proof (@gralloc_alloc_stride_iff_zero android_arm BestFit.t
                bestfit_allocator (environment kernel_ok) gralloc_device_open
                63 64 (@HAL_PIXEL_FORMAT_RGB_565 android_arm) 0 true true boot
                0 (Some 1%positive) (Some 64) world_after_rgb565_alloc Hrun)
    as H.
  destruct H as (_ & Hiff & _). split; [exact Hrun|exact Hiff].
Defined.

Lemma init_pmem_area_mmap_fails_witness :
  ∃ x wd',
    @init_pmem_area android_arm BestFit.t bestfit_allocator
      (environment kernel_mmap_fails) BUFFER_TYPE_GPU1 boot
    = Some (x, wd')
    ∧ x < 0
    ∧ master_fd_of (module wd') BUFFER_TYPE_GPU1 = -1.
Proof.
  pose proof (@init_pmem_area_mmap_fails android_arm BestFit.t
                bestfit_allocator (environment kernel_mmap_fails)
                BUFFER_TYPE_GPU1 "/dev/pmem_gpu1" boot 3%N 12%positive
                eq_refl eq_refl eq_refl) as H.
  destruct H as (x & wd' & rc & evs & Hrun & Hneg & Hfd & _).
  exists x, wd'. split; [exact Hrun|]. split; [exact Hneg|exact Hfd].
Defined.

Lemma init_pmem_area_gpu_maps_pool_witness :
  ∃ x wd',
    @init_pmem_area android_arm BestFit.t bestfit_allocator
      (environment kernel_ok) BUFFER_TYPE_GPU1 boot
    = Some (x, wd')
    ∧ gpu_master (module wd') = 3
    ∧ gpu_master_base (module wd') = 0x40000000.
Proof.
  assert (BUFFER_TYPE_GPU1 ≠ BUFFER_TYPE_PMEM) as Hbt by discriminate.
  pose proof (@init_pmem_area_gpu_maps_pool android_arm BestFit.t
                bestfit_allocator (environment kernel_ok)
                BUFFER_TYPE_GPU1 "/dev/pmem_gpu1" boot 3%N 0x40000000%N
                eq_refl Hbt eq_refl eq_refl) as H.
  destruct H as (x & wd' & Hrun & Hfd & Hbase & _).
  exists x, wd'. split; [exact Hrun|]. split; [exact Hfd|exact Hbase].
Defined.

Lemma gralloc_free_never_sets_slot_bit_witness :
  device_free kernel_ok (Some 1%positive) world_after_texture_alloc
  = Some (0, world_after_texture_free)
  ∧ module world_after_texture_free
    = set_bufferMask (bufferMask (module world_after_texture_free))
        (module world_after_texture_alloc).
Proof.
  assert (device_free kernel_ok (Some 1%positive) world_after_texture_alloc
          = Some (0, world_after_texture_free)) as Hrun
    by (vm_compute; reflexivity).
  pose proof (@gralloc_free_never_sets_slot_bit android_arm BestFit.t
                bestfit_allocator (environment kernel_ok) (Some 1%positive)
                world_after_texture_alloc 0 world_after_texture_free Hrun)
    as H.
  destruct H as (_ & Hmod & _). split; [exact Hrun|exact Hmod].
Defined.

Lemma gralloc_free_negative_descriptor_witness :
  ∃ wd',
    device_free kernel_ok (Some 1%positive) world_with_closed_handle
    = Some (0, wd')
    ∧ sAllocator wd' = sAllocator world_with_closed_handle
    ∧ sGPUAllocator wd' = sGPUAllocator world_with_closed_handle.
Proof.
  assert (heap world_with_closed_handle !! 1%positive = Some closed_handle)
    as Hr by reflexivity.
  assert (@validate android_arm (Some closed_handle) = 0) as Hv
    by reflexivity.
  assert (Z.land (flags closed_handle) PRIV_FLAGS_FRAMEBUFFER = 0) as Hfl
    by reflexivity.
  assert (fd closed_handle < 0) as Hfd by reflexivity.
  pose proof (@gralloc_free_negative_descriptor android_arm BestFit.t
                bestfit_allocator (environment kernel_ok)
                world_with_closed_handle 1%positive closed_handle
                Hr Hv Hfl Hfd) as H.
  destruct H as (wd' & rc & Hrun & _ & _ & Hs & Hg & _).
  exists wd'. split; [exact Hrun|]. split; [exact Hs|exact Hg].
Defined.

Lemma gralloc_free_slot_needs_mapped_display_witness :
  device_free kernel_ok (Some 3%positive) world_slot_without_display = None.
Proof.
  assert (heap world_slot_without_display !! 3%positive = Some slot1_handle)
    as Hr by reflexivity.
  assert (@validate android_arm (Some slot1_handle) = 0) as Hv by reflexivity.
  assert (Z.land (flags slot1_handle) PRIV_FLAGS_FRAMEBUFFER ≠ 0) as Hfl
    by (vm_compute; discriminate).
  assert (framebuffer (module world_slot_without_display) = None
          ∨ slot_size (module world_slot_without_display) = 0) as Hbad
    by (left; reflexivity).
  exact (@gralloc_free_slot_needs_mapped_display android_arm BestFit.t
           bestfit_allocator (environment kernel_ok)
           world_slot_without_display 3%positive slot1_handle
           Hr Hv Hfl Hbad).
Defined.

Lemma scanout_handle_from_dup_witness :
  ∃ p r wd',
    device_alloc_framebuffer kernel_ok (1920 * 800)
      (@GRALLOC_USAGE_HW_FB android_arm) world_display_half
    = Some ((0, Some p), wd')
    ∧ heap wd' !! p = Some r
    ∧ bufferType r = BUFFER_TYPE_FB.
Proof.
  assert (@scanout_ready BestFit.t world_display_half 1%positive display_handle)
    as Hready.
  { split; [reflexivity|reflexivity|vm_compute; split; reflexivity
           |vm_compute; split; [discriminate|reflexivity]
           |vm_compute; reflexivity]. }
  assert (bufferMask (module world_display_half)
          ≠ 2 ^ numBuffers (module world_display_half) - 1) as Hfree
    by (vm_compute; discriminate).
  pose proof (@scanout_handle_from_dup android_arm BestFit.t bestfit_allocator
                (environment kernel_ok) gralloc_device_open (1920 * 800)
                (@GRALLOC_USAGE_HW_FB android_arm) world_display_half
                1%positive display_handle Hready Hfree) as H.
  destruct H as (p & r & wd' & Hrun & Hr & _ & _ & _ & _ & Hbt & _).
  exists p, r, wd'. split; [exact Hrun|]. split; [exact Hr|exact Hbt].
Defined.

Lemma successive_scanout_buffers_differ_witness :
  ∃ r1 r2,
    heap world_after_second_scanout !! 2%positive = Some r1
    ∧ heap world_after_second_scanout !! 3%positive = Some r2
    ∧ base r1 ≠ base r2.
Proof.
  assert (@scanout_ready BestFit.t world_display_free 1%positive display_handle)
    as Hready.
  { split; [reflexivity|reflexivity|vm_compute; split; reflexivity
           |vm_compute; split; [discriminate|reflexivity]
           |vm_compute; reflexivity]. }
  assert (@surface_fits BestFit.t world_display_free) as Hfits.
  { split; vm_compute; [reflexivity|discriminate]. }
  assert (device_alloc_framebuffer kernel_ok (1920 * 800) 0x1000
            world_display_free
          = Some ((0, Some 2%positive), world_after_first_scanout))
    as Hrun1 by (vm_compute; reflexivity).
  assert (device_alloc_framebuffer kernel_ok (1920 * 800) 0x1000
            world_after_first_scanout
          = Some ((0, Some 3%positive), world_after_second_scanout))
    as Hrun2 by (vm_compute; reflexivity).
  pose proof (@successive_scanout_buffers_differ android_arm BestFit.t
                bestfit_allocator (environment kernel_ok) gralloc_device_open
                (1920 * 800) 0x1000 (1920 * 800) 0x1000 world_display_free
                1%positive display_handle 2%positive world_after_first_scanout
                3%positive world_after_second_scanout
                Hready Hfits Hrun1 Hrun2) as H.
  destruct H as (_ & r1 & r2 & i1 & i2 & Hr1 & Hr2 & _ & _ & _ & _ & _ & Hne
                 & _).
  exists r1, r2. split; [exact Hr1|]. split; [exact Hr2|exact Hne].
Defined.


Lemma gralloc_alloc_buffer_holds_image_witness :
  ∃ r, heap world_after_rgb565_alloc !! 1%positive = Some r
       ∧ 63 * 2 * 64 ≤ size r.
Proof.
  assert (@bytes_per_pixel android_arm (@HAL_PIXEL_FORMAT_RGB_565 android_arm)
          = Some 2) as Hbpp by reflexivity.
  assert (0 ≤ 12 ≤ 32) as Hk by lia.
  assert (Z.land 0 (@GRALLOC_USAGE_HW_FB android_arm) = 0) as Hfb
    by reflexivity.
  assert (0 ≤ 63) as Hw by lia.
  assert (0 ≤ 64) as Hh by lia.
  assert (63 * 2 + 3 < 2 ^ 31) as Hrow by lia.
  assert ((63 * 2 + 3) * 64 + (@PAGE_SIZE android_arm - 1) < 2 ^ 31) as Himg
    by (vm_compute; reflexivity).
  assert (device_alloc kernel_ok 63 64 (@HAL_PIXEL_FORMAT_RGB_565 android_arm)
            0 true true boot
          = Some ((0, Some 1%positive, Some 64), world_after_rgb565_alloc))
    as Hrun by (vm_compute; reflexivity).
  pose proof (@gralloc_alloc_buffer_holds_image android_arm BestFit.t
                bestfit_allocator (environment kernel_ok) gralloc_device_open
                63 64 (@HAL_PIXEL_FORMAT_RGB_565 android_arm) 0 boot
                1%positive 64 world_after_rgb565_alloc 2 12
                Hbpp eq_refl Hk Hfb Hw Hh Hrow Himg Hrun) as H.
  destruct H as (r & Hr & _ & _ & Hbig).
  exists r. split; [exact Hr|exact Hbig].
Defined.

Lemma gralloc_alloc_framebuffer_map_fails_witness :
  returned
    (@gralloc_alloc android_arm BestFit.t bestfit_allocator
       environment_without_display gralloc_device_open 480 800
       (@HAL_PIXEL_FORMAT_RGBA_8888 android_arm)
       (@GRALLOC_USAGE_HW_FB android_arm) true true boot)
  = Some (-19, None, None).
Proof.
  assert (@bytes_per_pixel android_arm (@HAL_PIXEL_FORMAT_RGBA_8888 android_arm)
          ≠ None) as Hfmt by discriminate.
  assert (Z.land (@GRALLOC_USAGE_HW_FB android_arm)
            (@GRALLOC_USAGE_HW_FB android_arm) ≠ 0) as Hfb
    by (vm_compute; discriminate).
  assert (framebuffer (module boot) = None) as Hnone by reflexivity.
  assert (map_ret (@mapFrameBufferLocked environment_without_display
                     (trace boot) (errno boot) (module boot) (heap boot)) < 0)
    as Herr by reflexivity.
  pose proof (@gralloc_alloc_framebuffer_map_fails android_arm BestFit.t
                bestfit_allocator environment_without_display
                gralloc_device_open 480 800
                (@HAL_PIXEL_FORMAT_RGBA_8888 android_arm)
                (@GRALLOC_USAGE_HW_FB android_arm) boot
                Hfmt Hfb Hnone Herr) as H.
  unfold returned. rewrite H. reflexivity.
Defined.

Lemma pool_is_mapped_once_witness :
  0 ≤ master_fd_of (module world_after_texture_alloc) (bufferType texture_handle)
  ∧ module world_after_second_texture_alloc = module world_after_texture_alloc.
Proof.
  assert (ctx_bufferType gralloc_device_open ≠ BUFFER_TYPE_FB) as Hdev
    by discriminate.
  assert (pmem_master (module boot) = -1 ∨ 0 ≤ pmem_master (module boot))
    as Hpm by (left; reflexivity).
  assert (gpu_master (module boot) = -1 ∨ 0 ≤ gpu_master (module boot))
    as Hgm by (left; reflexivity).
  assert (device_alloc_buffer kernel_ok 16384 0x100 boot
          = Some ((0, Some 1%positive), world_after_texture_alloc))
    as Hrun1 by (vm_compute; reflexivity).
  assert (heap world_after_texture_alloc !! 1%positive = Some texture_handle)
    as Hr by (vm_compute; reflexivity).
  assert (usesPhysicallyContiguousMemory texture_handle = true) as Hc
    by (vm_compute; reflexivity).
  assert (pool_of (@choose_backing android_arm (environment kernel_ok)
                     gralloc_device_open 0x100).2
          = pool_of (bufferType texture_handle)) as Hsame
    by (vm_compute; reflexivity).
  assert (device_alloc_buffer kernel_ok 16384 0x100 world_after_texture_alloc
          = Some ((0, Some 2%positive), world_after_second_texture_alloc))
    as Hrun2 by (vm_compute; reflexivity).
  pose proof (@pool_is_mapped_once android_arm BestFit.t bestfit_allocator
                (environment kernel_ok) gralloc_device_open 16384 0x100
                16384 0x100 boot 0 1%positive world_after_texture_alloc
                texture_handle (0, Some 2%positive)
                world_after_second_texture_alloc
                Hdev Hpm Hgm Hrun1 Hr Hc Hsame Hrun2) as H.
  destruct H as (Hopen & Hmod & _). split; [exact Hopen|exact Hmod].
Defined.
